(** * Job Board Portal: role-based access control and job-alert matching

    A shallow embedding of the authorization and notification code of the
    Django job board (accounts/mixins.py, admin.py, jobs/admin.py,
    jobs/signals.py, jobs/views.py, jobs/forms.py, jobs/models.py,
    companies/views.py), with the properties its specification states about
    it and further properties of the code.

    Conventions of the embedding:
    - a database table with an integer primary key is a [gmap N row]
      together with the next value of its auto-increment sequence;
    - a queryset that is iterated is the list of its rows in iteration order;
    - Python text is modelled over the code points U+0000 to U+00FF: a
      character is one [ascii], its code point the number of the [ascii], and
      a [str] is the [string] of its characters.  On these code points
      [str.lower], [str.isspace] and the classes [\s] and [\w] of [re] are
      Python's own, code point for code point; text with other code points
      has no counterpart in the model, and the statements about text are
      statements about text of this range;
    - code that may raise runs in a state-and-exception monad whose state
      survives a raise, as Python's heap and an autocommit database do. *)

From Stdlib Require Import ZArith Bool List Ascii String Lia.
From stdpp Require Import base option list gmap strings.

Local Open Scope string_scope.

(** ** Python strings *)

Module Py.

(** The fold of the ASCII letters. *)
Definition ascii_lower (c : ascii) : ascii :=
  let n := nat_of_ascii c in
  if (65 <=? n)%nat && (n <=? 90)%nat then ascii_of_nat (n + 32) else c.

(** [c.lower()] of one character: the letters A to Z, and the letters from
    U+00C0 to U+00DE (the sign U+00D7 is none) each have their lower-case
    letter 32 places on. *)
Definition char_lower (c : ascii) : ascii :=
  let n := nat_of_ascii c in
  if ((65 <=? n)%nat && (n <=? 90)%nat)
     || ((192 <=? n)%nat && (n <=? 222)%nat && negb (n =? 215)%nat)
  then ascii_of_nat (n + 32) else c.

(** A string with [f] applied to each character. *)
Fixpoint translate (f : ascii -> ascii) (s : string) : string :=
  match s with
  | EmptyString => EmptyString
  | String c s' => String (f c) (translate f s')
  end.

(** [s.lower()] *)
Fixpoint lower (s : string) : string :=
  match s with
  | EmptyString => EmptyString
  | String c s' => String (char_lower c) (lower s')
  end.

(** [s.startswith(p)] *)
Fixpoint startswith (p s : string) : bool :=
  match p, s with
  | EmptyString, _ => true
  | String _ _, EmptyString => false
  | String a p', String b s' => Ascii.eqb a b && startswith p' s'
  end.

(** [needle in hay] on two strings: the empty needle is in every string. *)
Fixpoint contains (needle hay : string) : bool :=
  startswith needle hay ||
  match hay with
  | EmptyString => false
  | String _ hay' => contains needle hay'
  end.

(** [c.isspace()], the characters [str.split()] and [str.strip()] treat as
    blank and the class [\s] of [re]: the space, U+0009 to U+000D, U+001C to
    U+001F, the next-line character U+0085 and the no-break space U+00A0. *)
Definition isspace (c : ascii) : bool :=
  let n := nat_of_ascii c in
  (n =? 32)%nat || ((9 <=? n)%nat && (n <=? 13)%nat)
  || ((28 <=? n)%nat && (n <=? 31)%nat)
  || (n =? 133)%nat || (n =? 160)%nat.

Definition flush (cur : string) (acc : list string) : list string :=
  match cur with
  | EmptyString => acc
  | _ => String.rev cur :: acc
  end.

(** [cur] is the word being read, last character first. *)
Fixpoint split_from (cur : string) (s : string) : list string :=
  match s with
  | EmptyString => flush cur []
  | String c s' =>
      if isspace c then flush cur (split_from EmptyString s')
      else split_from (String c cur) s'
  end.

(** [s.split()]: the maximal runs of non-blank characters. *)
Definition split (s : string) : list string := split_from EmptyString s.

Fixpoint lstrip (s : string) : string :=
  match s with
  | String c s' => if isspace c then lstrip s' else s
  | EmptyString => EmptyString
  end.

(** [s.strip()] *)
Definition strip (s : string) : string :=
  String.rev (lstrip (String.rev (lstrip s))).

(** [any(f(x) for x in l)] *)
Definition any {A} (f : A -> bool) (l : list A) : bool := existsb f l.

End Py.

(** ** Database lookups used by the querysets *)

Module Lookup.

(** [value] occurs in [field], compared without case as Python folds it. *)
Definition icontains (field value : string) : bool :=
  Py.contains (Py.lower value) (Py.lower field).

(** How the database folds a character before it compares two texts without
    case.  It depends on the database the project's settings select: the
    LIKE of SQLite folds the ASCII letters and no others ([Py.ascii_lower]),
    the UPPER of PostgreSQL tells apart the characters that [Py.char_lower]
    tells apart, and a collation of MySQL may fold accents as well. *)
Abbreviation Fold := (ascii -> ascii).

(** [field__icontains=value] in a WHERE clause: [field LIKE '%value%'], the
    wildcards of [value] escaped. *)
Definition like (fold : Fold) (field value : string) : bool :=
  Py.contains (Py.translate fold value) (Py.translate fold field).

(** The comparison behind [field__in=[...]] and [field=value] on text.  It
    depends on the collation of the database: SQLite and PostgreSQL compare
    text exactly, MySQL's default collation compares it folded. *)
Inductive Collation := CaseSensitive | CaseInsensitive.

Definition exact (coll : Collation) (fold : Fold) (field value : string)
  : bool :=
  match coll with
  | CaseSensitive => String.eqb field value
  | CaseInsensitive =>
      String.eqb (Py.translate fold field) (Py.translate fold value)
  end.

Definition in_list (coll : Collation) (fold : Fold) (field : string)
    (values : list string) : bool :=
  existsb (exact coll fold field) values.

End Lookup.

(** ** Calendar dates ([datetime.date]) *)

Module Date.

Record t := mk { year : Z; month : Z; day : Z }.

Definition is_leap (y : Z) : bool :=
  ((y mod 4 =? 0) && negb (y mod 100 =? 0) || (y mod 400 =? 0))%Z.

Definition days_in_month (y m : Z) : Z :=
  if (m =? 2)%Z then (if is_leap y then 29 else 28)
  else if ((m =? 4) || (m =? 6) || (m =? 9) || (m =? 11))%Z then 30
  else 31.

(** The check the constructor [date(year, month, day)] performs. *)
Definition valid (d : t) : bool :=
  ((1 <=? year d) && (year d <=? 9999) &&
   (1 <=? month d) && (month d <=? 12) &&
   (1 <=? day d) && (day d <=? days_in_month (year d) (month d)))%Z.

(** [a < b] *)
Definition ltb (a b : t) : bool :=
  ((year a <? year b)
   || ((year a =? year b) &&
       ((month a <? month b) || ((month a =? month b) && (day a <? day b)))))%Z.

(** [a <= b] *)
Definition leb (a b : t) : bool := negb (ltb b a).

(** [d.replace(year=y)] builds [date(y, d.month, d.day)], which raises
    ValueError when that is no date of the calendar. *)
Definition replace_year (d : t) (y : Z) : option t :=
  let d' := mk y (month d) (day d) in
  if valid d' then Some d' else None.

End Date.

(** ** The data model (accounts/models.py, companies/models.py, jobs/models.py)

    A model instance carries the related instances its code navigates to
    ([job.company.user], [alert.user.email]); two instances of a model are
    equal when their primary keys are, as [Model.__eq__] has it. *)

Module UserProfile.
Record t := mk { user_type : string }.
End UserProfile.

Module User.
Record t := mk {
  pk : N;
  username : string;
  first_name : string;
  email : string;
  is_active : bool;
  is_staff : bool;
  is_superuser : bool;
  (** [hasattr(user, 'userprofile')] is [is_Some] of this field. *)
  userprofile : option UserProfile.t;
  (** names of the groups the user belongs to *)
  groups : list string;
  (** permissions granted to the user directly, as ["app_label.codename"] *)
  user_permissions : list string
}.

Definition eqb (u v : t) : bool := (pk u =? pk v)%N.

(** [hasattr(user, 'userprofile') and user.userprofile.user_type == role] *)
Definition has_role (u : t) (role : string) : bool :=
  match userprofile u with
  | Some p => String.eqb (UserProfile.user_type p) role
  | None => false
  end.
End User.

(** [request.user]: an [AnonymousUser] or a logged-in [User]. *)
Inductive RequestUser :=
| AnonymousUser
| Authenticated (u : User.t).

Definition is_authenticated (ru : RequestUser) : bool :=
  match ru with AnonymousUser => false | Authenticated _ => true end.

(** [request.user == other] *)
Definition request_user_is (ru : RequestUser) (other : User.t) : bool :=
  match ru with
  | AnonymousUser => false
  | Authenticated u => User.eqb u other
  end.

(** [hasattr(request.user, 'userprofile') and
     request.user.userprofile.user_type == role] *)
Definition request_user_has_role (ru : RequestUser) (role : string) : bool :=
  match ru with
  | AnonymousUser => false
  | Authenticated u => User.has_role u role
  end.

Module Company.
Record t := mk {
  pk : N;
  user : User.t;
  name : string;
  location : string
}.
End Company.

Module Job.
Record t := mk {
  pk : N;
  company : Company.t;
  title : string;
  description : string;
  requirements : string;
  location : string;
  (** hundredths of the currency unit (a DecimalField with two places) *)
  salary : Z;
  deadline : Date.t
}.

(** The property [Job.is_active]: [self.deadline > timezone.now().date()]. *)
Definition is_active (today : Date.t) (j : t) : bool :=
  Date.ltb today (deadline j).
End Job.

Module ApplicationStatus.
Inductive t := applied | under_review | shortlisted | rejected.
End ApplicationStatus.

Module Application.
Record t := mk {
  job : Job.t;
  applicant : User.t;
  resume : string;
  cover_letter : string;
  status : ApplicationStatus.t
}.
End Application.

Module JobAlert.
Record t := mk {
  pk : N;
  user : User.t;
  keyword : string;
  location : string
}.
End JobAlert.

(** A row of a table kept as a [gmap] has its primary key as the key. *)
Module JobAlertNotification.
Record t := mk {
  user : User.t;
  job : Job.t;
  job_alert : JobAlert.t;
  message : string;
  is_read : bool;
  created_at : Z
}.

Definition set_is_read (b : bool) (n : t) : t :=
  mk (user n) (job n) (job_alert n) (message n) b (created_at n).
End JobAlertNotification.

(** ** Effects: state that survives a raise *)

(** The exception classes the code raises or catches. *)
Inductive Exn :=
| PermissionDenied (message : string)
| Http404
| ValidationError (message : string)
| ValueError (message : string)
| IntegrityError
| OtherError (class_name : string).

Inductive Result (A : Type) :=
| Ok (a : A)
| Raise (e : Exn).
Arguments Ok {A} a.
Arguments Raise {A} e.

Module Eff.
Section Monad.
Context {W : Type}.

Definition M (A : Type) : Type := W -> Result A * W.

Definition ret {A} (a : A) : M A := fun w => (Ok a, w).

Definition bind {A B} (m : M A) (k : A -> M B) : M B :=
  fun w =>
    match m w with
    | (Ok a, w') => k a w'
    | (Raise e, w') => (Raise e, w')
    end.

Definition raise {A} (e : Exn) : M A := fun w => (Raise e, w).

(** [try: body / except Exception as e: handler(e)] *)
Definition try_except {A} (body : M A) (handler : Exn -> M A) : M A :=
  fun w =>
    match body w with
    | (Ok a, w') => (Ok a, w')
    | (Raise e, w') => handler e w'
    end.

Definition modify (f : W -> W) : M unit := fun w => (Ok tt, f w).

(** [for x in l: acc = body(x, acc)], the loop variable [acc] standing for
    the locals the body reassigns. *)
Fixpoint for_each {A S} (l : list A) (body : A -> S -> M S) (acc : S) : M S :=
  match l with
  | [] => ret acc
  | x :: l' => bind (body x acc) (for_each l' body)
  end.

End Monad.
End Eff.

Notation "x <- m ;; k" := (Eff.bind m (fun x => k))
  (at level 100, m at next level, right associativity).
Notation "m ;;; k" := (Eff.bind m (fun _ => k))
  (at level 100, right associativity).

(** ** jobs/signals.py: alert matching and notification fan-out *)

Module Signals.

(** What the handlers write to the logger. *)
Inductive LogRecord :=
| ErrorProcessingAlert (alert_id : N) (e : Exn)
| SentAlertNotifications (notification_count : nat) (title : string)
| CreatedNotification (notification_id : N) (username title company : string)
| SentEmailNotification (to : string)
| ErrorSendingEmail (e : Exn)
| ErrorCreatingNotification (e : Exn).

(** A message handed to [send_mail] (the body text is not modelled). *)
Record Email := mkEmail {
  subject : string;
  from_email : string;
  recipient_list : list string
}.

Record World := mkWorld {
  (** the rows of [JobAlert.objects], in queryset order *)
  job_alerts : list JobAlert.t;
  (** the table of [JobAlertNotification] and its id sequence *)
  notifications : gmap N JobAlertNotification.t;
  notification_seq : N;
  log : list LogRecord;
  outbox : list Email;
  (** the clock [auto_now_add] reads *)
  now : Z
}.

(** What the handlers read of [django.conf.settings], and how the configured
    database compares text. *)
Record Settings := mkSettings {
  DEFAULT_FROM_EMAIL : string;
  collation : Lookup.Collation;
  like_fold : Lookup.Fold
}.

(** [hasattr(settings, 'EMAIL_HOST')]: the settings object answers for every
    name of Django's global defaults, and EMAIL_HOST is one of them, so the
    test holds whatever the project's own settings say. *)
Definition has_EMAIL_HOST (settings : Settings) : bool := true.
Global Opaque has_EMAIL_HOST.

(** The ways the collaborators of the handlers can fail: for each alert, the
    exception (if any) met while its criteria are evaluated, the one raised by
    [JobAlertNotification.objects.create], and the one that escapes
    [send_mail]. *)
Record Faults := mkFaults {
  criteria_fault : JobAlert.t -> option Exn;
  create_fault : JobAlert.t -> option Exn;
  send_mail_fault : JobAlert.t -> option Exn
}.

Definition no_faults : Faults :=
  mkFaults (fun _ => None) (fun _ => None) (fun _ => None).

Section Handlers.
Variable settings : Settings.
Variable faults : Faults.

Abbreviation M := (@Eff.M World).

Definition logger (r : LogRecord) : M unit :=
  Eff.modify (fun w =>
    mkWorld (job_alerts w) (notifications w) (notification_seq w)
            (log w ++ [r]) (outbox w) (now w)).

(** Raise what the oracle holds, if anything. *)
Definition may_raise (f : option Exn) : M unit :=
  match f with
  | Some e => Eff.raise e
  | None => Eff.ret tt
  end.

(** [JobAlertNotification.objects.create(user=alert.user, job=job,
    job_alert=alert, message=message)]: [is_read] takes its default. *)
Definition JobAlertNotification_objects_create
    (alert : JobAlert.t) (job : Job.t) (message : string)
  : M (N * JobAlertNotification.t) :=
  may_raise (create_fault faults alert) ;;;
  fun w =>
    let id := notification_seq w in
    let n := JobAlertNotification.mk (JobAlert.user alert) job alert
               message false (now w) in
    (Ok (id, n),
     mkWorld (job_alerts w) (<[id := n]> (notifications w)) (id + 1)%N
             (log w) (outbox w) (now w)).

Definition send_mail (alert : JobAlert.t) (m : Email) : M unit :=
  may_raise (send_mail_fault faults alert) ;;;
  Eff.modify (fun w =>
    mkWorld (job_alerts w) (notifications w) (notification_seq w)
            (log w) (outbox w ++ [m]) (now w)).

Definition notification_message (job : Job.t) : string :=
  "New job alert match: " +:+ Job.title job +:+ " at " +:+
  Company.name (Job.company job) +:+ " in " +:+ Job.location job.

Definition truthy (s : string) : bool :=
  match s with EmptyString => false | _ => true end.

Definition send_job_alert_notification (alert : JobAlert.t) (job : Job.t)
  : M bool :=
  Eff.try_except
    (let message := notification_message job in
     notification <- JobAlertNotification_objects_create alert job message ;;
     logger (CreatedNotification (fst notification)
               (User.username (JobAlert.user alert)) (Job.title job)
               (Company.name (Job.company job))) ;;;
     (if has_EMAIL_HOST settings && truthy (User.email (JobAlert.user alert))
      then
        Eff.try_except
          (let subject := "Job Alert: " +:+ Job.title job +:+ " at " +:+
                          Company.name (Job.company job) in
           send_mail alert
             (mkEmail subject (DEFAULT_FROM_EMAIL settings)
                      [User.email (JobAlert.user alert)]) ;;;
           logger (SentEmailNotification (User.email (JobAlert.user alert))))
          (fun e => logger (ErrorSendingEmail e))
      else Eff.ret tt) ;;;
     Eff.ret true)
    (fun e => logger (ErrorCreatingNotification e) ;;; Eff.ret false).

(** The three querysets of the receiver, each as the condition of its WHERE
    clause on a row of [JobAlert]. *)
Definition matching_alerts (job : Job.t) (a : JobAlert.t) : bool :=
  Lookup.like (like_fold settings) (JobAlert.keyword a) (Job.title job)
  && Lookup.like (like_fold settings) (JobAlert.location a) (Job.location job).

Definition keyword_matches (job : Job.t) (a : JobAlert.t) : bool :=
  Lookup.like (like_fold settings) (JobAlert.keyword a) (Job.title job)
  || Lookup.in_list (collation settings) (like_fold settings)
       (JobAlert.keyword a) (map Py.strip (Py.split (Job.title job))).

Definition location_matches (job : Job.t) (a : JobAlert.t) : bool :=
  Lookup.like (like_fold settings) (JobAlert.location a) (Job.location job).

(** [(matching_alerts | keyword_matches | location_matches).distinct()] *)
Definition in_all_matches (job : Job.t) (a : JobAlert.t) : bool :=
  matching_alerts job a || keyword_matches job a || location_matches job a.

Definition all_matches (job : Job.t) (alerts : list JobAlert.t)
  : list JobAlert.t :=
  List.filter (in_all_matches job) alerts.

(** The test made inside the loop. *)
Definition keyword_match (alert : JobAlert.t) (job : Job.t) : bool :=
  Py.contains (Py.lower (JobAlert.keyword alert)) (Py.lower (Job.title job))
  || Py.contains (Py.lower (JobAlert.keyword alert))
                 (Py.lower (Job.description job))
  || Py.any (fun word => Py.contains (Py.lower word) (Py.lower (Job.title job)))
            (Py.split (JobAlert.keyword alert)).

Definition location_match (alert : JobAlert.t) (job : Job.t) : bool :=
  Py.contains (Py.lower (JobAlert.location alert)) (Py.lower (Job.location job))
  || Py.contains (Py.lower (Job.location job))
                 (Py.lower (JobAlert.location alert)).

(** One turn of [for alert in all_matches], [count] being
    [notification_count]. *)
Definition process_alert (job : Job.t) (alert : JobAlert.t) (count : nat)
  : M nat :=
  Eff.try_except
    (may_raise (criteria_fault faults alert) ;;;
     if keyword_match alert job && location_match alert job then
       _ <- send_job_alert_notification alert job ;;
       Eff.ret (S count)
     else Eff.ret count)
    (fun e => logger (ErrorProcessingAlert (JobAlert.pk alert) e) ;;;
              Eff.ret count).

(** The receiver of [post_save] for [Job]. *)
Definition check_job_alerts (instance : Job.t) (created : bool) : M unit :=
  if negb created then Eff.ret tt
  else
    let job := instance in
    fun w =>
      (notification_count <-
         Eff.for_each (all_matches job (job_alerts w)) (process_alert job) 0%nat ;;
       if (0 <? notification_count)%nat
       then logger (SentAlertNotifications notification_count (Job.title job))
       else Eff.ret tt) w.

(** A save of a [Job] as the receiver sees it: [created] tells an INSERT from
    an UPDATE. *)
Record JobSaved := mkJobSaved { saved_instance : Job.t; saved_created : bool }.

(** The receiver run on a history of saves. *)
Fixpoint post_save_all (saves : list JobSaved) : M unit :=
  match saves with
  | [] => Eff.ret tt
  | s :: rest =>
      check_job_alerts (saved_instance s) (saved_created s) ;;;
      post_save_all rest
  end.

End Handlers.

(** The predicate of the specification: keyword or token match, and a
    location contained either way. *)
Definition spec_keyword_match (alert : JobAlert.t) (job : Job.t) : bool :=
  Lookup.icontains (Job.title job) (JobAlert.keyword alert)
  || Lookup.icontains (Job.description job) (JobAlert.keyword alert).

Definition spec_token_match (alert : JobAlert.t) (job : Job.t) : bool :=
  existsb (fun token => Lookup.icontains (Job.title job) token)
          (Py.split (JobAlert.keyword alert)).

Definition spec_location_match (alert : JobAlert.t) (job : Job.t) : bool :=
  Lookup.icontains (Job.location job) (JobAlert.location alert)
  || Lookup.icontains (JobAlert.location alert) (Job.location job).

Definition spec_match (alert : JobAlert.t) (job : Job.t) : bool :=
  (spec_keyword_match alert job || spec_token_match alert job)
  && spec_location_match alert job.

End Signals.

(** ** Model permissions (django.contrib.auth, as the admin classes use it) *)

Module Auth.

(** The table of groups: the permissions of each group, by group name.  A
    permission is written ["app_label.codename"], as [has_perm] takes it. *)
Abbreviation Groups := (gmap string (list string)).

Definition group_permissions (groups : Groups) (name : string) : list string :=
  default [] (groups !! name).

(** [user.get_all_permissions()] *)
Definition get_all_permissions (groups : Groups) (u : User.t) : list string :=
  User.user_permissions u
  ++ flat_map (group_permissions groups) (User.groups u).

(** [user.has_perm(perm)]: an active superuser has every permission; an
    inactive user has none. *)
Definition user_has_perm (groups : Groups) (u : User.t) (perm : string) : bool :=
  (User.is_active u && User.is_superuser u)
  || (User.is_active u
      && existsb (String.eqb perm) (get_all_permissions groups u)).

(** [request.user.has_perm(perm)]; the anonymous user has no permission. *)
Definition has_perm (groups : Groups) (ru : RequestUser) (perm : string) : bool :=
  match ru with
  | AnonymousUser => false
  | Authenticated u => user_has_perm groups u perm
  end.

(** The defaults of [ModelAdmin] for a model [app_label.model]; they do not
    look at the object. *)
Definition ModelAdmin_has_view_permission
    (groups : Groups) (app_model : string * string) (ru : RequestUser) : bool :=
  has_perm groups ru (fst app_model +:+ ".view_" +:+ snd app_model)
  || has_perm groups ru (fst app_model +:+ ".change_" +:+ snd app_model).

Definition ModelAdmin_has_change_permission
    (groups : Groups) (app_model : string * string) (ru : RequestUser) : bool :=
  has_perm groups ru (fst app_model +:+ ".change_" +:+ snd app_model).

Definition ModelAdmin_has_delete_permission
    (groups : Groups) (app_model : string * string) (ru : RequestUser) : bool :=
  has_perm groups ru (fst app_model +:+ ".delete_" +:+ snd app_model).

End Auth.

(** ** admin.py: the Employers group *)

Module SiteAdmin.

(** [permissions_to_add]: (app_label, model, codename). *)
Definition permissions_to_add : list (string * string * string) :=
  [ ("companies", "company", "view_company");
    ("companies", "company", "add_company");
    ("companies", "company", "change_company");
    ("companies", "company", "delete_company");
    ("jobs", "job", "view_job");
    ("jobs", "job", "add_job");
    ("jobs", "job", "change_job");
    ("jobs", "job", "delete_job");
    ("jobs", "application", "view_application");
    ("jobs", "application", "change_application") ].

Definition permission_name (p : string * string * string) : string :=
  fst (fst p) +:+ "." +:+ snd p.

(** [setup_employer_permissions()]: the group gets its permissions only when
    this call creates it; a permission missing from the [Permission] table
    ([permission_exists]) is skipped. *)
Definition setup_employer_permissions
    (permission_exists : string * string * string -> bool)
    (groups : Auth.Groups) : Auth.Groups :=
  match groups !! "Employers" with
  | Some _ => groups
  | None =>
      <["Employers" :=
          map permission_name (List.filter permission_exists permissions_to_add)]>
        groups
  end.

Definition set_is_staff (b : bool) (u : User.t) : User.t :=
  User.mk (User.pk u) (User.username u) (User.first_name u) (User.email u)
          (User.is_active u) b (User.is_superuser u) (User.userprofile u)
          (User.groups u) (User.user_permissions u).

Definition add_group (g : string) (u : User.t) : User.t :=
  User.mk (User.pk u) (User.username u) (User.first_name u) (User.email u)
          (User.is_active u) (User.is_staff u) (User.is_superuser u)
          (User.userprofile u)
          (if existsb (String.eqb g) (User.groups u) then User.groups u
           else User.groups u ++ [g])
          (User.user_permissions u).

(** [grant_employer_admin_access(user)]: the result, the user as saved and
    the table of groups. *)
Definition grant_employer_admin_access (user : User.t) (groups : Auth.Groups)
  : bool * User.t * Auth.Groups :=
  if User.has_role user "employer" then
    let user := set_is_staff true user in
    let groups :=
      match groups !! "Employers" with
      | Some _ => groups
      | None => <["Employers" := []]> groups
      end in
    (true, add_group "Employers" user, groups)
  else (false, user, groups).

End SiteAdmin.

(** ** jobs/admin.py: per-object permissions of the admin classes *)

Module JobAdmin.
Section WithGroups.
Variable groups : Auth.Groups.

Definition model : string * string := ("jobs", "job").

(** [get_queryset(request)] on the rows [jobs] of the table. *)
Definition get_queryset (ru : RequestUser) (jobs : list Job.t) : list Job.t :=
  let qs := jobs in
  if request_user_has_role ru "employer" then
    match ru with
    | Authenticated u =>
        if negb (User.is_superuser u) then
          List.filter (fun j => User.eqb (Company.user (Job.company j)) u) qs
        else qs
    | AnonymousUser => qs
    end
  else qs.

Definition has_view_permission (ru : RequestUser) (obj : option Job.t) : bool :=
  match obj with
  | Some obj =>
      if request_user_has_role ru "employer"
         && request_user_is ru (Company.user (Job.company obj))
      then true
      else Auth.ModelAdmin_has_view_permission groups model ru
  | None => Auth.ModelAdmin_has_view_permission groups model ru
  end.

Definition has_change_permission (ru : RequestUser) (obj : option Job.t) : bool :=
  match obj with
  | Some obj =>
      if request_user_has_role ru "employer"
         && request_user_is ru (Company.user (Job.company obj))
      then true
      else Auth.ModelAdmin_has_change_permission groups model ru
  | None => Auth.ModelAdmin_has_change_permission groups model ru
  end.

Definition has_delete_permission (ru : RequestUser) (obj : option Job.t) : bool :=
  match obj with
  | Some obj =>
      if request_user_has_role ru "employer"
         && request_user_is ru (Company.user (Job.company obj))
      then true
      else Auth.ModelAdmin_has_delete_permission groups model ru
  | None => Auth.ModelAdmin_has_delete_permission groups model ru
  end.

End WithGroups.
End JobAdmin.

Module ApplicationAdmin.
Section WithGroups.
Variable groups : Auth.Groups.

Definition model : string * string := ("jobs", "application").

Definition owner (obj : Application.t) : User.t :=
  Company.user (Job.company (Application.job obj)).

Definition has_view_permission (ru : RequestUser) (obj : option Application.t)
  : bool :=
  match obj with
  | Some obj =>
      if request_user_has_role ru "employer" && request_user_is ru (owner obj)
      then true
      else Auth.ModelAdmin_has_view_permission groups model ru
  | None => Auth.ModelAdmin_has_view_permission groups model ru
  end.

Definition has_change_permission (ru : RequestUser) (obj : option Application.t)
  : bool :=
  match obj with
  | Some obj =>
      if request_user_has_role ru "employer" && request_user_is ru (owner obj)
      then true
      else Auth.ModelAdmin_has_change_permission groups model ru
  | None => Auth.ModelAdmin_has_change_permission groups model ru
  end.

(** "Restrict deletion - only superusers can delete applications": the
    method defers to the default. *)
Definition has_delete_permission (ru : RequestUser) (obj : option Application.t)
  : bool :=
  Auth.ModelAdmin_has_delete_permission groups model ru.

End WithGroups.
End ApplicationAdmin.



(** ** Requests, responses and the state the views work on *)

Module Http.

Inductive Method := GET | POST.

Inductive Level := level_error | level_warning | level_success.

Inductive HttpResponse :=
(** [redirect_to_login(...)], what [handle_no_permission] answers an
    anonymous user *)
| RedirectToLogin
(** [redirect(name)] and [redirect(name, pk=pk)] *)
| Redirect (to : string) (pk : option N)
(** [render(request, template, ...)] *)
| Render (template : string)
(** [HttpResponseNotAllowed], status 405 *)
| MethodNotAllowed.

Record Request := mkRequest {
  user : RequestUser;
  method : Method;
  (** the bound [ApplicationForm]: its cleaned (resume, cover_letter) when
      [is_valid()], [None] otherwise *)
  application_form : option (string * string);
  (** the page of a paginated list asked for (1 when not given) *)
  page : N
}.

Record DB := mkDB {
  (** the rows of [Job.objects] *)
  jobs : list Job.t;
  applications : gmap N Application.t;
  application_seq : N;
  notifications : gmap N JobAlertNotification.t;
  (** what the [messages] framework holds for the next page *)
  flash : list (Level * string);
  (** [timezone.now().date()] *)
  today : Date.t
}.

Abbreviation M := (@Eff.M DB).

Definition messages (l : Level) (text : string) : M unit :=
  Eff.modify (fun db =>
    mkDB (jobs db) (applications db) (application_seq db) (notifications db)
         (flash db ++ [(l, text)]) (today db)).

Definition set_applications (apps : gmap N Application.t) (seq : N) (db : DB)
  : DB :=
  mkDB (jobs db) apps seq (notifications db) (flash db) (today db).

Definition set_notifications (ns : gmap N JobAlertNotification.t) (db : DB)
  : DB :=
  mkDB (jobs db) (applications db) (application_seq db) ns (flash db)
       (today db).

Definition set_today (d : Date.t) (db : DB) : DB :=
  mkDB (jobs db) (applications db) (application_seq db) (notifications db)
       (flash db) d.

Definition get {A} (f : DB -> A) : M A := fun db => (Ok (f db), db).

(** [get_object_or_404(Job, pk=pk)] *)
Definition get_job_or_404 (pk : N) : M Job.t :=
  fun db =>
    match List.find (fun j => (Job.pk j =? pk)%N) (jobs db) with
    | Some j => (Ok j, db)
    | None => (Raise Http404, db)
    end.

(** A query or an assignment that takes [request.user] for a [User] raises
    TypeError on the anonymous user. *)
Definition as_user (ru : RequestUser) : M User.t :=
  match ru with
  | Authenticated u => Eff.ret u
  | AnonymousUser => Eff.raise (OtherError "TypeError")
  end.

(** [View.dispatch]: the handler the class has for the method of the
    request; a method without handler is answered with status 405, and no
    handler runs.  [post] is [None] for a class that defines no [post] (a
    [ListView], a [DetailView]). *)
Definition View_dispatch (request : Request) (get : M HttpResponse)
    (post : option (M HttpResponse)) : M HttpResponse :=
  match method request, post with
  | GET, _ => get
  | POST, Some handler => handler
  | POST, None => Eff.ret MethodNotAllowed
  end.

End Http.

(** ** accounts/mixins.py: route-level gates *)

Module Mixins.
Import Http.

(** [AccessMixin.raise_exception]; no view of the project overrides it. *)
Definition raise_exception : bool := false.

(** [AccessMixin.handle_no_permission()] *)
Definition handle_no_permission (ru : RequestUser) : M HttpResponse :=
  if raise_exception || is_authenticated ru
  then Eff.raise (PermissionDenied "")
  else Eff.ret RedirectToLogin.

(** [LoginRequiredMixin.dispatch]; [handler] is the rest of the view. *)
Definition LoginRequiredMixin_dispatch
    (request : Request) (handler : M HttpResponse) : M HttpResponse :=
  if negb (is_authenticated (user request))
  then handle_no_permission (user request)
  else handler.

Definition EmployerRequiredMixin_dispatch
    (request : Request) (handler : M HttpResponse) : M HttpResponse :=
  if negb (is_authenticated (user request))
  then handle_no_permission (user request)
  else if negb (request_user_has_role (user request) "employer")
  then Eff.raise
         (PermissionDenied "Access denied. Only employers can access this page.")
  else LoginRequiredMixin_dispatch request handler.

Definition JobSeekerRequiredMixin_dispatch
    (request : Request) (handler : M HttpResponse) : M HttpResponse :=
  if negb (is_authenticated (user request))
  then handle_no_permission (user request)
  else if negb (request_user_has_role (user request) "jobseeker")
  then Eff.raise
         (PermissionDenied "Access denied. Only job seekers can access this page.")
  else LoginRequiredMixin_dispatch request handler.

(** The decorators, applied to a view function. *)
Definition employer_required
    (view_func : Request -> M HttpResponse) (request : Request)
  : M HttpResponse :=
  if negb (is_authenticated (user request)) then
    messages level_error "Please log in to access this page." ;;;
    Eff.ret (Redirect "accounts:login" None)
  else if negb (request_user_has_role (user request) "employer")
  then Eff.raise
         (PermissionDenied "Access denied. Only employers can access this page.")
  else view_func request.

Definition jobseeker_required
    (view_func : Request -> M HttpResponse) (request : Request)
  : M HttpResponse :=
  if negb (is_authenticated (user request)) then
    messages level_error "Please log in to access this page." ;;;
    Eff.ret (Redirect "accounts:login" None)
  else if negb (request_user_has_role (user request) "jobseeker")
  then Eff.raise
         (PermissionDenied "Access denied. Only job seekers can access this page.")
  else view_func request.

(** The outcomes of the route-level gate, as the specification names them. *)
Inductive RouteOutcome := RouteAllowed | RequireLogin | RouteForbidden.

(** How the answer of a gate reads when the gate stopped the request; any
    other answer is the view's own. *)
Definition route_outcome (r : Result HttpResponse) : RouteOutcome :=
  match r with
  | Ok RedirectToLogin => RequireLogin
  | Ok (Redirect "accounts:login" None) => RequireLogin
  | Raise (PermissionDenied _) => RouteForbidden
  | _ => RouteAllowed
  end.

(** A gate in front of a view for [role] fails closed: an anonymous request
    is sent to the login page and a user of another role is refused, in both
    cases whatever the view is; only a user of the role reaches the view. *)
Definition fails_closed (role : string)
    (gate : (Request -> M HttpResponse) -> Request -> M HttpResponse) : Prop :=
  forall view request db,
    (is_authenticated (user request) = false ->
       route_outcome (fst (gate view request db)) = RequireLogin
       /\ forall view', gate view' request db = gate view request db)
    /\ (is_authenticated (user request) = true ->
        request_user_has_role (user request) role = false ->
          route_outcome (fst (gate view request db)) = RouteForbidden
          /\ snd (gate view request db) = db
          /\ forall view', gate view' request db = gate view request db)
    /\ (is_authenticated (user request) = true ->
        request_user_has_role (user request) role = true ->
          gate view request db = view request db).

(** A class-based view behind a mixin, as a decorated view function. *)
Definition EmployerRequiredMixin
    (view : Request -> M HttpResponse) (request : Request) : M HttpResponse :=
  EmployerRequiredMixin_dispatch request (view request).

Definition JobSeekerRequiredMixin
    (view : Request -> M HttpResponse) (request : Request) : M HttpResponse :=
  JobSeekerRequiredMixin_dispatch request (view request).

End Mixins.

(** ** jobs/views.py *)

Module Views.
Import Http.

(** *** JobUpdateView *)




(** *** apply_for_job *)

Definition same_application (job : Job.t) (applicant : User.t)
    (a : Application.t) : bool :=
  (Job.pk (Application.job a) =? Job.pk job)%N
  && User.eqb (Application.applicant a) applicant.

(** [Application.objects.filter(job=job, applicant=user).exists()] *)
Definition application_exists (job : Job.t) (applicant : User.t)
    (apps : gmap N Application.t) : bool :=
  bool_decide
    (map_Exists (fun _ a => same_application job applicant a = true) apps).

(** [application.save()] of a new instance: [unique_together] makes the
    database refuse a second row for the pair. *)
Definition Application_save (a : Application.t) : M N :=
  fun db =>
    if application_exists (Application.job a) (Application.applicant a)
         (applications db)
    then (Raise IntegrityError, db)
    else
      let id := application_seq db in
      (Ok id, set_applications (<[id := a]> (applications db)) (id + 1)%N db).

Definition str (e : Exn) : string :=
  match e with
  | PermissionDenied m | ValidationError m | ValueError m => m
  | Http404 => ""
  | IntegrityError => "UNIQUE constraint failed"
  | OtherError c => c
  end.

Definition render_apply_job : M HttpResponse :=
  Eff.ret (Render "jobs/apply_job.html").

(** The function under its decorator. *)
Definition apply_for_job_view (pk : N) (request : Request) : M HttpResponse :=
  job <- get_job_or_404 pk ;;
  today <- get today ;;
  if negb (Job.is_active today job) then
    messages level_error "This job posting has expired." ;;;
    Eff.ret (Redirect "jobs:job_detail" (Some pk))
  else
    applicant <- as_user (user request) ;;
    already <- get (fun db => application_exists job applicant (applications db)) ;;
    if already then
      messages level_warning "You have already applied for this job." ;;;
      Eff.ret (Redirect "jobs:job_detail" (Some pk))
    else
      match method request with
      | POST =>
          match application_form request with
          | Some (resume, cover_letter) =>
              Eff.try_except
                (_ <- Application_save
                        (Application.mk job applicant resume cover_letter
                           ApplicationStatus.applied) ;;
                 messages level_success "Application submitted successfully!" ;;;
                 Eff.ret (Redirect "jobs:job_detail" (Some pk)))
                (fun e =>
                   messages level_error
                     ("Error submitting application: " +:+ str e) ;;;
                   render_apply_job)
          | None =>
              messages level_error "Please correct the errors in the form." ;;;
              render_apply_job
          end
      | GET => render_apply_job
      end.

Definition apply_for_job (request : Request) (pk : N) : M HttpResponse :=
  Mixins.jobseeker_required (apply_for_job_view pk) request.

(** *** NotificationListView *)

Definition paginate_by : N := 20.

(** [Paginator.num_pages] with [allow_empty_first_page]. *)
Definition num_pages (count : N) : N :=
  N.max 1 ((count + paginate_by - 1) / paginate_by).

Definition owned_by (u : User.t) (n : JobAlertNotification.t) : bool :=
  User.eqb (JobAlertNotification.user n) u.

(** [NotificationListView.get_queryset] *)
Definition NotificationListView_get_queryset
    (u : User.t) (table : gmap N JobAlertNotification.t)
  : list (N * JobAlertNotification.t) :=
  List.filter (fun r => owned_by u (snd r)) (map_to_list table).

(** [super().get_context_data()]: the list is paginated, and a page out of
    range answers Http404. *)
Definition ListView_get_context_data {A} (object_list : list A) (page : N)
  : M unit :=
  if (1 <=? page)%N && (page <=? num_pages (N.of_nat (length object_list)))%N
  then Eff.ret tt
  else Eff.raise Http404.

(** [JobAlertNotification.objects.filter(user=u, is_read=False)
      .update(is_read=True)] *)
Definition mark_all_read (u : User.t) (table : gmap N JobAlertNotification.t)
  : gmap N JobAlertNotification.t :=
  (fun n =>
     if owned_by u n && negb (JobAlertNotification.is_read n)
     then JobAlertNotification.set_is_read true n
     else n) <$> table.

Definition NotificationListView_get_context_data (request : Request) : M unit :=
  u <- as_user (user request) ;;
  object_list <- get (fun db => NotificationListView_get_queryset u
                                  (notifications db)) ;;
  ListView_get_context_data object_list (page request) ;;;
  Eff.modify (fun db =>
    set_notifications (mark_all_read u (notifications db)) db).

(** [ListView.get]: the context is built, then the template rendered. *)
Definition NotificationListView_get (request : Request) : M HttpResponse :=
  NotificationListView_get_context_data request ;;;
  Eff.ret (Render "jobs/notifications.html").

(** The view as the URL calls it: the mixin first, then the handler of the
    method; the class defines no [post]. *)
Definition NotificationListView (request : Request) : M HttpResponse :=
  Mixins.JobSeekerRequiredMixin_dispatch request
    (View_dispatch request (NotificationListView_get request) None).

(** *** mark_notification_read *)

Definition mark_notification_read_view (pk : N) (request : Request)
  : M HttpResponse :=
  u <- as_user (user request) ;;
  fun db =>
    match notifications db !! pk with
    | Some notification =>
        if owned_by u notification then
          let notification := JobAlertNotification.set_is_read true notification in
          (Ok (Redirect "jobs:job_detail"
                 (Some (Job.pk (JobAlertNotification.job notification)))),
           set_notifications (<[pk := notification]> (notifications db)) db)
        else (Raise Http404, db)
    | None => (Raise Http404, db)
    end.

Definition mark_notification_read (request : Request) (pk : N)
  : M HttpResponse :=
  Mixins.jobseeker_required (mark_notification_read_view pk) request.

End Views.

(** ** jobs/forms.py *)

Module JobForm.

(** [clean_deadline], [today] being [timezone.now().date()] and [deadline]
    the cleaned field ([None] when the field is empty). *)
Definition clean_deadline (today : Date.t) (deadline : option Date.t)
  : Result (option Date.t) :=
  match deadline with
  | Some d =>
      if Date.leb d today then
        Raise (ValidationError "Job deadline must be in the future.")
      else
        match Date.replace_year today (Date.year today + 2) with
        | None => Raise (ValueError "day is out of range for month")
        | Some max_deadline =>
            if Date.ltb max_deadline d then
              Raise (ValidationError
                       "Job deadline cannot be more than 2 years in the future.")
            else Ok deadline
        end
  | None => Ok deadline
  end.

(** What the form makes of the field: a ValidationError becomes a field
    error of the form, a valid value is kept, and any other exception
    leaves the form (a server error). *)
Inductive FieldOutcome :=
| Accepted (value : option Date.t)
| ValidationFailure (message : string)
| ServerError (e : Exn).

Definition clean_field (r : Result (option Date.t)) : FieldOutcome :=
  match r with
  | Ok v => Accepted v
  | Raise (ValidationError m) => ValidationFailure m
  | Raise e => ServerError e
  end.

End JobForm.

(** ** Vocabulary of the statements *)

Module Fanout.
Import Signals.

(** The row the receiver writes for [alert]. *)
Definition new_row (job : Job.t) (now : Z) (alert : JobAlert.t)
  : JobAlertNotification.t :=
  JobAlertNotification.mk (JobAlert.user alert) job alert
    (notification_message job) false now.

(** Rows appended to a table, each under the next id of the sequence. *)
Fixpoint insert_rows (table : gmap N JobAlertNotification.t) (seq : N)
    (rows : list JobAlertNotification.t)
  : gmap N JobAlertNotification.t * N :=
  match rows with
  | [] => (table, seq)
  | r :: rows' => insert_rows (<[seq := r]> table) (seq + 1)%N rows'
  end.

Definition no_fault (f : option Exn) : bool :=
  match f with None => true | Some _ => false end.

(** The alerts of the candidate set that end up with a notification: the
    criteria hold, and neither their evaluation nor the insertion failed.
    The mail fault of the alert does not occur in it. *)
Definition notified (faults : Faults) (job : Job.t) (a : JobAlert.t) : bool :=
  no_fault (criteria_fault faults a)
  && (keyword_match a job && location_match a job)
  && no_fault (create_fault faults a).

(** The log lines owed to the faults of [alert]. *)
Definition logs_faults (settings : Settings) (faults : Faults) (job : Job.t)
    (alert : JobAlert.t) (l : list LogRecord) : Prop :=
  (forall e, criteria_fault faults alert = Some e ->
        In (ErrorProcessingAlert (JobAlert.pk alert) e) l)
  /\ (forall e, criteria_fault faults alert = None ->
          keyword_match alert job && location_match alert job = true ->
          create_fault faults alert = Some e ->
          In (ErrorCreatingNotification e) l)
  /\ (forall e, criteria_fault faults alert = None ->
          keyword_match alert job && location_match alert job = true ->
          create_fault faults alert = None ->
          has_EMAIL_HOST settings
            && truthy (User.email (JobAlert.user alert)) = true ->
          send_mail_fault faults alert = Some e ->
          In (ErrorSendingEmail e) l).

Definition written (settings : Settings) (faults : Faults) (job : Job.t)
    (w : World) : list JobAlertNotification.t :=
  map (new_row job (now w))
      (List.filter (notified faults job)
                   (all_matches settings job (job_alerts w))).

End Fanout.

Module Inbox.

(** [n'] is the notification [n], read: [is_read] is true and every other
    field is the field of [n]. *)
Definition read_version (n n' : JobAlertNotification.t) : Prop :=
  JobAlertNotification.is_read n' = true
  /\ JobAlertNotification.user n' = JobAlertNotification.user n
  /\ JobAlertNotification.job n' = JobAlertNotification.job n
  /\ JobAlertNotification.job_alert n' = JobAlertNotification.job_alert n
  /\ JobAlertNotification.message n' = JobAlertNotification.message n
  /\ JobAlertNotification.created_at n' = JobAlertNotification.created_at n.

End Inbox.

Module Applying.
Import Http.

(** At most one application for a job and an applicant. *)
Definition unique_applications (apps : gmap N Application.t) : Prop :=
  forall job applicant k1 k2 a1 a2,
    apps !! k1 = Some a1 -> apps !! k2 = Some a2 ->
    Views.same_application job applicant a1 = true ->
    Views.same_application job applicant a2 = true ->
    k1 = k2.

(** How [apply_for_job] reports its three endings that redirect to the job:
    by the message it leaves. *)
Definition reported (l : Level) (text : string) (before after : DB) : Prop :=
  flash after = (flash before ++ [(l, text)])%list.

Definition submitted : DB -> DB -> Prop :=
  reported level_success "Application submitted successfully!".

Definition already_applied : DB -> DB -> Prop :=
  reported level_warning "You have already applied for this job.".

Definition expired : DB -> DB -> Prop :=
  reported level_error "This job posting has expired.".

(** The states the site reaches from a table without applications, by
    requests to [apply_for_job] and the passing of days. *)
Inductive reachable : DB -> Prop :=
| reachable_empty db : applications db = ∅ -> reachable db
| reachable_apply db request pk :
    reachable db -> reachable (snd (Views.apply_for_job request pk db))
| reachable_day db d : reachable db -> reachable (set_today d db).

End Applying.

(** ** Sample data *)

Module Sample.

Definition jobseeker_profile := UserProfile.mk "jobseeker".
Definition employer_profile := UserProfile.mk "employer".

Definition ann : User.t :=
  User.mk 7 "ann" "Ann" "ann@example.org" true false false
          (Some jobseeker_profile) [] [].

Definition carl : User.t :=
  User.mk 8 "carl" "Carl" "carl@example.org" true false false
          (Some jobseeker_profile) [] [].

(** two employers; [eve] has been through [grant_employer_admin_access] *)
Definition bob : User.t :=
  User.mk 3 "bob" "Bob" "bob@example.org" true false false
          (Some employer_profile) [] [].

Definition eve0 : User.t :=
  User.mk 4 "eve" "Eve" "eve@example.org" true false false
          (Some employer_profile) [] [].

Definition groups : Auth.Groups :=
  SiteAdmin.setup_employer_permissions (fun _ => true) ∅.

Definition eve : User.t :=
  snd (fst (SiteAdmin.grant_employer_admin_access eve0 groups)).


Definition acme : Company.t := Company.mk 1 bob "Acme" "Berlin".

Definition settings (c : Lookup.Collation) : Signals.Settings :=
  Signals.mkSettings "noreply@example.org" c Py.ascii_lower.

(** The example of the specification. *)
Definition python_alert : JobAlert.t := JobAlert.mk 1 ann "python" "Remote".

Definition python_job : Job.t :=
  Job.mk 1 acme "Python Developer" "Build and run our services." "Django"
         "Remote, Worldwide" 9000000 (Date.mk 2030 6 30).

(** A job whose description, not its title, carries the keyword. *)
Definition backend_job : Job.t :=
  Job.mk 2 acme "Backend Engineer" "We write Python every day." "Django"
         "Remote, Worldwide" 9000000 (Date.mk 2030 6 30).

Definition world (alerts : list JobAlert.t) : Signals.World :=
  Signals.mkWorld alerts ∅ 1 [] [] 0.

(** [bob] once granted access to the admin *)
Definition bob_staff : User.t :=
  snd (fst (SiteAdmin.grant_employer_admin_access bob groups)).


Definition ann_application : Application.t :=
  Application.mk python_job ann "resumes/ann.pdf" "" ApplicationStatus.applied.

(** Two alerts the candidate set keeps for [python_job]. *)
Definition token_alert : JobAlert.t := JobAlert.mk 2 ann "Python" "Remote".
Definition developer_alert : JobAlert.t :=
  JobAlert.mk 3 carl "Developer" "Worldwide".

(** The criteria of [token_alert] cannot be evaluated, and no mail reaches
    the owner of [developer_alert]. *)
Definition some_faults : Signals.Faults :=
  Signals.mkFaults
    (fun a => if (JobAlert.pk a =? 2)%N
              then Some (OtherError "AttributeError") else None)
    (fun _ => None)
    (fun a => if (JobAlert.pk a =? 3)%N
              then Some (OtherError "SMTPException") else None).

Definition ann_notification : JobAlertNotification.t :=
  Fanout.new_row python_job 0 token_alert.

Definition carl_notification : JobAlertNotification.t :=
  Fanout.new_row python_job 0 developer_alert.

Definition db0 : Http.DB :=
  Http.mkDB [python_job] ∅ 1 ∅ [] (Date.mk 2030 1 1).

(** [db0] with an unread notification for [ann] and one for [carl] *)
Definition db1 : Http.DB :=
  Http.set_notifications
    (<[1%N := ann_notification]> (<[2%N := carl_notification]> ∅)) db0.

Definition request_of (ru : RequestUser) : Http.Request :=
  Http.mkRequest ru Http.POST (Some ("resumes/cv.pdf", "")) 1.

(** A GET of the first page. *)
Definition get_request_of (ru : RequestUser) : Http.Request :=
  Http.mkRequest ru Http.GET None 1.

(** An alert for Paris in capitals and a job located in Paris in small
    letters, both written with an accent on the I: U+00CD in the alert,
    U+00ED in the job. *)
Definition paris_alert : JobAlert.t :=
  JobAlert.mk 4 ann "Python" ("PAR" +:+ String (ascii_of_nat 205) "S").

Definition paris_job : Job.t :=
  Job.mk 3 acme "Python Developer" "Build and run our services." "Django"
         ("Par" +:+ String (ascii_of_nat 237) "s") 9000000
         (Date.mk 2030 6 30).

End Sample.

(** ** More vocabulary for the fan-out *)

Module Delivery.
Import Signals Fanout.

(** The candidate alerts the loop counts in [notification_count]: the
    criteria were evaluated and hold. *)
Definition counted (faults : Faults) (job : Job.t) (a : JobAlert.t) : bool :=
  no_fault (criteria_fault faults a)
  && (keyword_match a job && location_match a job).

(** The message [send_job_alert_notification] hands to [send_mail]. *)
Definition email_for (settings : Settings) (job : Job.t) (a : JobAlert.t)
  : Email :=
  mkEmail ("Job Alert: " +:+ Job.title job +:+ " at " +:+
           Company.name (Job.company job))
          (DEFAULT_FROM_EMAIL settings)
          [User.email (JobAlert.user a)].

(** The notified alerts whose owner is sent a mail. *)
Definition mailed (settings : Settings) (faults : Faults) (job : Job.t)
    (a : JobAlert.t) : bool :=
  notified faults job a
  && (has_EMAIL_HOST settings && truthy (User.email (JobAlert.user a)))
  && no_fault (send_mail_fault faults a).

(** The log lines of one turn of the loop, for the alert [a]; [id] is the
    next id of the sequence when the turn begins. *)
Definition records (settings : Settings) (faults : Faults) (job : Job.t)
    (id : N) (a : JobAlert.t) : list LogRecord :=
  match criteria_fault faults a with
  | Some e => [ErrorProcessingAlert (JobAlert.pk a) e]
  | None =>
      if keyword_match a job && location_match a job then
        match create_fault faults a with
        | Some e => [ErrorCreatingNotification e]
        | None =>
            CreatedNotification id (User.username (JobAlert.user a))
              (Job.title job) (Company.name (Job.company job))
            :: (if has_EMAIL_HOST settings
                   && truthy (User.email (JobAlert.user a))
                then
                  match send_mail_fault faults a with
                  | Some e => [ErrorSendingEmail e]
                  | None =>
                      [SentEmailNotification (User.email (JobAlert.user a))]
                  end
                else [])
        end
      else []
  end.

(** The log lines of one pass over [alerts], each alert in its turn. *)
Fixpoint loop_records (settings : Settings) (faults : Faults) (job : Job.t)
    (id : N) (alerts : list JobAlert.t) : list LogRecord :=
  match alerts with
  | [] => []
  | a :: rest =>
      records settings faults job id a
      ++ loop_records settings faults job
           (if notified faults job a then (id + 1)%N else id) rest
  end.

(** The world one pass over the candidate alerts of [job] leaves: a row for
    each notified alert, a mail for each mailed one, the log lines of each
    turn and the summary when an alert was counted. *)
Definition after_creation (settings : Settings) (faults : Faults)
    (job : Job.t) (w : World) : World :=
  let candidates := all_matches settings job (job_alerts w) in
  let t := insert_rows (notifications w) (notification_seq w)
             (written settings faults job w) in
  let n := length (List.filter (counted faults job) candidates) in
  mkWorld (job_alerts w) (fst t) (snd t)
    (log w
     ++ loop_records settings faults job (notification_seq w) candidates
     ++ (if (0 <? n)%nat
         then [SentAlertNotifications n (Job.title job)] else []))
    (outbox w
     ++ map (email_for settings job)
          (List.filter (mailed settings faults job) candidates))
    (now w).

(** The world a history of saves leaves: one pass for each creation, in the
    order of the saves, and nothing for an update. *)
Fixpoint after_saves (settings : Settings) (faults : Faults)
    (saves : list JobSaved) (w : World) : World :=
  match saves with
  | [] => w
  | s :: rest =>
      after_saves settings faults rest
        (if saved_created s
         then after_creation settings faults (saved_instance s) w
         else w)
  end.

End Delivery.

(** ** admin.py: the admin site and the revocation of access *)

Module AdminSite.

(** [user.groups.remove(group)] *)
Definition remove_group (g : string) (u : User.t) : User.t :=
  User.mk (User.pk u) (User.username u) (User.first_name u) (User.email u)
          (User.is_active u) (User.is_staff u) (User.is_superuser u)
          (User.userprofile u)
          (List.filter (fun g' => negb (String.eqb g g')) (User.groups u))
          (User.user_permissions u).

(** [revoke_employer_admin_access(user)]: the result, the user as saved and
    the table of groups.  Without a group "Employers" there is nothing to
    remove the user from. *)
Definition revoke_employer_admin_access (user : User.t) (groups : Auth.Groups)
  : bool * User.t * Auth.Groups :=
  if User.has_role user "employer" then
    let user := SiteAdmin.set_is_staff false user in
    let user :=
      match groups !! "Employers" with
      | Some _ => remove_group "Employers" user
      | None => user
      end in
    (true, user, groups)
  else (false, user, groups).

(** [JobBoardAdminSite.has_permission(request)]; the anonymous user is not
    active. *)
Definition has_permission (groups : Auth.Groups) (ru : RequestUser) : bool :=
  match ru with
  | AnonymousUser => false
  | Authenticated u =>
      if negb (User.is_active u) then false
      else if User.is_superuser u then true
      else if User.is_staff u then true
      else
        match User.userprofile u with
        | Some p =>
            if String.eqb (UserProfile.user_type p) "employer" then
              Auth.has_perm groups ru "companies.view_company"
              || Auth.has_perm groups ru "jobs.view_job"
              || Auth.has_perm groups ru "jobs.view_application"
            else false
        | None => false
        end
  end.

End AdminSite.

(** ** jobs/admin.py: the list of applications and its bulk actions *)

Module ApplicationActions.

Definition set_status (s : ApplicationStatus.t) (a : Application.t)
  : Application.t :=
  Application.mk (Application.job a) (Application.applicant a)
                 (Application.resume a) (Application.cover_letter a) s.

(** [ApplicationAdmin.get_queryset(request)] on the table. *)
Definition get_queryset (ru : RequestUser) (apps : gmap N Application.t)
  : gmap N Application.t :=
  let qs := apps in
  if request_user_has_role ru "employer" then
    match ru with
    | Authenticated u =>
        if negb (User.is_superuser u) then
          filter (fun r => User.eqb (ApplicationAdmin.owner (snd r)) u = true) qs
        else qs
    | AnonymousUser => qs
    end
  else qs.

(** [queryset.update(status=s)]: the rows of the table whose key is in the
    queryset take the status; the result is the number of rows of the
    queryset and the table. *)
Definition update_status (s : ApplicationStatus.t)
    (queryset apps : gmap N Application.t) : nat * gmap N Application.t :=
  (size queryset,
   map_imap (fun k a => Some (match queryset !! k with
                              | Some _ => set_status s a
                              | None => a
                              end)) apps).

(** The three actions; each reports the number [updated] to the user. *)
Definition mark_under_review := update_status ApplicationStatus.under_review.
Definition mark_shortlisted := update_status ApplicationStatus.shortlisted.
Definition mark_rejected := update_status ApplicationStatus.rejected.

(** The change list runs an action on the rows of [get_queryset] that were
    ticked. *)
Definition run_action
    (action : gmap N Application.t -> gmap N Application.t ->
              nat * gmap N Application.t)
    (ru : RequestUser) (selected : list N) (apps : gmap N Application.t)
  : nat * gmap N Application.t :=
  action (filter (fun r => fst r ∈ selected) (get_queryset ru apps)) apps.

End ApplicationActions.

(** ** accounts/mixins.py: the helpers of the views *)

Module RoleHelpers.

(** [check_user_type(user)]: [None] for the anonymous user and for a user
    without profile. *)
Definition check_user_type (ru : RequestUser) : option string :=
  match ru with
  | AnonymousUser => None
  | Authenticated u =>
      match User.userprofile u with
      | None => None
      | Some p => Some (UserProfile.user_type p)
      end
  end.

Definition option_string_eqb (o : option string) (s : string) : bool :=
  match o with
  | Some t => String.eqb t s
  | None => false
  end.

Definition is_employer (ru : RequestUser) : bool :=
  option_string_eqb (check_user_type ru) "employer".

Definition is_jobseeker (ru : RequestUser) : bool :=
  option_string_eqb (check_user_type ru) "jobseeker".

End RoleHelpers.

(** ** jobs/views.py: the views of applications and the list of jobs *)

Module MoreViews.
Import Http.

(** [Application.get_status_display()] *)
Definition get_status_display (s : ApplicationStatus.t) : string :=
  match s with
  | ApplicationStatus.applied => "Applied"
  | ApplicationStatus.under_review => "Under Review"
  | ApplicationStatus.shortlisted => "Shortlisted"
  | ApplicationStatus.rejected => "Rejected"
  end.

(** [get_object_or_404(Application, pk=pk)] *)
Definition get_application_or_404 (pk : N) : M Application.t :=
  fun db =>
    match applications db !! pk with
    | Some a => (Ok a, db)
    | None => (Raise Http404, db)
    end.

(** [form.save()] of an [ApplicationStatusForm] bound to the instance: the
    row is written back with the status of the form. *)
Definition save_status (pk : N) (a : Application.t) : M unit :=
  Eff.modify (fun db =>
    set_applications (<[pk := a]> (applications db)) (application_seq db) db).

(** [update_application_status] under its decorator; [posted] is the status
    of the submitted [ApplicationStatusForm] when the form is valid. *)
Definition update_application_status_view
    (posted : option ApplicationStatus.t) (pk : N) (request : Request)
  : M HttpResponse :=
  application <- get_application_or_404 pk ;;
  if negb (request_user_is (user request) (ApplicationAdmin.owner application))
  then Eff.raise
         (PermissionDenied "You can only update applications for your own jobs.")
  else
    match method request, posted with
    | POST, Some s =>
        let application := ApplicationActions.set_status s application in
        save_status pk application ;;;
        messages level_success
          ("Application status updated to " +:+
           get_status_display (Application.status application) +:+ ".") ;;;
        Eff.ret (Redirect "jobs:employer_applications" None)
    | _, _ => Eff.ret (Render "jobs/update_application_status.html")
    end.

Definition update_application_status
    (request : Request) (posted : option ApplicationStatus.t) (pk : N)
  : M HttpResponse :=
  Mixins.employer_required (update_application_status_view posted pk) request.

(** [ApplicationDetailView.dispatch]: the object is fetched first, then the
    caller is compared with the applicant and with the employer of the job;
    [super().dispatch] is that of [LoginRequiredMixin], which hands over to
    [View.dispatch]; the class defines no [post], and its [get] fetches the
    object again and renders it. *)
Definition ApplicationDetailView_get (pk : N) : M HttpResponse :=
  _ <- get_application_or_404 pk ;;
  Eff.ret (Render "jobs/application_detail.html").

Definition ApplicationDetailView_dispatch (request : Request) (pk : N)
  : M HttpResponse :=
  application <- get_application_or_404 pk ;;
  if request_user_is (user request) (Application.applicant application) then
    Mixins.LoginRequiredMixin_dispatch request
      (View_dispatch request (ApplicationDetailView_get pk) None)
  else if RoleHelpers.is_employer (user request)
          && request_user_is (user request)
               (ApplicationAdmin.owner application) then
    Mixins.LoginRequiredMixin_dispatch request
      (View_dispatch request (ApplicationDetailView_get pk) None)
  else Eff.raise
         (PermissionDenied "You don't have permission to view this application.").

(** [JobDetailView.get_context_data]: the entry [has_applied]. *)
Definition has_applied (ru : RequestUser) (job : Job.t) (db : DB) : bool :=
  match ru with
  | Authenticated u => Views.application_exists job u (applications db)
  | AnonymousUser => false
  end.

(** The rows of [Application.objects.filter(job__company__user=user)]. *)
Definition employer_applications (u : User.t) (apps : gmap N Application.t)
  : list Application.t :=
  List.filter (fun a => User.eqb (ApplicationAdmin.owner a) u)
              (map snd (map_to_list apps)).

Definition status_eqb (s t : ApplicationStatus.t) : bool :=
  match s, t with
  | ApplicationStatus.applied, ApplicationStatus.applied
  | ApplicationStatus.under_review, ApplicationStatus.under_review
  | ApplicationStatus.shortlisted, ApplicationStatus.shortlisted
  | ApplicationStatus.rejected, ApplicationStatus.rejected => true
  | _, _ => false
  end.

(** [queryset.filter(status=s).count()] *)
Definition count_status (s : ApplicationStatus.t) (qs : list Application.t)
  : nat :=
  length (List.filter (fun a => status_eqb (Application.status a) s) qs).

(** The figures [EmployerApplicationListView.get_context_data] adds. *)
Record Statistics := mkStatistics {
  total_applications : nat;
  pending_applications : nat;
  under_review : nat;
  shortlisted : nat;
  rejected : nat
}.

Definition EmployerApplicationListView_statistics
    (u : User.t) (apps : gmap N Application.t) : Statistics :=
  let queryset := employer_applications u apps in
  mkStatistics (length queryset)
    (count_status ApplicationStatus.applied queryset)
    (count_status ApplicationStatus.under_review queryset)
    (count_status ApplicationStatus.shortlisted queryset)
    (count_status ApplicationStatus.rejected queryset).

(** *** The search of [JobListView] *)

(** A character of the class [[a-zA-Z0-9\s\-\+\#\.]]; [\s] is
    [Py.isspace]. *)
Definition search_char (c : ascii) : bool :=
  let n := nat_of_ascii c in
  ((97 <=? n)%nat && (n <=? 122)%nat)
  || ((65 <=? n)%nat && (n <=? 90)%nat)
  || ((48 <=? n)%nat && (n <=? 57)%nat)
  || Py.isspace c
  || (n =? 45)%nat || (n =? 43)%nat || (n =? 35)%nat || (n =? 46)%nat.

(** [re.match(r'^[a-zA-Z0-9\s\-\+\#\.]+$', s)]: the line feed that [$]
    allows at the end is of the class itself. *)
Definition search_keyword_ok (s : string) : bool :=
  match s with
  | EmptyString => false
  | _ => forallb search_char (list_ascii_of_string s)
  end.

(** [JobSearchForm.clean_keyword] on the value of the field. *)
Definition JobSearchForm_clean_keyword (keyword : string) : Result string :=
  if Signals.truthy keyword then
    let keyword := Py.strip keyword in
    if Signals.truthy keyword && negb (search_keyword_ok keyword)
    then Raise (ValidationError "Search keyword contains invalid characters.")
    else Ok keyword
  else Ok keyword.

Definition JobSearchForm_clean_location (location : string) : Result string :=
  if Signals.truthy location then Ok (Py.strip location) else Ok location.

(** [forms.CharField(required=False, max_length=n).clean(value)]: the value
    is stripped; unless it is empty then, it is refused when it is longer
    than [n] or holds the null character.  [None] is the refusal. *)
Definition CharField_clean (max_length : nat) (value : string)
  : option string :=
  let value := Py.strip value in
  if (max_length <? String.length value)%nat
     || existsb (Ascii.eqb Ascii.zero) (list_ascii_of_string value)
  then None else Some value.

(** [form.is_valid()] and [form.cleaned_data] of [JobSearchForm(request.GET)],
    from the two parameters of the query string (empty when absent): each
    field cleans its value, and its [clean_<field>] runs on what the field
    accepted. *)
Definition JobSearchForm_cleaned (keyword location : string)
  : option (string * string) :=
  match CharField_clean 100 keyword, CharField_clean 100 location with
  | Some keyword, Some location =>
      match JobSearchForm_clean_keyword keyword,
            JobSearchForm_clean_location location with
      | Ok k, Ok l => Some (k, l)
      | _, _ => None
      end
  | _, _ => None
  end.

(** [JobListView.get_queryset]: the rows keep the order of the table;
    [fold] is the fold of the database's LIKE. *)
Definition JobListView_get_queryset (fold : Lookup.Fold)
    (keyword location : string) (db : DB) : list Job.t :=
  let queryset := List.filter (Job.is_active (today db)) (jobs db) in
  match JobSearchForm_cleaned keyword location with
  | Some (keyword, location) =>
      let queryset :=
        if Signals.truthy keyword then
          List.filter
            (fun j => Lookup.like fold (Job.title j) keyword
                      || Lookup.like fold (Job.description j) keyword
                      || Lookup.like fold (Job.requirements j) keyword)
            queryset
        else queryset in
      if Signals.truthy location then
        List.filter (fun j => Lookup.like fold (Job.location j) location)
                    queryset
      else queryset
  | None => queryset
  end.

End MoreViews.

(** ** Days between dates, and the dates of a job (jobs/models.py,
    jobs/admin.py) *)

Module Calendar.

(** [_days_before_year(year)]: the days before 1 January of the year. *)
Definition days_before_year (year : Z) : Z :=
  let y := (year - 1)%Z in
  (y * 365 + y / 4 - y / 100 + y / 400)%Z.

(** [_days_before_month(year, month)] *)
Definition days_before_month (year month : Z) : Z :=
  ((if month =? 1 then 0 else if month =? 2 then 31
    else if month =? 3 then 59 else if month =? 4 then 90
    else if month =? 5 then 120 else if month =? 6 then 151
    else if month =? 7 then 181 else if month =? 8 then 212
    else if month =? 9 then 243 else if month =? 10 then 273
    else if month =? 11 then 304 else 334)
   + (if (2 <? month) && Date.is_leap year then 1 else 0))%Z.

(** The days of a year. *)
Definition year_length (y : Z) : Z := if Date.is_leap y then 366 else 365.

(** [d.toordinal()] *)
Definition toordinal (d : Date.t) : Z :=
  (days_before_year (Date.year d)
   + days_before_month (Date.year d) (Date.month d) + Date.day d)%Z.

(** [(a - b).days] *)
Definition days_between (a b : Date.t) : Z := (toordinal a - toordinal b)%Z.

End Calendar.

Module JobDates.

(** The property [Job.days_until_deadline]; [deadline] is [None] while the
    field is not set. *)
Definition days_until_deadline (today : Date.t) (deadline : option Date.t) : Z :=
  match deadline with
  | Some d =>
      let delta := Calendar.days_between d today in
      if (0 <? delta)%Z then delta else 0%Z
  | None => 0%Z
  end.

(** [Job.clean()] *)
Definition clean (today : Date.t) (deadline : option Date.t) : Result unit :=
  match deadline with
  | Some d =>
      if Date.leb d today
      then Raise (ValidationError "Job deadline must be in the future.")
      else Ok tt
  | None => Ok tt
  end.

(** What [JobAdmin.get_days_remaining] displays: ["{days} days"], ["Today"],
    ["Expired"] or ["No deadline"]. *)
Inductive DaysRemaining :=
| Days (days : Z)
| Today
| Expired
| NoDeadline.

Definition get_days_remaining (today : Date.t) (deadline : option Date.t)
  : DaysRemaining :=
  match deadline with
  | Some _ =>
      let days := days_until_deadline today deadline in
      if (0 <? days)%Z then Days days
      else if (days =? 0)%Z then Today
      else Expired
  | None => NoDeadline
  end.

End JobDates.

(** ** jobs/forms.py: the other cleaners *)

Module FormFields.

(** [len(s)]: the number of characters. *)
Definition len (s : string) : nat := String.length s.

(** A character of [\w] in a pattern on [str]: the underscore and what
    [str.isalnum] accepts, that is the ASCII letters and digits, the letters
    from U+00C0 to U+00FF (the signs U+00D7 and U+00F7 are none), the
    ordinal indicators U+00AA and U+00BA, the micro sign U+00B5, the
    superscript digits U+00B2, U+00B3 and U+00B9 and the fractions U+00BC to
    U+00BE. *)
Definition is_word (c : ascii) : bool :=
  let n := nat_of_ascii c in
  ((97 <=? n)%nat && (n <=? 122)%nat)
  || ((65 <=? n)%nat && (n <=? 90)%nat)
  || ((48 <=? n)%nat && (n <=? 57)%nat)
  || (n =? 95)%nat
  || ((192 <=? n)%nat && negb (n =? 215)%nat && negb (n =? 247)%nat)
  || (n =? 170)%nat || (n =? 186)%nat || (n =? 181)%nat
  || (n =? 178)%nat || (n =? 179)%nat || (n =? 185)%nat
  || ((188 <=? n)%nat && (n <=? 190)%nat).

(** What is left of [s] after the prefix [p]. *)
Fixpoint strip_prefix (p s : string) : option string :=
  match p, s with
  | EmptyString, _ => Some s
  | String a p', String b s' =>
      if Ascii.eqb a b then strip_prefix p' s' else None
  | String _ _, EmptyString => None
  end.

Definition starts_with_word (s : string) : bool :=
  match s with
  | String c _ => is_word c
  | EmptyString => false
  end.

(** [re.search(r'\b(spam|scam|fake)\b', s)]: one of the three words begins
    here or further on, with no word character before it and none after;
    [prev_word] tells whether the character before is one. *)
Fixpoint search_banned (prev_word : bool) (s : string) : bool :=
  (negb prev_word
   && existsb (fun w => match strip_prefix w s with
                        | Some rest => negb (starts_with_word rest)
                        | None => false
                        end) ["spam"; "scam"; "fake"])
  || match s with
     | EmptyString => false
     | String c s' => search_banned (is_word c) s'
     end.

(** [JobForm.clean_title] *)
Definition clean_title (title : string) : Result string :=
  if Signals.truthy title then
    let title := Py.strip title in
    if (len title <? 3)%nat then
      Raise (ValidationError "Job title must be at least 3 characters long.")
    else if (200 <? len title)%nat then
      Raise (ValidationError "Job title cannot exceed 200 characters.")
    else if search_banned false (Py.lower title) then
      Raise (ValidationError "Job title contains inappropriate content.")
    else Ok title
  else Ok title.

(** [JobForm.clean_description] *)
Definition clean_description (description : string) : Result string :=
  if Signals.truthy description then
    let description := Py.strip description in
    if (len description <? 10)%nat then
      Raise (ValidationError
               "Job description must be at least 10 characters long.")
    else Ok description
  else Ok description.

(** [JobForm.clean_requirements] *)
Definition clean_requirements (requirements : string) : Result string :=
  if Signals.truthy requirements then
    let requirements := Py.strip requirements in
    if (len requirements <? 10)%nat then
      Raise (ValidationError
               "Job requirements must be at least 10 characters long.")
    else Ok requirements
  else Ok requirements.

(** [JobForm.clean_location] *)
Definition clean_location (location : string) : Result string :=
  if Signals.truthy location then
    let location := Py.strip location in
    if (len location <? 2)%nat then
      Raise (ValidationError "Location must be at least 2 characters long.")
    else Ok location
  else Ok location.

(** [JobForm.clean_salary]; the salary is a decimal of two places, held in
    hundredths, and [None] when the field is empty.  A decimal is false when
    it is zero.  The bound is the float [9999999.99], which lies between
    9999999.99 and 10000000.00: a salary in hundredths is above it exactly
    when it is above 999999999 hundredths. *)
Definition clean_salary (salary : option Z) : Result (option Z) :=
  match salary with
  | Some hundredths =>
      if (hundredths =? 0)%Z then Ok salary
      else if (hundredths <=? 0)%Z then
        Raise (ValidationError "Salary must be greater than 0.")
      else if (999999999 <? hundredths)%Z then
        Raise (ValidationError "Salary cannot exceed $9,999,999.99.")
      else Ok salary
  | None => Ok salary
  end.

(** [JobAlertForm.clean_keyword]; the class of characters is that of the
    search form. *)
Definition alert_clean_keyword (keyword : string) : Result string :=
  if Signals.truthy keyword then
    let keyword := Py.strip keyword in
    if (len keyword <? 2)%nat then
      Raise (ValidationError "Keyword must be at least 2 characters long.")
    else if (100 <? len keyword)%nat then
      Raise (ValidationError "Keyword cannot exceed 100 characters.")
    else if negb (MoreViews.search_keyword_ok keyword) then
      Raise (ValidationError
               "Keyword contains invalid characters. Use only letters, numbers, spaces, and common symbols.")
    else Ok keyword
  else Ok keyword.

(** [JobAlertForm.clean_location] *)
Definition alert_clean_location (location : string) : Result string :=
  if Signals.truthy location then
    let location := Py.strip location in
    if (len location <? 2)%nat then
      Raise (ValidationError "Location must be at least 2 characters long.")
    else if (100 <? len location)%nat then
      Raise (ValidationError "Location cannot exceed 100 characters.")
    else Ok location
  else Ok location.

End FormFields.

(** ** jobs/models.py: [JobAlert.clean] *)

Module JobAlertModel.

(** [user] is [None] while the foreign key is not set, as on the instance a
    form builds: [hasattr(self, 'user')] is false then. *)
Definition clean (user : option User.t) (keyword location : string)
  : Result unit :=
  match
    match user with
    | Some u =>
        match User.userprofile u with
        | Some p =>
            if negb (String.eqb (UserProfile.user_type p) "jobseeker")
            then Raise (ValidationError
                          "Only job seekers can create job alerts.")
            else Ok tt
        | None =>
            Raise (ValidationError
                     "User must have a profile to create job alerts.")
        end
    | None => Ok tt
    end
  with
  | Raise e => Raise e
  | Ok _ =>
      if Signals.truthy keyword && negb (Signals.truthy (Py.strip keyword))
      then Raise (ValidationError "Keyword cannot be empty.")
      else if Signals.truthy location
              && negb (Signals.truthy (Py.strip location))
      then Raise (ValidationError "Location cannot be empty.")
      else Ok tt
  end.

End JobAlertModel.

(** ** The views that write alerts, jobs and companies *)

(** What a bound [JobForm] is built from: for each field the value the field
    hands to its cleaner, [None] when the field itself refuses the input. *)
Module JobFormData.
Record t := mk {
  title : option string;
  description : option string;
  requirements : option string;
  location : option string;
  (** in hundredths *)
  salary : option Z;
  deadline : option Date.t
}.
End JobFormData.

Module Site.
Import Http.

(** The tables these views and the receiver of [post_save] share.  A list
    holds the rows of its table in the order of the model's [Meta.ordering],
    the newest first. *)
Record State := mkState {
  companies : list Company.t;
  company_seq : N;
  jobs : list Job.t;
  job_seq : N;
  job_alerts : list JobAlert.t;
  job_alert_seq : N;
  notifications : gmap N JobAlertNotification.t;
  notification_seq : N;
  flash : list (Level * string);
  log : list Signals.LogRecord;
  outbox : list Signals.Email;
  (** [timezone.now().date()] *)
  today : Date.t;
  now : Z
}.

Abbreviation M := (@Eff.M State).

Definition get {A} (f : State -> A) : M A := fun s => (Ok (f s), s).

Definition messages (l : Level) (text : string) : M unit :=
  Eff.modify (fun s =>
    mkState (companies s) (company_seq s) (jobs s) (job_seq s) (job_alerts s)
            (job_alert_seq s) (notifications s) (notification_seq s)
            (flash s ++ [(l, text)]) (log s) (outbox s) (today s) (now s)).

Definition as_user (ru : RequestUser) : M User.t :=
  match ru with
  | Authenticated u => Eff.ret u
  | AnonymousUser => Eff.raise (OtherError "TypeError")
  end.

(** *** The receiver of [post_save], run on the tables of the site *)

Definition world_of (s : State) : Signals.World :=
  Signals.mkWorld (job_alerts s) (notifications s) (notification_seq s)
                  (log s) (outbox s) (now s).

Definition with_world (w : Signals.World) (s : State) : State :=
  mkState (companies s) (company_seq s) (jobs s) (job_seq s)
          (Signals.job_alerts w) (job_alert_seq s)
          (Signals.notifications w) (Signals.notification_seq w)
          (flash s) (Signals.log w) (Signals.outbox w) (today s)
          (Signals.now w).

Definition receiver {A} (m : @Eff.M Signals.World A) : M A :=
  fun s =>
    match m (world_of s) with
    | (r, w) => (r, with_world w s)
    end.

(** *** accounts/mixins.py, on the state of the site *)

Definition handle_no_permission (ru : RequestUser) : M HttpResponse :=
  if Mixins.raise_exception || is_authenticated ru
  then Eff.raise (PermissionDenied "")
  else Eff.ret RedirectToLogin.

Definition LoginRequiredMixin_dispatch
    (request : Request) (handler : M HttpResponse) : M HttpResponse :=
  if negb (is_authenticated (user request))
  then handle_no_permission (user request)
  else handler.

Definition EmployerRequiredMixin_dispatch
    (request : Request) (handler : M HttpResponse) : M HttpResponse :=
  if negb (is_authenticated (user request))
  then handle_no_permission (user request)
  else if negb (request_user_has_role (user request) "employer")
  then Eff.raise
         (PermissionDenied "Access denied. Only employers can access this page.")
  else LoginRequiredMixin_dispatch request handler.

Definition jobseeker_required
    (view_func : Request -> M HttpResponse) (request : Request)
  : M HttpResponse :=
  if negb (is_authenticated (user request)) then
    messages level_error "Please log in to access this page." ;;;
    Eff.ret (Redirect "accounts:login" None)
  else if negb (request_user_has_role (user request) "jobseeker")
  then Eff.raise
         (PermissionDenied "Access denied. Only job seekers can access this page.")
  else view_func request.

(** [login_required] around a [dispatch]. *)
Definition login_required
    (request : Request) (handler : M HttpResponse) : M HttpResponse :=
  if is_authenticated (user request) then handler
  else Eff.ret RedirectToLogin.

(** *** Forms *)

(** What [_clean_fields] makes of one field: the cleaner runs on the value
    the field hands over; a ValidationError becomes an error of the field and
    the form goes on with the next one; any other exception leaves the
    form. *)
Definition clean_field {A B} (value : option A) (cleaner : A -> Result B)
  : M (option B) :=
  match value with
  | Some v =>
      match cleaner v with
      | Ok b => Eff.ret (Some b)
      | Raise (ValidationError _) => Eff.ret None
      | Raise e => Eff.raise e
      end
  | None => Eff.ret None
  end.

(** [form.is_valid()] of a [JobAlertForm] and its cleaned data; the model's
    [clean] runs on the instance of the form, whose user is not set yet. *)
Definition JobAlertForm_is_valid (posted : option string * option string)
  : M (option (string * string)) :=
  keyword <- clean_field (fst posted) FormFields.alert_clean_keyword ;;
  location <- clean_field (snd posted) FormFields.alert_clean_location ;;
  match keyword, location with
  | Some k, Some l =>
      model <- clean_field (Some tt) (fun _ => JobAlertModel.clean None k l) ;;
      Eff.ret (match model with Some _ => Some (k, l) | None => None end)
  | _, _ => Eff.ret None
  end.

(** The cleaned data of a valid [JobForm]. *)
Record JobFormCleaned := mkJobFormCleaned {
  cleaned_title : string;
  cleaned_description : string;
  cleaned_requirements : string;
  cleaned_location : string;
  cleaned_salary : Z;
  cleaned_deadline : Date.t
}.

(** [form.is_valid()] of a [JobForm]: the fields in the order of
    [Meta.fields], then [Job.clean()] on the instance. *)
Definition JobForm_is_valid (posted : JobFormData.t)
  : M (option JobFormCleaned) :=
  today <- get today ;;
  title <- clean_field (JobFormData.title posted) FormFields.clean_title ;;
  description <-
    clean_field (JobFormData.description posted) FormFields.clean_description ;;
  requirements <-
    clean_field (JobFormData.requirements posted)
                FormFields.clean_requirements ;;
  location <-
    clean_field (JobFormData.location posted) FormFields.clean_location ;;
  salary <-
    clean_field (JobFormData.salary posted)
                (fun s => FormFields.clean_salary (Some s)) ;;
  deadline <-
    clean_field (JobFormData.deadline posted)
                (fun d => JobForm.clean_deadline today (Some d)) ;;
  match title, description, requirements, location, salary, deadline with
  | Some t, Some d, Some r, Some l, Some (Some s), Some (Some dl) =>
      model <- clean_field (Some dl) (fun dl => JobDates.clean today (Some dl)) ;;
      Eff.ret (match model with
               | Some _ => Some (mkJobFormCleaned t d r l s dl)
               | None => None
               end)
  | _, _, _, _, _, _ => Eff.ret None
  end.

(** *** jobs/views.py: job alerts *)

(** [alert.save()] of a new alert: the next id, and the row comes first. *)
Definition JobAlert_save (u : User.t) (keyword location : string) : M unit :=
  Eff.modify (fun s =>
    mkState (companies s) (company_seq s) (jobs s) (job_seq s)
            (JobAlert.mk (job_alert_seq s) u keyword location :: job_alerts s)
            (job_alert_seq s + 1)%N (notifications s) (notification_seq s)
            (flash s) (log s) (outbox s) (today s) (now s)).

Definition create_job_alert_view
    (posted : option string * option string) (request : Request)
  : M HttpResponse :=
  match method request with
  | POST =>
      form <- JobAlertForm_is_valid posted ;;
      match form with
      | Some (keyword, location) =>
          u <- as_user (user request) ;;
          JobAlert_save u keyword location ;;;
          messages level_success "Job alert created successfully!"
      | None => messages level_error "Please correct the errors below."
      end
  | GET => Eff.ret tt
  end ;;;
  Eff.ret (Redirect "jobs:job_alerts" None).

Definition create_job_alert
    (request : Request) (posted : option string * option string)
  : M HttpResponse :=
  jobseeker_required (create_job_alert_view posted) request.

(** [get_object_or_404(JobAlert, pk=pk, user=request.user)] *)
Definition get_job_alert_or_404 (pk : N) (u : User.t) : M JobAlert.t :=
  fun s =>
    match List.find (fun a => (JobAlert.pk a =? pk)%N
                              && User.eqb (JobAlert.user a) u)
                    (job_alerts s) with
    | Some a => (Ok a, s)
    | None => (Raise Http404, s)
    end.

(** [alert.delete()]: the row goes, and with it the notifications whose
    [job_alert] it is ([on_delete=models.CASCADE]). *)
Definition JobAlert_delete (alert : JobAlert.t) : M unit :=
  Eff.modify (fun s =>
    mkState (companies s) (company_seq s) (jobs s) (job_seq s)
            (List.filter (fun a => negb (JobAlert.pk a =? JobAlert.pk alert)%N)
                         (job_alerts s))
            (job_alert_seq s)
            (filter (fun r => JobAlert.pk (JobAlertNotification.job_alert
                                             (snd r))
                              ≠ JobAlert.pk alert)
                    (notifications s))
            (notification_seq s) (flash s) (log s) (outbox s) (today s)
            (now s)).

Definition delete_job_alert_view (pk : N) (request : Request)
  : M HttpResponse :=
  u <- as_user (user request) ;;
  alert <- get_job_alert_or_404 pk u ;;
  JobAlert_delete alert ;;;
  messages level_success "Job alert deleted successfully!" ;;;
  Eff.ret (Redirect "jobs:job_alerts" None).

Definition delete_job_alert (request : Request) (pk : N) : M HttpResponse :=
  jobseeker_required (delete_job_alert_view pk) request.

(** *** jobs/views.py: JobCreateView *)

(** [Company.objects.get(user=u)] under [except Company.DoesNotExist]:
    [None] stands for the handled exception; more than one row raises
    MultipleObjectsReturned, which no caller handles. *)
Definition Company_objects_get (u : User.t) : M (option Company.t) :=
  fun s =>
    match List.filter (fun c => User.eqb (Company.user c) u) (companies s) with
    | [] => (Ok None, s)
    | [company] => (Ok (Some company), s)
    | _ => (Raise (OtherError "MultipleObjectsReturned"), s)
    end.

Section Posting.
Variable settings : Signals.Settings.
Variable faults : Signals.Faults.

(** [form.save()] of a new job: the INSERT, then [post_save] with
    [created=True], whose receiver is [check_job_alerts]. *)
Definition Job_save (company : Company.t) (form : JobFormCleaned) : M Job.t :=
  fun s =>
    let job := Job.mk (job_seq s) company (cleaned_title form)
                 (cleaned_description form) (cleaned_requirements form)
                 (cleaned_location form) (cleaned_salary form)
                 (cleaned_deadline form) in
    (receiver (Signals.check_job_alerts settings faults job true) ;;;
     Eff.ret job)
      (mkState (companies s) (company_seq s) (job :: jobs s) (job_seq s + 1)%N
               (job_alerts s) (job_alert_seq s) (notifications s)
               (notification_seq s) (flash s) (log s) (outbox s) (today s)
               (now s)).

(** [JobCreateView.form_valid] *)
Definition JobCreateView_form_valid (form : JobFormCleaned) (request : Request)
  : M HttpResponse :=
  u <- as_user (user request) ;;
  found <- Company_objects_get u ;;
  match found with
  | None =>
      messages level_error
        "You must create a company profile before posting jobs." ;;;
      Eff.ret (Redirect "companies:profile" None)
  | Some company =>
      messages level_success "Job posted successfully!" ;;;
      Job_save company form ;;;
      Eff.ret (Redirect "jobs:job_list" None)
  end.

(** [CreateView.post], and [get] *)
Definition JobCreateView_handler (posted : JobFormData.t) (request : Request)
  : M HttpResponse :=
  match method request with
  | POST =>
      form <- JobForm_is_valid posted ;;
      match form with
      | Some form => JobCreateView_form_valid form request
      | None => Eff.ret (Render "jobs/job_form.html")
      end
  | GET => Eff.ret (Render "jobs/job_form.html")
  end.

Definition JobCreateView (request : Request) (posted : JobFormData.t)
  : M HttpResponse :=
  EmployerRequiredMixin_dispatch request (JobCreateView_handler posted request).

End Posting.

(** *** companies/views.py: CompanyProfileView *)

(** [company.save()]: an UPDATE of the row of the instance, or an INSERT. *)
Definition Company_save (existing : option Company.t) (u : User.t)
    (name location : string) : M unit :=
  Eff.modify (fun s =>
    match existing with
    | Some company =>
        mkState (map (fun c => if (Company.pk c =? Company.pk company)%N
                               then Company.mk (Company.pk c) u name location
                               else c)
                     (companies s))
                (company_seq s) (jobs s) (job_seq s) (job_alerts s)
                (job_alert_seq s) (notifications s) (notification_seq s)
                (flash s) (log s) (outbox s) (today s) (now s)
    | None =>
        mkState (Company.mk (company_seq s) u name location :: companies s)
                (company_seq s + 1)%N (jobs s) (job_seq s) (job_alerts s)
                (job_alert_seq s) (notifications s) (notification_seq s)
                (flash s) (log s) (outbox s) (today s) (now s)
    end).

(** [CompanyProfileView.post]; [posted] is the cleaned name and location of
    the bound [CompanyProfileForm] when the form is valid. *)
Definition CompanyProfileView_post
    (posted : option (string * string)) (request : Request)
  : M HttpResponse :=
  if negb (request_user_has_role (user request) "employer") then
    messages level_error
      "Access denied. Only employers can manage company profiles." ;;;
    Eff.ret (Redirect "accounts:profile" None)
  else
    u <- as_user (user request) ;;
    existing <- Company_objects_get u ;;
    match posted with
    | Some (name, location) =>
        Company_save existing u name location ;;;
        (match existing with
         | Some _ => messages level_success
                       "Company profile updated successfully!"
         | None => messages level_success
                     "Company profile created successfully!"
         end) ;;;
        Eff.ret (Redirect "companies:profile" None)
    | None => Eff.ret (Render "companies/profile.html")
    end.

(** [CompanyProfileView.get] *)
Definition CompanyProfileView_get (request : Request) : M HttpResponse :=
  if negb (request_user_has_role (user request) "employer") then
    messages level_error
      "Access denied. Only employers can manage company profiles." ;;;
    Eff.ret (Redirect "accounts:profile" None)
  else
    u <- as_user (user request) ;;
    _ <- Company_objects_get u ;;
    Eff.ret (Render "companies/profile.html").

(** The view behind [login_required] and the mixin. *)
Definition CompanyProfileView
    (request : Request) (posted : option (string * string))
  : M HttpResponse :=
  login_required request
    (EmployerRequiredMixin_dispatch request
       (match method request with
        | POST => CompanyProfileView_post posted request
        | GET => CompanyProfileView_get request
        end)).

End Site.

(** ** Strings as lists of characters *)

(** The characters of a string, in order. *)
Abbreviation chars := list_ascii_of_string.

(** No character of [s] is a blank. *)
Abbreviation solid s := (forallb (fun c => negb (Py.isspace c)) (chars s)).

(** * Properties *)

Section FanoutFacts.
Import Signals Fanout.
Variable settings : Settings.
Variable faults : Faults.
Variable job : Job.t.

(** The test of the loop is the predicate of the specification. *)
Lemma criteria_are_spec_match alert :
  keyword_match alert job && location_match alert job = spec_match alert job.
Proof. reflexivity. Qed.

(** One turn of the loop never raises; what it writes depends on the faults
    of its own alert only. *)
Lemma process_alert_step alert count w :
  ∃ count' l ob,
    process_alert settings faults job alert count w =
      (Ok count',
       let t := if notified faults job alert
                then insert_rows (notifications w) (notification_seq w)
                       [new_row job (now w) alert]
                else (notifications w, notification_seq w) in
       mkWorld (job_alerts w) (fst t) (snd t) (log w ++ l) ob (now w))
    ∧ logs_faults settings faults job alert l.
Proof.
  destruct w as [ja nt sq lg ob0 nw].
  unfold logs_faults, process_alert, notified, Eff.try_except, Eff.bind, may_raise.
  destruct (criteria_fault faults alert) as [e|] eqn:Hc; simpl.
  - exists count, [ErrorProcessingAlert (JobAlert.pk alert) e], ob0.
    split; [reflexivity|].
    split; [intros ? [= ->]; left; reflexivity | split; discriminate].
  - destruct (keyword_match alert job && location_match alert job) eqn:Hm; simpl.
    + unfold send_job_alert_notification, JobAlertNotification_objects_create,
        Eff.try_except, Eff.bind, may_raise.
      destruct (create_fault faults alert) as [e|] eqn:Hf; simpl.
      * exists (S count), [ErrorCreatingNotification e], ob0.
        split; [reflexivity|]. split; [discriminate|].
        split; [intros ? _ _ [= ->]; left; reflexivity | discriminate].
      * destruct (has_EMAIL_HOST settings && truthy (User.email (JobAlert.user alert)));
          simpl.
        -- unfold send_mail, Eff.try_except, Eff.bind, may_raise.
           destruct (send_mail_fault faults alert) as [e|]; simpl;
             eexists (S count), _, _; rewrite <- !app_assoc;
             (split; [reflexivity|]); (split; [discriminate|]);
             (split; [discriminate|]).
           ++ intros ? _ _ _ _ [= ->]. right; left; reflexivity.
           ++ discriminate.
        -- eexists (S count), _, _. split; [reflexivity|].
           split; [discriminate|]. split; discriminate.
    + exists count, [], ob0. rewrite app_nil_r.
      split; [reflexivity|]. split; [discriminate|]. split; discriminate.
Qed.

Lemma logs_faults_mono alert l l' :
  logs_faults settings faults job alert l → (∀ r, In r l → In r l') →
  logs_faults settings faults job alert l'.
Proof.
  intros (H1 & H2 & H3) Hsub. repeat split; intros; apply Hsub; eauto.
Qed.

Lemma insert_rows_below t s rows k :
  (k < s)%N → fst (insert_rows t s rows) !! k = t !! k.
Proof.
  revert t s. induction rows as [|r rows IH]; intros t s Hk; simpl; [reflexivity|].
  rewrite IH by lia. apply lookup_insert_ne. lia.
Qed.

Lemma insert_rows_lookup t s rows i r :
  rows !! i = Some r →
  fst (insert_rows t s rows) !! (s + N.of_nat i)%N = Some r.
Proof.
  revert t s i. induction rows as [|r0 rows IH]; intros t s i Hi; [discriminate|].
  destruct i as [|i]; simpl in *.
  - injection Hi as ->. rewrite N.add_0_r, insert_rows_below by lia.
    apply lookup_insert_eq.
  - replace (s + N.of_nat (S i))%N with ((s + 1) + N.of_nat i)%N by lia.
    apply IH, Hi.
Qed.

(** The whole loop: it returns, and the table gains the rows of the notified
    alerts, in order. *)
Lemma for_each_alert alerts count w :
  ∃ count' l ob,
    Eff.for_each alerts (process_alert settings faults job) count w =
      (Ok count',
       let t := insert_rows (notifications w) (notification_seq w)
                  (map (new_row job (now w))
                       (List.filter (notified faults job) alerts)) in
       mkWorld (job_alerts w) (fst t) (snd t) (log w ++ l) ob (now w))
    ∧ (∀ a, In a alerts → logs_faults settings faults job a l).
Proof.
  revert count w. induction alerts as [|a alerts IH]; intros count w.
  - exists count, [], (outbox w). destruct w; simpl. rewrite app_nil_r.
    split; [reflexivity|]. intros ? [].
  - destruct (process_alert_step a count w) as (c1 & l1 & ob1 & Hstep & Hl1).
    simpl. unfold Eff.bind at 1. rewrite Hstep.
    match goal with |- context [Eff.for_each alerts _ c1 ?w1] =>
      destruct (IH c1 w1) as (c2 & l2 & ob2 & Hrest & Hl2) end.
    rewrite Hrest. exists c2, (l1 ++ l2)%list, ob2. simpl.
    split.
    + rewrite app_assoc. destruct (notified faults job a); reflexivity.
    + intros b [<-|Hin].
      * eapply logs_faults_mono; [exact Hl1|].
        intros r Hr. apply in_or_app; left; exact Hr.
      * eapply logs_faults_mono; [exact (Hl2 b Hin)|].
        intros r Hr. apply in_or_app; right; exact Hr.
Qed.

End FanoutFacts.

(** Without faults, an alert is notified exactly when it is in the candidate
    set of the three querysets and meets the predicate of the
    specification. *)
Lemma notified_no_faults job a :
  Fanout.notified Signals.no_faults job a = Signals.spec_match a job.
Proof. unfold Fanout.notified; simpl. apply andb_true_r. Qed.

Section OnceFacts.
Import Signals Fanout Delivery.
Variable settings : Settings.
Variable faults : Faults.
Variable job : Job.t.

(** One turn of the loop, in full. *)
Lemma process_alert_exact alert count w :
  process_alert settings faults job alert count w =
    (Ok (if counted faults job alert then S count else count),
     let t := if notified faults job alert
              then insert_rows (notifications w) (notification_seq w)
                     [new_row job (now w) alert]
              else (notifications w, notification_seq w) in
     mkWorld (job_alerts w) (fst t) (snd t)
             (log w ++ records settings faults job (notification_seq w) alert)
             (outbox w ++
                if mailed settings faults job alert
                then [email_for settings job alert] else [])
             (now w)).
Proof.
  destruct w as [ja nt sq lg ob0 nw].
  unfold process_alert, counted, mailed, notified, records, Eff.try_except,
    Eff.bind, may_raise.
  cbn [notification_seq notifications log outbox now job_alerts].
  destruct (criteria_fault faults alert) as [e|] eqn:Hc; simpl.
  - rewrite (app_nil_r ob0). reflexivity.
  - destruct (keyword_match alert job && location_match alert job) eqn:Hm; simpl.
    + unfold send_job_alert_notification, JobAlertNotification_objects_create,
        Eff.try_except, Eff.bind, may_raise.
      destruct (create_fault faults alert) as [e|] eqn:Hf; simpl.
      * rewrite (app_nil_r ob0). reflexivity.
      * destruct (has_EMAIL_HOST settings
                  && truthy (User.email (JobAlert.user alert))); simpl.
        -- unfold send_mail, Eff.try_except, Eff.bind, may_raise.
           destruct (send_mail_fault faults alert) as [e|]; simpl;
             rewrite <- ?app_assoc, ?(app_nil_r ob0); reflexivity.
        -- rewrite (app_nil_r ob0). reflexivity.
    + rewrite !app_nil_r. reflexivity.
Qed.

Lemma for_each_alert_exact alerts count w :
  Eff.for_each alerts (process_alert settings faults job) count w =
    (Ok (count + length (List.filter (counted faults job) alerts))%nat,
     let t := insert_rows (notifications w) (notification_seq w)
                (map (new_row job (now w))
                     (List.filter (notified faults job) alerts)) in
     mkWorld (job_alerts w) (fst t) (snd t)
             (log w ++ loop_records settings faults job (notification_seq w)
                         alerts)
             (outbox w ++ map (email_for settings job)
                            (List.filter (mailed settings faults job) alerts))
             (now w)).
Proof.
  revert count w. induction alerts as [|a alerts IH]; intros count w.
  - destruct w; simpl. rewrite !app_nil_r, Nat.add_0_r. reflexivity.
  - simpl. unfold Eff.bind at 1. rewrite process_alert_exact, IH.
    destruct w as [ja nt sq lg ob0 nw].
    cbn [notification_seq notifications log outbox now job_alerts].
    destruct (counted faults job a), (notified faults job a),
      (mailed settings faults job a);
      cbn [fst snd insert_rows map List.filter length notification_seq
           notifications log outbox now job_alerts app];
      rewrite <- ?app_assoc, ?app_nil_r, ?Nat.add_succ_r; reflexivity.
Qed.

(** A creation's run of the receiver, in full. *)
Lemma check_job_alerts_exact w :
  check_job_alerts settings faults job true w
  = (Ok tt, after_creation settings faults job w).
Proof.
  unfold check_job_alerts, after_creation; simpl.
  unfold Eff.bind at 1. rewrite for_each_alert_exact. cbv zeta. simpl.
  destruct (0 <? _)%nat.
  - unfold logger, Eff.modify. cbn [log job_alerts notifications
      notification_seq outbox now]. rewrite <- app_assoc. reflexivity.
  - unfold Eff.ret. rewrite app_nil_r. reflexivity.
Qed.

End OnceFacts.

Lemma insert_rows_seq t s rows :
  snd (Fanout.insert_rows t s rows) = (s + N.of_nat (length rows))%N.
Proof.
  revert t s. induction rows as [|r rows IH]; intros t s; simpl; [lia|].
  rewrite IH. lia.
Qed.

Lemma insert_rows_lookup_inv t s rows k r :
  fst (Fanout.insert_rows t s rows) !! k = Some r →
  t !! k = Some r ∨ In r rows.
Proof.
  revert t s. induction rows as [|r0 rows IH]; intros t s H; [left; exact H|].
  simpl in H. apply IH in H as [H|H]; [|right; right; exact H].
  destruct (decide (s = k)) as [->|Hne].
  - rewrite lookup_insert_eq in H. injection H as ->. right. left. reflexivity.
  - rewrite lookup_insert_ne in H by exact Hne. left. exact H.
Qed.

Lemma insert_rows_app t s rows rows' :
  Fanout.insert_rows t s (rows ++ rows')
  = Fanout.insert_rows (fst (Fanout.insert_rows t s rows))
      (snd (Fanout.insert_rows t s rows)) rows'.
Proof.
  revert t s. induction rows as [|r rows IH]; intros t s; [reflexivity|].
  simpl. apply IH.
Qed.

(** C5. The receiver does nothing on a save that is not a creation: it
    returns at once and leaves the world as it was (no matching, no
    notification, no log line).  On a creation it makes one pass over the
    candidate alerts and returns: each alert has one turn, which writes the
    row of the alert or logs the failure, and a turn that failed is not taken
    again: no row of an alert whose insertion failed comes into the table.
    Over a history of saves the receiver always returns, and the world is
    that of one pass for each creation, in order: the rows written are those
    of the creations, each creation's once. *)
Theorem fanout_runs_once_per_creation settings faults :
  (∀ job w, Signals.check_job_alerts settings faults job false w = (Ok tt, w))
  ∧ (∀ job w,
       Signals.check_job_alerts settings faults job true w
       = (Ok tt, Delivery.after_creation settings faults job w))
  ∧ (∀ saves w,
       Signals.post_save_all settings faults saves w
       = (Ok tt, Delivery.after_saves settings faults saves w))
  ∧ (∀ saves w,
       let w' := snd (Signals.post_save_all settings faults saves w) in
       let rows :=
         flat_map (fun s => Fanout.written settings faults
                              (Signals.saved_instance s) w)
                  (List.filter Signals.saved_created saves) in
       Signals.notifications w'
       = fst (Fanout.insert_rows (Signals.notifications w)
                (Signals.notification_seq w) rows)
       ∧ Signals.notification_seq w'
         = (Signals.notification_seq w + N.of_nat (length rows))%N
       ∧ Signals.job_alerts w' = Signals.job_alerts w)
  ∧ (∀ job w a e k,
       Signals.create_fault faults a = Some e →
       Signals.notifications
         (snd (Signals.check_job_alerts settings faults job true w)) !! k
       = Some (Fanout.new_row job (Signals.now w) a) →
       Signals.notifications w !! k
       = Some (Fanout.new_row job (Signals.now w) a)).
Proof.
  assert (Hsaves : ∀ saves w,
    Signals.post_save_all settings faults saves w
    = (Ok tt, Delivery.after_saves settings faults saves w)).
  { induction saves as [|[job created] saves IH]; intros w; [reflexivity|].
    cbn [Signals.post_save_all Delivery.after_saves Signals.saved_instance
         Signals.saved_created].
    unfold Eff.bind. destruct created.
    - rewrite check_job_alerts_exact. apply IH.
    - cbn. apply IH. }
  split; [reflexivity|]. split; [intros; apply check_job_alerts_exact|].
  split; [exact Hsaves|]. split.
  - intros saves w. cbv zeta. rewrite Hsaves. cbn [snd].
    assert (Hgen : ∀ saves w0 w,
      Signals.job_alerts w = Signals.job_alerts w0 →
      Signals.now w = Signals.now w0 →
      let rows :=
        flat_map (fun s => Fanout.written settings faults
                             (Signals.saved_instance s) w0)
                 (List.filter Signals.saved_created saves) in
      Signals.notifications (Delivery.after_saves settings faults saves w)
      = fst (Fanout.insert_rows (Signals.notifications w)
               (Signals.notification_seq w) rows)
      ∧ Signals.notification_seq (Delivery.after_saves settings faults saves w)
        = snd (Fanout.insert_rows (Signals.notifications w)
                 (Signals.notification_seq w) rows)
      ∧ Signals.job_alerts (Delivery.after_saves settings faults saves w)
        = Signals.job_alerts w0).
    { intros saves0. induction saves0 as [|[job created] saves0 IH];
        intros w0 w1 Hja Hnow.
      - cbn. auto.
      - cbn [Delivery.after_saves Signals.saved_instance Signals.saved_created
             List.filter]. destruct created;
          cbn [flat_map Signals.saved_instance].
        + cbv zeta. rewrite insert_rows_app.
          assert (Hw : Fanout.written settings faults job w0
                       = Fanout.written settings faults job w1).
          { unfold Fanout.written. rewrite Hja, Hnow. reflexivity. }
          rewrite Hw.
          apply (IH w0 (Delivery.after_creation settings faults job w1));
            [exact Hja | exact Hnow].
        + apply IH; assumption. }
    destruct (Hgen saves w w eq_refl eq_refl) as (H1 & H2 & H3).
    split; [exact H1|]. split; [|exact H3].
    rewrite H2. apply insert_rows_seq.
  - intros job w a e k Hf Hk.
    rewrite check_job_alerts_exact in Hk.
    cbn [snd Delivery.after_creation Signals.notifications] in Hk.
    apply insert_rows_lookup_inv in Hk as [Hold|Hrow]; [exact Hold|].
    exfalso.
    unfold Fanout.written in Hrow. apply in_map_iff in Hrow as (b & Hb & Hbin).
    apply filter_In in Hbin as [_ Hn].
    assert (Hab : b = a).
    { unfold Fanout.new_row in Hb. injection Hb as _ Hb. exact Hb. }
    subst b. unfold Fanout.notified in Hn. rewrite Hf in Hn.
    rewrite andb_false_r in Hn. discriminate.
Qed.

Lemma fanout_runs_once_per_creation_witness :
  let w' :=
    snd (Signals.post_save_all (Sample.settings Lookup.CaseSensitive)
           Signals.no_faults
           [Signals.mkJobSaved Sample.python_job true;
            Signals.mkJobSaved Sample.python_job false]
           (Sample.world [Sample.token_alert; Sample.developer_alert])) in
  Signals.notifications w' !! 1%N = Some Sample.ann_notification
  ∧ Signals.notifications w' !! 2%N = Some Sample.carl_notification
  ∧ Signals.notifications w' !! 3%N = None
  ∧ Signals.notification_seq w' = 3%N.
Proof.
  cbv zeta.
  destruct (fanout_runs_once_per_creation
              (Sample.settings Lookup.CaseSensitive) Signals.no_faults)
    as (_ & _ & _ & H & _).
  destruct (H [Signals.mkJobSaved Sample.python_job true;
               Signals.mkJobSaved Sample.python_job false]
              (Sample.world [Sample.token_alert; Sample.developer_alert]))
    as (Hrows & Hseq & _).
  rewrite Hrows, Hseq. repeat split.
Defined.

(** C6. The fan-out of a creation always returns normally, whatever fails
    for whichever alert, so the save that triggered it does not fail.  The
    table gains one row for each candidate alert that meets the criteria and
    whose own evaluation and insertion did not fail: neither the faults of
    the other alerts nor a failure of its own mail keep that row out.  A
    failed evaluation, a failed insertion and a failed mail are each
    logged. *)
Theorem fanout_isolates_failures settings faults job w :
  ∃ w',
    Signals.check_job_alerts settings faults job true w = (Ok tt, w')
    ∧ Signals.notifications w' =
        fst (Fanout.insert_rows (Signals.notifications w)
               (Signals.notification_seq w)
               (Fanout.written settings faults job w))
    ∧ (∀ a, In a (Signals.all_matches settings job (Signals.job_alerts w)) →
            Signals.spec_match a job = true →
            Signals.criteria_fault faults a = None →
            Signals.create_fault faults a = None →
            ∃ k, Signals.notifications w' !! k =
                   Some (Fanout.new_row job (Signals.now w) a))
    ∧ (∀ a e, In a (Signals.all_matches settings job (Signals.job_alerts w)) →
              Signals.criteria_fault faults a = Some e →
              In (Signals.ErrorProcessingAlert (JobAlert.pk a) e)
                 (Signals.log w'))
    ∧ (∀ a e, In a (Signals.all_matches settings job (Signals.job_alerts w)) →
              Signals.criteria_fault faults a = None →
              Signals.spec_match a job = true →
              Signals.create_fault faults a = Some e →
              In (Signals.ErrorCreatingNotification e) (Signals.log w'))
    ∧ (∀ a e, In a (Signals.all_matches settings job (Signals.job_alerts w)) →
              Signals.criteria_fault faults a = None →
              Signals.spec_match a job = true →
              Signals.create_fault faults a = None →
              Signals.has_EMAIL_HOST settings
                && Signals.truthy (User.email (JobAlert.user a)) = true →
              Signals.send_mail_fault faults a = Some e →
              In (Signals.ErrorSendingEmail e) (Signals.log w')).
Proof.
  unfold Signals.check_job_alerts; simpl.
  destruct (for_each_alert settings faults job
              (Signals.all_matches settings job (Signals.job_alerts w)) 0%nat w)
    as (c & l & ob & Hloop & Hl).
  unfold Eff.bind at 1. rewrite Hloop. cbv zeta.
  set (t := Fanout.insert_rows _ _ _) in *.
  assert (Hrows : ∀ a,
    In a (Signals.all_matches settings job (Signals.job_alerts w)) →
    Signals.spec_match a job = true →
    Signals.criteria_fault faults a = None →
    Signals.create_fault faults a = None →
    ∃ k, fst t !! k = Some (Fanout.new_row job (Signals.now w) a)).
  { intros a Hin Hm Hc Hf.
    assert (Hw : In (Fanout.new_row job (Signals.now w) a)
                    (Fanout.written settings faults job w)).
    { apply in_map, filter_In. split; [exact Hin|].
      unfold Fanout.notified. rewrite Hc, Hf. simpl.
      rewrite andb_true_r. exact Hm. }
    apply list_elem_of_In, list_elem_of_lookup in Hw as [i Hi].
    eexists. apply insert_rows_lookup, Hi. }
  assert (Hlogs : ∀ a tail,
    In a (Signals.all_matches settings job (Signals.job_alerts w)) →
    Fanout.logs_faults settings faults job a ((Signals.log w ++ l) ++ tail)).
  { intros a tail Hin. eapply (logs_faults_mono settings faults job); [exact (Hl a Hin)|].
    intros r Hr. apply in_or_app; left. apply in_or_app; right. exact Hr. }
  destruct (0 <? c)%nat; simpl; eexists; (split; [reflexivity|]); simpl;
    (split; [reflexivity|]); (split; [exact Hrows|]).
  - repeat split; intros a e Hin; intros;
      destruct (Hlogs a [Signals.SentAlertNotifications c (Job.title job)] Hin)
        as (Hl1 & Hl2 & Hl3); eauto.
  - repeat split; intros a e Hin; intros;
      destruct (Hlogs a [] Hin) as (Hl1 & Hl2 & Hl3);
      rewrite app_nil_r in Hl1, Hl2, Hl3; eauto.
Qed.

Lemma fanout_isolates_failures_witness :
  ∃ w',
    Signals.check_job_alerts (Sample.settings Lookup.CaseSensitive)
      Sample.some_faults Sample.python_job true
      (Sample.world [Sample.token_alert; Sample.developer_alert]) = (Ok tt, w')
    ∧ (∃ k, Signals.notifications w' !! k = Some Sample.carl_notification)
    ∧ In (Signals.ErrorProcessingAlert 2 (OtherError "AttributeError"))
         (Signals.log w').
Proof.
  destruct (fanout_isolates_failures (Sample.settings Lookup.CaseSensitive)
              Sample.some_faults Sample.python_job
              (Sample.world [Sample.token_alert; Sample.developer_alert]))
    as (w' & Hrun & _ & Hrows & Hlog & _).
  exists w'. split; [exact Hrun|]. split.
  - apply (Hrows Sample.developer_alert); [right; left| | |]; reflexivity.
  - apply (Hlog Sample.token_alert); [left|]; reflexivity.
Defined.

(** Without faults the table gains one row for each alert that is in the
    candidate set and meets the predicate, and nothing else. *)
Lemma filter_filter {A} (f g : A → bool) (l : list A) :
  List.filter f (List.filter g l) = List.filter (fun a => g a && f a) l.
Proof.
  induction l as [|a l IH]; simpl; [reflexivity|].
  destruct (g a); simpl; [destruct (f a)|]; rewrite IH; reflexivity.
Qed.

Lemma fanout_without_faults settings job w :
  Signals.notifications
    (snd (Signals.check_job_alerts settings Signals.no_faults job true w)) =
  fst (Fanout.insert_rows (Signals.notifications w) (Signals.notification_seq w)
         (map (Fanout.new_row job (Signals.now w))
              (List.filter
                 (fun a => Signals.in_all_matches settings job a
                           && Signals.spec_match a job)
                 (Signals.job_alerts w)))).
Proof.
  unfold Signals.check_job_alerts; simpl.
  destruct (for_each_alert settings Signals.no_faults job
              (Signals.all_matches settings job (Signals.job_alerts w)) 0%nat w)
    as (c & l & ob & Hloop & _).
  unfold Eff.bind at 1. rewrite Hloop. cbv zeta.
  unfold Signals.all_matches. rewrite filter_filter.
  erewrite (List.filter_ext _ (fun a => Signals.in_all_matches settings job a
                                        && Signals.spec_match a job)).
  - destruct (0 <? c)%nat; reflexivity.
  - intros a. rewrite notified_no_faults. reflexivity.
Qed.

(** C1. The candidate set of the receiver leaves out alerts that meet the
    predicate, and those get no notification.  On the example of the
    specification (alert "python" in "Remote", job "Python Developer" in
    "Remote, Worldwide") the predicate holds, yet with a database that
    compares text exactly the receiver returns with the world as it was: no
    notification for the owner of the alert.  For a job that has the keyword
    in its description only, the same happens under either collation. *)
Theorem candidate_set_misses_matching_alert :
  (Signals.spec_match Sample.python_alert Sample.python_job = true
   ∧ Signals.check_job_alerts (Sample.settings Lookup.CaseSensitive)
       Signals.no_faults Sample.python_job true
       (Sample.world [Sample.python_alert])
     = (Ok tt, Sample.world [Sample.python_alert]))
  ∧ ∀ c,
      Signals.spec_match Sample.python_alert Sample.backend_job = true
      ∧ Signals.check_job_alerts (Sample.settings c) Signals.no_faults
          Sample.backend_job true (Sample.world [Sample.python_alert])
        = (Ok tt, Sample.world [Sample.python_alert]).
Proof.
  split.
  - split; vm_compute; reflexivity.
  - intros c. split; [vm_compute; reflexivity|]. destruct c; vm_compute; reflexivity.
Qed.

Section AdminFacts.
Variable groups : Auth.Groups.




End AdminFacts.







Section GateFacts.
Import Http Mixins.

Lemma authenticated_inv ru :
  is_authenticated ru = true → ∃ u, ru = Authenticated u.
Proof. destruct ru; [discriminate | eauto]. Qed.

(** C4. The four route-level gates (the two mixins and the two decorators)
    fail closed: an anonymous request is answered by the redirect to the
    login page, an authenticated user without the required role by
    PermissionDenied (a different answer, with the state untouched), and in
    both cases the view behind the gate plays no part; a user of the role
    gets the view. *)
Theorem route_gates_fail_closed :
  fails_closed "employer" EmployerRequiredMixin
  ∧ fails_closed "jobseeker" JobSeekerRequiredMixin
  ∧ fails_closed "employer" employer_required
  ∧ fails_closed "jobseeker" jobseeker_required.
Proof.
  repeat split; intros;
    unfold EmployerRequiredMixin, EmployerRequiredMixin_dispatch,
      JobSeekerRequiredMixin, JobSeekerRequiredMixin_dispatch,
      employer_required, jobseeker_required, LoginRequiredMixin_dispatch;
    repeat match goal with
    | H : is_authenticated _ = true |- _ =>
        apply authenticated_inv in H as [? H]; rewrite H in *; clear H
    | H : is_authenticated (user ?r) = false |- _ =>
        destruct (user r); [clear H | discriminate H]
    | H : request_user_has_role _ _ = _ |- _ => rewrite H
    end; reflexivity.
Qed.

Lemma route_gates_fail_closed_witness :
  route_outcome
    (fst (employer_required (fun _ => Eff.ret (Render "jobs/job_form.html"))
            (Sample.request_of AnonymousUser) Sample.db0)) = RequireLogin
  ∧ route_outcome
      (fst (JobSeekerRequiredMixin
              (fun _ => Eff.ret (Render "jobs/notifications.html"))
              (Sample.request_of (Authenticated Sample.bob)) Sample.db0))
    = RouteForbidden.
Proof.
  destruct route_gates_fail_closed as (_ & Hseeker & Hemployer & _).
  split.
  - apply (Hemployer (fun _ => Eff.ret (Render "jobs/job_form.html"))
             (Sample.request_of AnonymousUser) Sample.db0). reflexivity.
  - apply (Hseeker (fun _ => Eff.ret (Render "jobs/notifications.html"))
             (Sample.request_of (Authenticated Sample.bob)) Sample.db0);
      reflexivity.
Defined.
End GateFacts.

Section DeadlineFacts.
Import JobForm.

Lemma days_in_month_other_year y y' m :
  m ≠ 2%Z → Date.days_in_month y m = Date.days_in_month y' m.
Proof.
  intros Hm. unfold Date.days_in_month.
  destruct (m =? 2)%Z eqn:E; [apply Z.eqb_eq in E; contradiction | reflexivity].
Qed.

(** Away from 29 February the bound [max_deadline] exists. *)
Lemma replace_year_ok (today : Date.t) :
  Date.valid today = true →
  (Date.year today <= 9997)%Z →
  ¬ (Date.month today = 2%Z ∧ Date.day today = 29%Z) →
  Date.replace_year today (Date.year today + 2) =
    Some (Date.mk (Date.year today + 2) (Date.month today) (Date.day today)).
Proof.
  intros Hv Hy Hleap. unfold Date.replace_year.
  destruct today as [y m d]; simpl in *.
  match goal with |- (if ?b then _ else _) = _ =>
    assert (Hb : b = true); [|rewrite Hb; reflexivity] end.
  unfold Date.valid in *; simpl in *.
  repeat (apply andb_true_iff in Hv as [Hv ?]).
  repeat match goal with
  | H : (_ <=? _)%Z = true |- _ => apply Z.leb_le in H
  end.
  assert (Hd : (d <= Date.days_in_month (y + 2) m)%Z).
  { destruct (Z.eq_dec m 2%Z) as [->|Hm].
    - assert (d ≠ 29%Z) by tauto.
      unfold Date.days_in_month in *; simpl in *.
      destruct (Date.is_leap y), (Date.is_leap (y + 2)); lia.
    - rewrite (days_in_month_other_year (y + 2) y) by assumption. lia. }
  repeat (apply andb_true_iff; split); apply Z.leb_le; lia.
Qed.

(** What the field accepts on a day other than 29 February: the deadlines
    after today and not after the same day two years on. *)
Lemma clean_deadline_window (today d : Date.t) :
  Date.valid today = true →
  (Date.year today <= 9997)%Z →
  ¬ (Date.month today = 2%Z ∧ Date.day today = 29%Z) →
  let max_deadline :=
    Date.mk (Date.year today + 2) (Date.month today) (Date.day today) in
  clean_field (clean_deadline today (Some d)) =
    if Date.leb d today
    then ValidationFailure "Job deadline must be in the future."
    else if Date.ltb max_deadline d
    then ValidationFailure
           "Job deadline cannot be more than 2 years in the future."
    else Accepted (Some d).
Proof.
  intros Hv Hy Hleap. unfold clean_deadline.
  rewrite replace_year_ok by assumption. cbv zeta.
  destruct (Date.leb d today); [reflexivity|].
  destruct (Date.ltb _ d); reflexivity.
Qed.

(** On every 29 February the bound does not exist, and a deadline in the
    future meets a ValueError. *)
Lemma clean_deadline_on_leap_day (y : Z) (d : Date.t) :
  Date.valid (Date.mk y 2 29) = true →
  Date.ltb (Date.mk y 2 29) d = true →
  clean_field (clean_deadline (Date.mk y 2 29) (Some d)) =
    ServerError (ValueError "day is out of range for month").
Proof.
  intros Hv Hlt. unfold clean_deadline, Date.leb. rewrite Hlt. simpl.
  assert (Hleap : Date.is_leap y = true).
  { unfold Date.valid, Date.days_in_month in Hv; simpl in Hv.
    destruct (Date.is_leap y); [reflexivity|].
    rewrite !andb_true_iff in Hv. destruct Hv as [_ Hv]. discriminate. }
  assert (Hnot : Date.is_leap (y + 2) = false).
  { unfold Date.is_leap in *.
    apply orb_true_iff in Hleap.
    assert (H4 : (y mod 4 = 0)%Z).
    { destruct Hleap as [H|H].
      - apply andb_true_iff in H as [H _]. apply Z.eqb_eq in H. exact H.
      - apply Z.eqb_eq in H. revert H. Z.div_mod_to_equations. lia. }
    assert (H2 : ((y + 2) mod 4 =? 0)%Z = false).
    { apply Z.eqb_neq. revert H4. Z.div_mod_to_equations. lia. }
    assert (H400 : ((y + 2) mod 400 =? 0)%Z = false).
    { apply Z.eqb_neq. revert H4. Z.div_mod_to_equations. lia. }
    rewrite H2, H400. reflexivity. }
  unfold Date.replace_year, Date.valid, Date.days_in_month; simpl.
  rewrite Hnot. rewrite !andb_false_r. reflexivity.
Qed.

(** C10. On 29 February the upper bound cannot be computed:
    [today.replace(year=...)] raises ValueError, so a deadline more than two
    years ahead (here 2027-01-01, seen from 2024-02-29) is not answered by a
    ValidationError but by a server error.  The day before, the same deadline
    is a validation failure, as is a deadline that is not in the future. *)
Theorem clean_deadline_fails_on_leap_day :
  Date.valid (Date.mk 2024 2 29) = true
  ∧ Date.valid (Date.mk 2027 1 1) = true
  ∧ Date.ltb (Date.mk 2026 2 28) (Date.mk 2027 1 1) = true
  ∧ clean_field (clean_deadline (Date.mk 2024 2 29) (Some (Date.mk 2027 1 1)))
    = ServerError (ValueError "day is out of range for month")
  ∧ clean_field (clean_deadline (Date.mk 2024 2 28) (Some (Date.mk 2027 1 1)))
    = ValidationFailure "Job deadline cannot be more than 2 years in the future."
  ∧ clean_field (clean_deadline (Date.mk 2024 2 28) (Some (Date.mk 2024 2 28)))
    = ValidationFailure "Job deadline must be in the future.".
Proof. repeat split. Qed.
End DeadlineFacts.

Section InboxFacts.
Import Http Views.

Lemma set_is_read_idem n :
  JobAlertNotification.is_read n = true →
  JobAlertNotification.set_is_read true n = n.
Proof. destruct n; simpl; intros ->; reflexivity. Qed.

Lemma mark_all_read_lookup u table k :
  mark_all_read u table !! k =
    (fun n => if owned_by u n then JobAlertNotification.set_is_read true n else n)
      <$> table !! k.
Proof.
  unfold mark_all_read. rewrite lookup_fmap.
  destruct (table !! k) as [n|]; simpl; [|reflexivity].
  destruct (owned_by u n); simpl; [|reflexivity].
  destruct (JobAlertNotification.is_read n) eqn:E; simpl; [|reflexivity].
  rewrite set_is_read_idem by assumption. reflexivity.
Qed.

Lemma num_pages_ge_1 count : (1 <=? num_pages count)%N = true.
Proof. unfold num_pages. apply N.leb_le. lia. Qed.

Lemma set_is_read_true n :
  Inbox.read_version n (JobAlertNotification.set_is_read true n).
Proof. destruct n. repeat split. Qed.

(** The inbox view either changes nothing or marks the user's rows. *)
Lemma NotificationListView_cases request u db :
  user request = Authenticated u →
  (∃ e, NotificationListView request db = (Raise e, db))
  ∨ (method request = POST
     ∧ NotificationListView request db = (Ok MethodNotAllowed, db))
  ∨ (method request = GET
     ∧ NotificationListView request db =
         (Ok (Render "jobs/notifications.html"),
          set_notifications (mark_all_read u (notifications db)) db)).
Proof.
  intros Hu. unfold NotificationListView, NotificationListView_get,
    Mixins.JobSeekerRequiredMixin_dispatch,
    Mixins.LoginRequiredMixin_dispatch, NotificationListView_get_context_data,
    ListView_get_context_data, View_dispatch.
  rewrite Hu; simpl.
  destruct (User.has_role u "jobseeker"); simpl; [|left; eauto].
  destruct (method request); [|right; left; split; reflexivity].
  unfold Eff.bind, get, Eff.ret; simpl.
  destruct (_ && _); simpl; [right; right; split; reflexivity | left; eauto].
Qed.

(** C7. For a request of user [u] to the inbox: a job seeker who asks for
    the first page with a GET gets the page; whenever the view answers with
    the page, every notification of [u] is stored with [is_read] true
    afterwards, its other fields being what they were.  A POST is answered
    with status 405 and marks nothing.  Whatever the view answers, the
    notifications of the other users are the rows they were, and no row
    appears. *)
Theorem inbox_view_marks_own_notifications_read request u db
    (Huser : user request = Authenticated u) :
  (User.has_role u "jobseeker" = true → method request = GET →
   page request = 1%N →
     ∃ db', NotificationListView request db =
              (Ok (Render "jobs/notifications.html"), db'))
  ∧ (∀ r db', NotificationListView request db = (r, db') →
       (r = Ok (Render "jobs/notifications.html") →
          ∀ k n, notifications db !! k = Some n → owned_by u n = true →
                 ∃ n', notifications db' !! k = Some n'
                       ∧ JobAlertNotification.is_read n' = true
                       ∧ Inbox.read_version n n')
       ∧ (r = Ok MethodNotAllowed → db' = db)
       ∧ (∀ k n, notifications db !! k = Some n → owned_by u n = false →
                 notifications db' !! k = Some n)
       ∧ (∀ k, notifications db !! k = None → notifications db' !! k = None))
  ∧ (User.has_role u "jobseeker" = true → method request = POST →
     NotificationListView request db = (Ok MethodNotAllowed, db)).
Proof.
  split; [|split].
  - intros Hrole Hm Hpage.
    unfold NotificationListView, NotificationListView_get,
      Mixins.JobSeekerRequiredMixin_dispatch,
      Mixins.LoginRequiredMixin_dispatch, NotificationListView_get_context_data,
      ListView_get_context_data, View_dispatch.
    rewrite Huser, Hpage, Hm; simpl. rewrite Hrole; simpl.
    unfold Eff.bind, get, Eff.ret; simpl.
    rewrite num_pages_ge_1. simpl. eauto.
  - intros r db' Hget.
    destruct (NotificationListView_cases request u db Huser)
      as [[e He]|[[_ Hpost]|[_ Hok]]]; rewrite Hget in *.
    + injection He as -> ->. split; [discriminate|]. split; auto.
    + injection Hpost as -> ->. split; [discriminate|]. split; auto.
    + injection Hok as -> ->. cbn [notifications set_notifications].
      split; [intros _ k n Hk Ho | split; [discriminate|
              split; [intros k n Hk Ho | intros k Hk]]];
        rewrite mark_all_read_lookup, Hk; simpl; [rewrite Ho ..|];
        [|reflexivity|reflexivity].
      eexists. split; [reflexivity|].
      pose proof (set_is_read_true n) as Hread.
      split; [apply Hread | exact Hread].
  - intros Hrole Hm.
    unfold NotificationListView, Mixins.JobSeekerRequiredMixin_dispatch,
      Mixins.LoginRequiredMixin_dispatch, View_dispatch.
    rewrite Huser, Hm; simpl. rewrite Hrole; simpl. reflexivity.
Qed.

Lemma inbox_view_marks_own_notifications_read_witness :
  JobAlertNotification.is_read Sample.ann_notification = false
  ∧ (∃ n', Http.notifications
             (snd (Views.NotificationListView
                     (Sample.get_request_of (Authenticated Sample.ann))
                     Sample.db1)) !! 1%N = Some n'
           ∧ JobAlertNotification.is_read n' = true
           ∧ Inbox.read_version Sample.ann_notification n')
  ∧ Http.notifications
      (snd (Views.NotificationListView
              (Sample.get_request_of (Authenticated Sample.ann)) Sample.db1))
      !! 2%N
    = Some Sample.carl_notification.
Proof.
  destruct (inbox_view_marks_own_notifications_read
              (Sample.get_request_of (Authenticated Sample.ann)) Sample.ann
              Sample.db1 eq_refl) as (_ & H & _).
  destruct (H _ _ (surjective_pairing _)) as (Hown & _ & Hother & _).
  split; [reflexivity|]. split.
  - apply Hown; reflexivity.
  - apply Hother; reflexivity.
Defined.
End InboxFacts.

Section ReadFacts.
Import Http Views.

(** C8. For a request of user [u]: when [u] is a job seeker and owns the
    notification, the view succeeds (it redirects to the job) and the
    notification is stored with [is_read] true, its other fields being what
    they were; every other row and every other table is what it was.  When
    the notification does not exist or is another user's, the answer is
    Http404 and the state is untouched; a user who is no job seeker is
    refused with PermissionDenied, the state untouched as well. *)
Theorem mark_notification_read_checks_owner request u pk db
    (Huser : user request = Authenticated u) :
  (User.has_role u "jobseeker" = true →
     (∀ n, notifications db !! pk = Some n → owned_by u n = true →
        ∃ n' db',
          mark_notification_read request pk db =
            (Ok (Redirect "jobs:job_detail"
                   (Some (Job.pk (JobAlertNotification.job n)))), db')
          ∧ notifications db' !! pk = Some n'
          ∧ JobAlertNotification.is_read n' = true
          ∧ Inbox.read_version n n'
          ∧ (∀ k, k ≠ pk → notifications db' !! k = notifications db !! k)
          ∧ jobs db' = jobs db ∧ applications db' = applications db
          ∧ flash db' = flash db)
     ∧ ((notifications db !! pk = None
         ∨ ∃ n, notifications db !! pk = Some n ∧ owned_by u n = false) →
        mark_notification_read request pk db = (Raise Http404, db)))
  ∧ (User.has_role u "jobseeker" = false →
       mark_notification_read request pk db =
         (Raise (PermissionDenied
                   "Access denied. Only job seekers can access this page."),
          db)).
Proof.
  unfold mark_notification_read, Mixins.jobseeker_required,
    mark_notification_read_view.
  rewrite Huser; simpl.
  split; intros Hrole; rewrite Hrole; simpl; [|reflexivity].
  unfold Eff.bind, Eff.ret; simpl.
  split.
  - intros n Hn Ho. rewrite Hn, Ho.
    pose proof (set_is_read_true n) as Hread.
    eexists _, _. split; [f_equal; f_equal; f_equal; f_equal; apply Hread|].
    cbn [notifications set_notifications jobs applications flash].
    split; [apply lookup_insert_eq|]. split; [apply Hread|].
    split; [exact Hread|].
    split; [intros k Hk; apply lookup_insert_ne; congruence|].
    repeat split.
  - intros [Hn | (n & Hn & Ho)]; rewrite Hn; [|rewrite Ho]; reflexivity.
Qed.

Lemma mark_notification_read_checks_owner_witness :
  JobAlertNotification.is_read Sample.ann_notification = false
  ∧ (∃ n' db',
       Views.mark_notification_read
         (Sample.request_of (Authenticated Sample.ann)) 1 Sample.db1
       = (Ok (Http.Redirect "jobs:job_detail" (Some 1%N)), db')
       ∧ Http.notifications db' !! 1%N = Some n'
       ∧ JobAlertNotification.is_read n' = true)
  ∧ Views.mark_notification_read (Sample.request_of (Authenticated Sample.ann))
      2 Sample.db1
    = (Raise Http404, Sample.db1).
Proof.
  split; [reflexivity|]. split.
  - destruct (mark_notification_read_checks_owner
                (Sample.request_of (Authenticated Sample.ann)) Sample.ann 1
                Sample.db1 eq_refl) as [H _].
    destruct (H eq_refl) as [Hown _].
    destruct (Hown Sample.ann_notification eq_refl eq_refl)
      as (n' & db' & Hrun & Hrow & Hread & _).
    exists n', db'. split; [exact Hrun|]. split; assumption.
  - destruct (mark_notification_read_checks_owner
                (Sample.request_of (Authenticated Sample.ann)) Sample.ann 2
                Sample.db1 eq_refl) as [H _].
    destruct (H eq_refl) as [_ Hnot].
    apply Hnot. right. exists Sample.carl_notification. split; reflexivity.
Defined.
End ReadFacts.

Section ApplyFacts.
Import Http Views Applying.

Lemma same_application_refl job u resume cover status :
  same_application job u (Application.mk job u resume cover status) = true.
Proof.
  unfold same_application, User.eqb; simpl. rewrite !N.eqb_refl. reflexivity.
Qed.

Lemma same_application_pair job u job' u' a :
  same_application job u a = true → same_application job' u' a = true →
  ∀ b, same_application job u b = same_application job' u' b.
Proof.
  unfold same_application, User.eqb. intros H1 H2 b.
  apply andb_true_iff in H1 as [H1 H1'], H2 as [H2 H2'].
  apply N.eqb_eq in H1, H1', H2, H2'.
  replace (Job.pk job) with (Job.pk job') by congruence.
  replace (User.pk u) with (User.pk u') by congruence. reflexivity.
Qed.

Lemma application_exists_true job u apps :
  application_exists job u apps = true ↔
  ∃ k a, apps !! k = Some a ∧ same_application job u a = true.
Proof. unfold application_exists. rewrite bool_decide_eq_true. reflexivity. Qed.

Lemma flash_not_grown {A} (l : list A) x : l ≠ (l ++ [x])%list.
Proof.
  intros H. apply (f_equal (@length A)) in H. rewrite length_app in H.
  simpl in H. lia.
Qed.

(** The endings of [apply_for_job]: it leaves the applications as they were
    and reports no submission, or it has stored one row for a pair that had
    none and reports the submission. *)
Lemma apply_for_job_cases request pk db :
  (applications (snd (apply_for_job request pk db)) = applications db
   ∧ ¬ submitted db (snd (apply_for_job request pk db)))
  ∨ (∃ job u resume cover_letter,
       user request = Authenticated u
       ∧ User.has_role u "jobseeker" = true
       ∧ List.find (fun j => (Job.pk j =? pk)%N) (jobs db) = Some job
       ∧ Job.is_active (today db) job = true
       ∧ application_exists job u (applications db) = false
       ∧ apply_for_job request pk db =
           (Ok (Redirect "jobs:job_detail" (Some pk)),
            mkDB (jobs db)
                 (<[application_seq db :=
                      Application.mk job u resume cover_letter
                        ApplicationStatus.applied]> (applications db))
                 (application_seq db + 1)%N (notifications db)
                 (flash db ++ [(level_success,
                                "Application submitted successfully!")])
                 (today db))).
Proof.
  unfold submitted, reported.
  unfold apply_for_job, Mixins.jobseeker_required.
  destruct request as [ru meth form pg]; simpl.
  destruct ru as [|u]; simpl.
  { left. split; [reflexivity|]. simpl. intros H.
    apply app_inv_head in H. discriminate. }
  destruct (User.has_role u "jobseeker") eqn:Hrole; simpl.
  2: { left. split; [reflexivity|]. apply flash_not_grown. }
  unfold apply_for_job_view, Eff.bind, get_job_or_404, get, Eff.ret; simpl.
  destruct (List.find _ (jobs db)) as [job|] eqn:Hjob; simpl.
  2: { left. split; [reflexivity|]. apply flash_not_grown. }
  destruct (Job.is_active (today db) job) eqn:Hact; simpl.
  2: { left. split; [reflexivity|]. simpl. intros H.
       apply app_inv_head in H. discriminate. }
  destruct (application_exists job u (applications db)) eqn:Hex; simpl.
  { left. split; [reflexivity|]. simpl. intros H.
    apply app_inv_head in H. discriminate. }
  destruct meth; simpl.
  { left. split; [reflexivity|]. apply flash_not_grown. }
  destruct form as [[resume cover]|]; simpl.
  2: { left. split; [reflexivity|]. simpl. intros H.
       apply app_inv_head in H. discriminate. }
  unfold Eff.try_except, Eff.bind, Application_save; simpl. rewrite Hex; simpl.
  right. exists job, u, resume, cover. repeat (split; [reflexivity || assumption|]).
  reflexivity.
Qed.

Lemma apply_for_job_keeps_unique request pk db :
  unique_applications (applications db) →
  unique_applications (applications (snd (apply_for_job request pk db))).
Proof.
  intros Huniq.
  destruct (apply_for_job_cases request pk db)
    as [[-> _] | (job & u & resume & cover & _ & _ & _ & _ & Hex & ->)];
    [exact Huniq|]. simpl.
  assert (Hfresh : ∀ k a, applications db !! k = Some a →
                          same_application job u a = false).
  { intros k a Hk. destruct (same_application job u a) eqn:E; [|reflexivity].
    assert (application_exists job u (applications db) = true)
      by (apply application_exists_true; eauto).
    congruence. }
  intros job' u' k1 k2 a1 a2 H1 H2 S1 S2.
  destruct (decide (k1 = application_seq db)) as [->|N1],
           (decide (k2 = application_seq db)) as [->|N2]; [reflexivity|..].
  - rewrite lookup_insert_eq in H1. rewrite lookup_insert_ne in H2 by congruence.
    injection H1 as <-.
    pose proof (same_application_refl job u resume cover ApplicationStatus.applied)
      as Hr.
    rewrite (same_application_pair _ _ _ _ _ S1 Hr a2) in S2.
    rewrite (Hfresh _ _ H2) in S2. discriminate.
  - rewrite lookup_insert_eq in H2. rewrite lookup_insert_ne in H1 by congruence.
    injection H2 as <-.
    pose proof (same_application_refl job u resume cover ApplicationStatus.applied)
      as Hr.
    rewrite (same_application_pair _ _ _ _ _ S2 Hr a1) in S1.
    rewrite (Hfresh _ _ H1) in S1. discriminate.
  - rewrite lookup_insert_ne in H1, H2 by congruence.
    eapply Huniq; eassumption.
Qed.

Lemma reachable_unique db :
  reachable db → unique_applications (applications db).
Proof.
  induction 1 as [db Hempty | db request pk _ IH | db d _ IH].
  - intros job u k1 k2 a1 a2 H1. rewrite Hempty, lookup_empty in H1. discriminate.
  - apply apply_for_job_keeps_unique, IH.
  - exact IH.
Qed.

(** C9. In every state reached from an empty table by requests to
    [apply_for_job] and the passing of days, a job and an applicant have at
    most one application.  After a request that submitted an application, a
    second request of the same user for the same job leaves the table of
    applications as it is and is answered by the redirect with the message
    "You have already applied for this job."; on whatever later day it comes,
    it stores no row and reports no submission, but that the user has
    applied already or that the posting has expired. *)
Theorem second_application_is_refused :
  (∀ db, reachable db → unique_applications (applications db))
  ∧ (∀ request pk db response db',
       apply_for_job request pk db = (Ok response, db') →
       submitted db db' →
       ∀ request2, user request2 = user request →
         (applications (snd (apply_for_job request2 pk db')) = applications db'
          ∧ fst (apply_for_job request2 pk db') =
              Ok (Redirect "jobs:job_detail" (Some pk))
          ∧ already_applied db' (snd (apply_for_job request2 pk db')))
         ∧ ∀ d, applications (snd (apply_for_job request2 pk (set_today d db')))
                  = applications db'
                ∧ (already_applied (set_today d db')
                     (snd (apply_for_job request2 pk (set_today d db')))
                   ∨ expired (set_today d db')
                       (snd (apply_for_job request2 pk (set_today d db'))))
                ∧ ¬ submitted (set_today d db')
                      (snd (apply_for_job request2 pk (set_today d db')))).
Proof.
  split; [exact reachable_unique|].
  intros request pk db response db' Hfirst Hsub request2 Huser2.
  destruct (apply_for_job_cases request pk db)
    as [[_ Hno] | (job & u & resume & cover & Hu & Hrole & Hjob & Hact & Hex & Heq)].
  { rewrite Hfirst in Hno. contradiction. }
  rewrite Hfirst in Heq. injection Heq as -> ->.
  assert (Hnow : ∀ d,
    application_exists job u
      (applications (set_today d
         (mkDB (jobs db)
            (<[application_seq db :=
                 Application.mk job u resume cover ApplicationStatus.applied]>
               (applications db))
            (application_seq db + 1)%N (notifications db)
            (flash db ++ [(level_success, "Application submitted successfully!")])
            (today db)))) = true).
  { intros d. apply application_exists_true. simpl.
    exists (application_seq db), (Application.mk job u resume cover ApplicationStatus.applied).
    split; [apply lookup_insert_eq | apply same_application_refl]. }
  assert (Hsecond : ∀ d,
    let db2 := set_today d
         (mkDB (jobs db)
            (<[application_seq db :=
                 Application.mk job u resume cover ApplicationStatus.applied]>
               (applications db))
            (application_seq db + 1)%N (notifications db)
            (flash db ++ [(level_success, "Application submitted successfully!")])
            (today db)) in
    apply_for_job request2 pk db2 =
      (Ok (Redirect "jobs:job_detail" (Some pk)),
       mkDB (jobs db2) (applications db2) (application_seq db2)
            (notifications db2)
            (flash db2 ++
               [if Job.is_active d job
                then (level_warning, "You have already applied for this job.")
                else (level_error, "This job posting has expired.")])
            (today db2))).
  { intros d db2. unfold apply_for_job, Mixins.jobseeker_required.
    rewrite Huser2, Hu; simpl. rewrite Hrole; simpl.
    unfold apply_for_job_view, Eff.bind, get_job_or_404, get, Eff.ret; simpl.
    rewrite Hjob; simpl.
    destruct (Job.is_active d job) eqn:Hd; simpl; [|reflexivity].
    rewrite Huser2, Hu; simpl.
    specialize (Hnow d). simpl in Hnow. rewrite Hnow. reflexivity. }
  split.
  - pose proof (Hsecond (today db)) as H0. simpl in H0. unfold set_today in H0.
    simpl in H0. rewrite Hact in H0. rewrite H0. simpl.
    split; [reflexivity|]. split; reflexivity.
  - intros d. rewrite Hsecond. simpl. split; [reflexivity|]. split.
    + unfold already_applied, expired, reported; simpl.
      destruct (Job.is_active d job); [left | right]; reflexivity.
    + unfold submitted, reported; simpl. intros H. apply app_inv_head in H.
      destruct (Job.is_active d job); discriminate.
Qed.

Lemma second_application_is_refused_witness :
  Applying.already_applied
    (snd (Views.apply_for_job (Sample.request_of (Authenticated Sample.ann)) 1
            Sample.db0))
    (snd (Views.apply_for_job (Sample.request_of (Authenticated Sample.ann)) 1
            (snd (Views.apply_for_job
                    (Sample.request_of (Authenticated Sample.ann)) 1
                    Sample.db0)))).
Proof.
  destruct second_application_is_refused as [_ H].
  refine (proj2 (proj2 (proj1
    (H (Sample.request_of (Authenticated Sample.ann)) 1%N Sample.db0
       (Http.Redirect "jobs:job_detail" (Some 1%N)) _ _ _
       (Sample.request_of (Authenticated Sample.ann)) eq_refl)))).
  - vm_compute. reflexivity.
  - vm_compute. reflexivity.
Defined.
End ApplyFacts.

(** * Further properties of the code *)

Section DeliveryFacts.
Import Signals Fanout Delivery.
Variable settings : Settings.
Variable faults : Faults.
Variable job : Job.t.

(** One turn of the loop, with its count and its mail. *)
Lemma process_alert_effect alert count w :
  ∃ l,
    (∀ r, In r l → ∀ n t, r ≠ SentAlertNotifications n t) ∧
    process_alert settings faults job alert count w =
      (Ok (if counted faults job alert then S count else count),
       let t := if notified faults job alert
                then insert_rows (notifications w) (notification_seq w)
                       [new_row job (now w) alert]
                else (notifications w, notification_seq w) in
       mkWorld (job_alerts w) (fst t) (snd t) (log w ++ l)
               (outbox w ++
                  if mailed settings faults job alert
                  then [email_for settings job alert] else [])
               (now w)).
Proof.
  destruct w as [ja nt sq lg ob0 nw].
  unfold process_alert, counted, mailed, notified, Eff.try_except, Eff.bind,
    may_raise.
  assert (Hshape : ∀ l : list LogRecord,
    Forall (fun r => match r with SentAlertNotifications _ _ => False
                              | _ => True end) l →
    ∀ r, In r l → ∀ n t, r ≠ SentAlertNotifications n t).
  { intros l Hl r Hr n t ->. rewrite Forall_forall in Hl.
    apply (Hl _ (proj2 (list_elem_of_In _ _) Hr)). }
  destruct (criteria_fault faults alert) as [e|] eqn:Hc; simpl.
  - eexists. split; [apply Hshape|rewrite (app_nil_r ob0); reflexivity].
    repeat constructor.
  - destruct (keyword_match alert job && location_match alert job) eqn:Hm; simpl.
    + unfold send_job_alert_notification, JobAlertNotification_objects_create,
        Eff.try_except, Eff.bind, may_raise.
      destruct (create_fault faults alert) as [e|] eqn:Hf; simpl.
      * eexists. split; [apply Hshape|rewrite (app_nil_r ob0); reflexivity].
        repeat constructor.
      * destruct (has_EMAIL_HOST settings && truthy (User.email (JobAlert.user alert)));
          simpl.
        -- unfold send_mail, Eff.try_except, Eff.bind, may_raise.
           destruct (send_mail_fault faults alert) as [e|]; simpl;
             eexists;
             (split; [apply Hshape
                     |rewrite <- ?app_assoc, ?(app_nil_r ob0); reflexivity]);
             repeat constructor.
        -- eexists. split; [apply Hshape|rewrite (app_nil_r ob0); reflexivity].
           repeat constructor.
    + exists []. split; [intros ? []|]. rewrite !app_nil_r. reflexivity.
Qed.

Lemma for_each_alert_effect alerts count w :
  ∃ l,
    (∀ r, In r l → ∀ n t, r ≠ SentAlertNotifications n t) ∧
    Eff.for_each alerts (process_alert settings faults job) count w =
      (Ok (count + length (List.filter (counted faults job) alerts))%nat,
       let t := insert_rows (notifications w) (notification_seq w)
                  (map (new_row job (now w))
                       (List.filter (notified faults job) alerts)) in
       mkWorld (job_alerts w) (fst t) (snd t) (log w ++ l)
               (outbox w ++ map (email_for settings job)
                              (List.filter (mailed settings faults job) alerts))
               (now w)).
Proof.
  revert count w. induction alerts as [|a alerts IH]; intros count w.
  - exists []. split; [intros ? []|].
    destruct w; simpl. rewrite !app_nil_r, Nat.add_0_r. reflexivity.
  - destruct (process_alert_effect a count w) as (l1 & Hl1 & Hstep).
    simpl. unfold Eff.bind at 1. rewrite Hstep.
    match goal with |- context [Eff.for_each alerts _ ?c1 ?w1] =>
      destruct (IH c1 w1) as (l2 & Hl2 & Hrest) end.
    rewrite Hrest. exists (l1 ++ l2)%list. simpl.
    split; [intros r Hr; apply in_app_or in Hr as [Hr|Hr]; eauto|].
    rewrite !app_assoc.
    destruct (counted faults job a), (notified faults job a),
      (mailed settings faults job a); simpl;
      rewrite <- ?app_assoc, ?app_nil_r, ?Nat.add_succ_r; simpl; reflexivity.
Qed.


(** What a creation's run of the receiver does to the world. *)
Lemma check_job_alerts_effect w :
  let candidates := all_matches settings job (job_alerts w) in
  let n := length (List.filter (counted faults job) candidates) in
  ∃ l,
    (∀ r, In r l → ∀ m t, r ≠ SentAlertNotifications m t) ∧
    check_job_alerts settings faults job true w =
      (Ok tt,
       let t := insert_rows (notifications w) (notification_seq w)
                  (written settings faults job w) in
       mkWorld (job_alerts w) (fst t) (snd t)
               (log w ++ l ++
                  if (0 <? n)%nat
                  then [SentAlertNotifications n (Job.title job)] else [])
               (outbox w ++ map (email_for settings job)
                              (List.filter (mailed settings faults job)
                                           candidates))
               (now w)).
Proof.
  intros candidates n. unfold check_job_alerts; simpl.
  destruct (for_each_alert_effect candidates 0%nat w) as (l & Hl & Hloop).
  fold candidates. unfold Eff.bind at 1. rewrite Hloop. cbv zeta. simpl.
  fold n. exists l. split; [exact Hl|].
  destruct (0 <? n)%nat.
  - unfold logger, Eff.modify. cbn [log job_alerts notifications
      notification_seq outbox now]. rewrite <- app_assoc. reflexivity.
  - unfold Eff.ret. rewrite app_nil_r. reflexivity.
Qed.

End DeliveryFacts.

(** The criteria fold case as Python does, beyond ASCII too: the alert for
    Paris in capitals meets the job located in Paris in small letters, the
    accented letter included.  The database, which here folds ASCII only,
    finds the alert through its keyword, and the owner is notified. *)
Lemma accented_location_is_matched :
  Signals.location_match Sample.paris_alert Sample.paris_job = true
  ∧ Signals.in_all_matches (Sample.settings Lookup.CaseSensitive)
      Sample.paris_job Sample.paris_alert = true
  ∧ Signals.notifications
      (snd (Signals.check_job_alerts (Sample.settings Lookup.CaseSensitive)
              Signals.no_faults Sample.paris_job true
              (Sample.world [Sample.paris_alert])))
    !! 1%N = Some (Fanout.new_row Sample.paris_job 0 Sample.paris_alert).
Proof. vm_compute. auto. Qed.



(** X2. The receiver keeps no record of the jobs it has handled: run a
    second time for the same job, it writes every row of the first run
    again, under a new id. *)
Theorem receiver_run_twice_duplicates settings faults job w r
    (Hr : In r (Fanout.written settings faults job w)) :
  let w1 := snd (Signals.check_job_alerts settings faults job true w) in
  let w2 := snd (Signals.check_job_alerts settings faults job true w1) in
  ∃ k1 k2, k1 ≠ k2
    ∧ Signals.notifications w2 !! k1 = Some r
    ∧ Signals.notifications w2 !! k2 = Some r.
Proof.
  intros w1 w2. subst w2 w1.
  destruct (check_job_alerts_effect settings faults job w) as (l1 & _ & ->).
  cbn [snd].
  match goal with |- context [Signals.check_job_alerts _ _ _ _ ?w1] =>
    destruct (check_job_alerts_effect settings faults job w1) as (l2 & _ & ->)
  end.
  cbn [snd Signals.notifications Signals.notification_seq].
  unfold Fanout.written at 2 3. cbn [Signals.job_alerts Signals.now].
  fold (Fanout.written settings faults job w).
  set (rows := Fanout.written settings faults job w) in *.
  apply list_elem_of_In, list_elem_of_lookup in Hr as [i Hi].
  pose proof (lookup_lt_Some _ _ _ Hi) as Hlen.
  exists (Signals.notification_seq w + N.of_nat i)%N,
         (snd (Fanout.insert_rows (Signals.notifications w)
                 (Signals.notification_seq w) rows) + N.of_nat i)%N.
  rewrite insert_rows_seq. split; [lia|]. split.
  - rewrite insert_rows_below by lia. apply insert_rows_lookup, Hi.
  - apply insert_rows_lookup, Hi.
Qed.

Lemma receiver_run_twice_duplicates_witness :
  ∃ k1 k2, k1 ≠ k2
    ∧ Signals.notifications
        (snd (Signals.check_job_alerts (Sample.settings Lookup.CaseSensitive)
                Signals.no_faults Sample.python_job true
                (snd (Signals.check_job_alerts
                        (Sample.settings Lookup.CaseSensitive)
                        Signals.no_faults Sample.python_job true
                        (Sample.world [Sample.token_alert]))))) !! k1
      = Some Sample.ann_notification
    ∧ Signals.notifications
        (snd (Signals.check_job_alerts (Sample.settings Lookup.CaseSensitive)
                Signals.no_faults Sample.python_job true
                (snd (Signals.check_job_alerts
                        (Sample.settings Lookup.CaseSensitive)
                        Signals.no_faults Sample.python_job true
                        (Sample.world [Sample.token_alert]))))) !! k2
      = Some Sample.ann_notification.
Proof.
  apply (receiver_run_twice_duplicates (Sample.settings Lookup.CaseSensitive)
           Signals.no_faults Sample.python_job
           (Sample.world [Sample.token_alert]) Sample.ann_notification).
  left. reflexivity.
Defined.

(** X3. The mails of a run are exactly those for the notified alerts whose
    owner has an address and whose [send_mail] did not fail, in the order of
    the alerts: no mail goes out for an alert whose row was not created, each
    mail has its row in the table, and every alert that is notified, whose
    owner has an address and whose mail does not fail has its mail in the
    outbox, addressed to the owner from DEFAULT_FROM_EMAIL. *)
Theorem mail_follows_notification settings faults job w :
  let w' := snd (Signals.check_job_alerts settings faults job true w) in
  let candidates :=
    Signals.all_matches settings job (Signals.job_alerts w) in
  Signals.outbox w' =
    (Signals.outbox w ++
     map (Delivery.email_for settings job)
         (List.filter (Delivery.mailed settings faults job) candidates))%list
  ∧ (∀ a, In a candidates → Delivery.mailed settings faults job a = true →
          ∃ k, Signals.notifications w' !! k =
                 Some (Fanout.new_row job (Signals.now w) a))
  ∧ (∀ a, In a candidates → Fanout.notified faults job a = true →
          Signals.truthy (User.email (JobAlert.user a)) = true →
          Signals.send_mail_fault faults a = None →
          In (Signals.mkEmail
                ("Job Alert: " +:+ Job.title job +:+ " at " +:+
                 Company.name (Job.company job))
                (Signals.DEFAULT_FROM_EMAIL settings)
                [User.email (JobAlert.user a)])
             (Signals.outbox w'))
  ∧ (∀ a, In a candidates → Fanout.notified faults job a = false →
          Delivery.mailed settings faults job a = false).
Proof.
  intros w' candidates. subst w'.
  destruct (check_job_alerts_effect settings faults job w) as (l & _ & ->).
  cbn [snd Signals.outbox Signals.notifications]. fold candidates.
  split; [reflexivity|]. split; [|split].
  - intros a Hin Hm.
    assert (Hw : In (Fanout.new_row job (Signals.now w) a)
                    (Fanout.written settings faults job w)).
    { apply in_map, filter_In. split; [exact Hin|].
      unfold Delivery.mailed in Hm.
      apply andb_true_iff in Hm as [Hm _]. apply andb_true_iff in Hm as [Hm _].
      exact Hm. }
    apply list_elem_of_In, list_elem_of_lookup in Hw as [i Hi].
    eexists. apply insert_rows_lookup, Hi.
  - intros a Hin Hn Hmail Hsend. apply in_or_app. right.
    change (Signals.mkEmail _ _ _) with (Delivery.email_for settings job a).
    apply in_map, filter_In. split; [exact Hin|].
    unfold Delivery.mailed. rewrite Hn, Hmail, Hsend. reflexivity.
  - intros a _ Hn. unfold Delivery.mailed. rewrite Hn. reflexivity.
Qed.

Lemma mail_follows_notification_witness :
  In (Signals.mkEmail "Job Alert: Python Developer at Acme"
        "noreply@example.org" ["ann@example.org"])
     (Signals.outbox
        (snd (Signals.check_job_alerts (Sample.settings Lookup.CaseSensitive)
                Signals.no_faults Sample.python_job true
                (Sample.world [Sample.token_alert])))).
Proof.
  destruct (mail_follows_notification (Sample.settings Lookup.CaseSensitive)
              Signals.no_faults Sample.python_job
              (Sample.world [Sample.token_alert])) as (_ & _ & Hmail & _).
  apply (Hmail Sample.token_alert); [left|..]; reflexivity.
Defined.

Lemma filter_length_split {A} (f g : A → bool) (l : list A) :
  (length (List.filter (fun a => f a && g a) l)
   + length (List.filter (fun a => f a && negb (g a)) l))%nat
  = length (List.filter f l).
Proof.
  induction l as [|a l IH]; simpl; [reflexivity|].
  destruct (f a), (g a); simpl; lia.
Qed.

(** X4. The number in the line "Sent N job alert notifications" is the
    number of candidate alerts whose criteria were evaluated and hold: it
    counts the alerts whose notification could not be created as well.  The
    line is the last of the run, and it is written when that number is not
    zero, also when no row at all was written. *)
Theorem summary_counts_failed_insertions settings faults job w :
  let w' := snd (Signals.check_job_alerts settings faults job true w) in
  let candidates :=
    Signals.all_matches settings job (Signals.job_alerts w) in
  let n := length (List.filter (Delivery.counted faults job) candidates) in
  (∃ l, (∀ r, In r l → ∀ m t, r ≠ Signals.SentAlertNotifications m t)
        ∧ Signals.log w' =
            (Signals.log w ++ l ++
             if (0 <? n)%nat
             then [Signals.SentAlertNotifications n (Job.title job)]
             else [])%list)
  ∧ n = (length (Fanout.written settings faults job w)
         + length (List.filter
                     (fun a => Delivery.counted faults job a
                               && negb (Fanout.no_fault
                                          (Signals.create_fault faults a)))
                     candidates))%nat.
Proof.
  intros w' candidates n. subst w'.
  destruct (check_job_alerts_effect settings faults job w) as (l & Hl & ->).
  cbn [snd Signals.log]. fold candidates. fold n.
  split; [exists l; split; [exact Hl|reflexivity]|].
  unfold Fanout.written. rewrite length_map. fold candidates.
  subst n. symmetry.
  rewrite <- (filter_length_split (Delivery.counted faults job)
                (fun a => Fanout.no_fault (Signals.create_fault faults a))).
  reflexivity.
Qed.

Section StringFacts.


Lemma chars_append a b : chars (a +:+ b) = (chars a ++ chars b)%list.
Proof. induction a as [|c a IH]; simpl; [reflexivity|]. rewrite IH. reflexivity. Qed.

Lemma chars_rev_app s1 s2 :
  chars (String.rev_app s1 s2) = (rev (chars s1) ++ chars s2)%list.
Proof.
  revert s2. induction s1 as [|c s1 IH]; intros s2; simpl; [reflexivity|].
  rewrite IH. simpl. rewrite <- app_assoc. reflexivity.
Qed.

Lemma chars_rev s : chars (String.rev s) = rev (chars s).
Proof. unfold String.rev. rewrite chars_rev_app. simpl. apply app_nil_r. Qed.

Lemma chars_inj a b : chars a = chars b → a = b.
Proof.
  intros H. rewrite <- (string_of_list_ascii_of_string a),
    <- (string_of_list_ascii_of_string b), H. reflexivity.
Qed.

Lemma string_rev_involutive s : String.rev (String.rev s) = s.
Proof. apply chars_inj. rewrite !chars_rev. apply rev_involutive. Qed.

Lemma string_rev_cons c s :
  String.rev (String c s) = String.rev s +:+ String c "".
Proof. apply chars_inj. rewrite chars_append, !chars_rev. reflexivity. Qed.

Lemma string_append_assoc a b c : (a +:+ b) +:+ c = a +:+ (b +:+ c).
Proof. apply chars_inj. rewrite !chars_append. symmetry. apply app_assoc. Qed.

Lemma string_append_nil_r a : a +:+ "" = a.
Proof. apply chars_inj. rewrite chars_append. apply app_nil_r. Qed.

Lemma solid_rev s : solid (String.rev s) = solid s.
Proof.
  rewrite chars_rev. induction (chars s) as [|c l IH]; simpl; [reflexivity|].
  rewrite forallb_app, IH. simpl. rewrite andb_true_r. apply andb_comm.
Qed.

Lemma lstrip_solid s : s ≠ "" → solid s = true → Py.lstrip s = s.
Proof.
  destruct s as [|c s]; [congruence|]. simpl. intros _ H.
  apply andb_true_iff in H as [H _]. apply negb_true_iff in H. rewrite H.
  reflexivity.
Qed.

(** A word without blanks is its own [strip]. *)
Lemma strip_solid s : s ≠ "" → solid s = true → Py.strip s = s.
Proof.
  intros Hne Hs. unfold Py.strip. rewrite (lstrip_solid s Hne Hs).
  rewrite lstrip_solid.
  - apply string_rev_involutive.
  - intros H. apply Hne. rewrite <- (string_rev_involutive s), H. reflexivity.
  - rewrite solid_rev. exact Hs.
Qed.

Lemma flush_inv cur acc t :
  In t (Py.flush cur acc) → (cur ≠ "" ∧ t = String.rev cur) ∨ In t acc.
Proof.
  destruct cur as [|c cur]; simpl; [auto|].
  intros [<-|H]; [left; split; [discriminate|reflexivity] | auto].
Qed.

(** The words [split] returns are not empty, have no blank, and occur in
    the string. *)
Lemma split_from_words cur s t :
  solid cur = true → In t (Py.split_from cur s) →
  t ≠ "" ∧ solid t = true
  ∧ ∃ pre post, String.rev cur +:+ s = pre +:+ (t +:+ post).
Proof.
  revert cur. induction s as [|c s IH]; intros cur Hcur Hin; simpl in Hin.
  - apply flush_inv in Hin as [[Hne ->]|[]].
    split; [|split].
    + intros H. apply Hne. rewrite <- (string_rev_involutive cur), H. reflexivity.
    + rewrite solid_rev. exact Hcur.
    + exists "", "". reflexivity.
  - destruct (Py.isspace c) eqn:Hc.
    + apply flush_inv in Hin as [[Hne ->]|Hin].
      * split; [|split].
        -- intros H. apply Hne.
           rewrite <- (string_rev_involutive cur), H. reflexivity.
        -- rewrite solid_rev. exact Hcur.
        -- exists "", (String c s). reflexivity.
      * destruct (IH "" eq_refl Hin) as (Hne & Hs & pre & post & Heq).
        split; [exact Hne|]. split; [exact Hs|].
        exists (String.rev cur +:+ String c pre), post.
        change (String.rev "" +:+ s) with s in Heq.
        rewrite Heq. apply chars_inj. rewrite !chars_append. simpl.
        rewrite !chars_append, <- !app_assoc. reflexivity.
    + assert (Hcur' : solid (String c cur) = true).
      { simpl. rewrite Hc, Hcur. reflexivity. }
      destruct (IH (String c cur) Hcur' Hin) as (Hne & Hs & pre & post & Heq).
      split; [exact Hne|]. split; [exact Hs|]. exists pre, post.
      rewrite <- Heq, string_rev_cons, string_append_assoc. reflexivity.
Qed.

Lemma split_words s t :
  In t (Py.split s) →
  t ≠ "" ∧ solid t = true ∧ ∃ pre post, s = pre +:+ (t +:+ post).
Proof. intros H. apply (split_from_words "" s t eq_refl H). Qed.

Lemma lower_append a b : Py.lower (a +:+ b) = Py.lower a +:+ Py.lower b.
Proof. induction a as [|c a IH]; simpl; [reflexivity|]. rewrite IH. reflexivity. Qed.

Lemma startswith_append t post : Py.startswith t (t +:+ post) = true.
Proof.
  induction t as [|c t IH]; simpl; [reflexivity|].
  rewrite Ascii.eqb_refl. exact IH.
Qed.

Lemma contains_append pre t post :
  Py.contains t (pre +:+ (t +:+ post)) = true.
Proof.
  induction pre as [|c pre IH]; simpl.
  - destruct (t +:+ post) eqn:E; simpl.
    + destruct t; [reflexivity | discriminate].
    + rewrite <- E, startswith_append. reflexivity.
  - rewrite IH. apply orb_true_r.
Qed.

End StringFacts.

(** X5. [split] returns words that need no [strip]: the comprehension
    [[keyword.strip() for keyword in job.title.split()]] is the list
    [job.title.split()] itself. *)
Theorem strip_of_split_words_is_identity (s : string) :
  map Py.strip (Py.split s) = Py.split s.
Proof.
  rewrite <- (map_id (Py.split s)) at 2. apply map_ext_in.
  intros t Ht. destruct (split_words s t Ht) as (Hne & Hs & _).
  apply strip_solid; assumption.
Qed.

(** X6. An alert whose keyword is, letter for letter, one of the words of
    the title of a new job is in the candidate set however the database
    compares text; when its location and the job's contain one another
    either way and nothing fails, its owner gets the notification. *)
Theorem word_of_title_is_notified settings job a w
    (Hword : In (JobAlert.keyword a) (Py.split (Job.title job)))
    (Hloc : Signals.location_match a job = true)
    (Hin : In a (Signals.job_alerts w)) :
  Signals.in_all_matches settings job a = true
  ∧ ∃ k, Signals.notifications
           (snd (Signals.check_job_alerts settings Signals.no_faults job true w))
         !! k = Some (Fanout.new_row job (Signals.now w) a).
Proof.
  assert (Hcand : Signals.in_all_matches settings job a = true).
  { unfold Signals.in_all_matches, Signals.keyword_matches, Lookup.in_list.
    assert (He : existsb (Lookup.exact (Signals.collation settings)
                            (Signals.like_fold settings)
                            (JobAlert.keyword a))
                   (map Py.strip (Py.split (Job.title job))) = true).
    { apply existsb_exists. exists (JobAlert.keyword a). split.
      - destruct (split_words _ _ Hword) as (Hne & Hs & _).
        rewrite <- (strip_solid (JobAlert.keyword a) Hne Hs) at 1.
        apply in_map, Hword.
      - unfold Lookup.exact. destruct (Signals.collation settings);
          apply String.eqb_refl. }
    rewrite He. rewrite orb_true_r, orb_true_r. reflexivity. }
  split; [exact Hcand|].
  assert (Hkw : Signals.keyword_match a job = true).
  { unfold Signals.keyword_match.
    destruct (split_words _ _ Hword) as (_ & _ & pre & post & Heq).
    rewrite Heq at 1. rewrite !lower_append, contains_append. reflexivity. }
  destruct (check_job_alerts_effect settings Signals.no_faults job w)
    as (l & _ & ->).
  cbn [snd Signals.notifications].
  assert (Hw : In (Fanout.new_row job (Signals.now w) a)
                  (Fanout.written settings Signals.no_faults job w)).
  { apply in_map, filter_In. split.
    - apply filter_In. split; assumption.
    - rewrite notified_no_faults. unfold Signals.spec_match.
      change (Signals.keyword_match a job && Signals.location_match a job = true).
      rewrite Hkw, Hloc. reflexivity. }
  apply list_elem_of_In, list_elem_of_lookup in Hw as [i Hi].
  eexists. apply insert_rows_lookup, Hi.
Qed.

Lemma word_of_title_is_notified_witness :
  ∃ k, Signals.notifications
         (snd (Signals.check_job_alerts (Sample.settings Lookup.CaseInsensitive)
                 Signals.no_faults Sample.python_job true
                 (Sample.world [Sample.token_alert])))
       !! k = Some Sample.ann_notification.
Proof.
  apply (word_of_title_is_notified (Sample.settings Lookup.CaseInsensitive)
           Sample.python_job Sample.token_alert
           (Sample.world [Sample.token_alert])).
  - left. reflexivity.
  - reflexivity.
  - left. reflexivity.
Defined.

Section GroupFacts.
Import SiteAdmin AdminSite.

(** X7. [setup_employer_permissions] writes the permissions of the group
    "Employers" when it creates the group and at no other time: a group that
    exists is left as it is, so a second run changes nothing, whatever
    permissions have come into being since the first. *)
Theorem setup_never_updates_existing_group :
  (∀ permission_exists groups perms,
     groups !! "Employers" = Some perms →
     setup_employer_permissions permission_exists groups = groups)
  ∧ (∀ first later groups,
       setup_employer_permissions later
         (setup_employer_permissions first groups)
       = setup_employer_permissions first groups)
  ∧ (∀ permission_exists groups,
       groups !! "Employers" = None →
       Auth.group_permissions
         (setup_employer_permissions permission_exists groups) "Employers"
       = map permission_name
             (List.filter permission_exists permissions_to_add)).
Proof.
  assert (Hkeep : ∀ permission_exists groups perms,
    groups !! "Employers" = Some perms →
    setup_employer_permissions permission_exists groups = groups).
  { intros p g perms H. unfold setup_employer_permissions. rewrite H.
    reflexivity. }
  split; [exact Hkeep|]. split.
  - intros first later g.
    destruct (g !! "Employers") as [perms|] eqn:E.
    + rewrite (Hkeep first g perms E). eapply Hkeep, E.
    + eapply Hkeep. unfold setup_employer_permissions. rewrite E.
      apply lookup_insert_eq.
  - intros p g H. unfold setup_employer_permissions, Auth.group_permissions.
    rewrite H, lookup_insert_eq. reflexivity.
Qed.

Lemma setup_never_updates_existing_group_witness :
  setup_employer_permissions (fun _ => true)
    (setup_employer_permissions (fun _ => false) ∅)
  = setup_employer_permissions (fun _ => false) ∅
  ∧ Auth.group_permissions
      (setup_employer_permissions (fun _ => true)
         (setup_employer_permissions (fun _ => false) ∅)) "Employers" = [].
Proof.
  destruct setup_never_updates_existing_group as (_ & Hidem & Hfirst).
  split; [apply Hidem|].
  rewrite Hidem. apply (Hfirst (fun _ => false) ∅). reflexivity.
Defined.

Lemma has_role_set_is_staff b u role :
  User.has_role (set_is_staff b u) role = User.has_role u role.
Proof. reflexivity. Qed.

(** X8. When [grant_employer_admin_access] runs before
    [setup_employer_permissions] has created the group, it creates the group
    without permissions, and the setup that runs afterwards leaves it so: an
    employer who has nothing but this group is staff and holds no
    permission. *)
Theorem grant_before_setup_leaves_group_empty
    (u : User.t) (groups : Auth.Groups) permission_exists
    (Hnone : groups !! "Employers" = None)
    (Hrole : User.has_role u "employer" = true) :
  let granted := snd (fst (grant_employer_admin_access u groups)) in
  let groups' :=
    setup_employer_permissions permission_exists
      (snd (grant_employer_admin_access u groups)) in
  User.is_staff granted = true
  ∧ Auth.group_permissions groups' "Employers" = []
  ∧ (User.groups u = [] → User.user_permissions u = [] →
     User.is_superuser u = false →
     ∀ perm, Auth.user_has_perm groups' granted perm = false).
Proof.
  unfold grant_employer_admin_access. rewrite Hrole, Hnone. cbn [fst snd].
  assert (Hg : setup_employer_permissions permission_exists
                 (<["Employers" := []]> groups)
               = <["Employers" := []]> groups).
  { unfold setup_employer_permissions. rewrite lookup_insert_eq. reflexivity. }
  rewrite Hg. split; [reflexivity|]. split.
  - unfold Auth.group_permissions. rewrite lookup_insert_eq. reflexivity.
  - intros Hgr Hup Hsu perm.
    unfold Auth.user_has_perm, Auth.get_all_permissions, add_group; simpl.
    rewrite Hgr, Hup, Hsu. simpl.
    unfold Auth.group_permissions. rewrite lookup_insert_eq. simpl.
    rewrite !andb_false_r. reflexivity.
Qed.

Lemma grant_before_setup_leaves_group_empty_witness :
  Auth.user_has_perm
    (setup_employer_permissions (fun _ => true)
       (snd (grant_employer_admin_access Sample.bob ∅)))
    (snd (fst (grant_employer_admin_access Sample.bob ∅)))
    "jobs.change_job" = false.
Proof.
  apply (grant_before_setup_leaves_group_empty Sample.bob ∅ (fun _ => true));
    reflexivity.
Defined.

Lemma filter_not_in (g : string) (l : list string) :
  ¬ In g l → List.filter (fun g' => negb (String.eqb g g')) l = l.
Proof.
  induction l as [|x l IH]; simpl; [reflexivity|]. intros H.
  destruct (String.eqb_spec g x) as [->|Hne]; simpl.
  - exfalso. apply H. left; reflexivity.
  - rewrite IH; [reflexivity|]. intros Hin. apply H. right; exact Hin.
Qed.

Lemma filter_removes (g : string) (l : list string) :
  ¬ In g (List.filter (fun g' => negb (String.eqb g g')) l).
Proof.
  intros H. apply filter_In in H as [_ H].
  rewrite String.eqb_refl in H. discriminate.
Qed.

(** X9. For an employer who was neither staff nor in the group,
    [revoke_employer_admin_access] after [grant_employer_admin_access] gives
    back the user as it was; the group the grant may have created stays.
    After a revocation the employer is never staff, and never in the group
    when the group exists. *)
Theorem revoke_undoes_grant (u : User.t) (groups : Auth.Groups)
    (Hrole : User.has_role u "employer" = true) :
  (User.is_staff u = false → ¬ In "Employers" (User.groups u) →
   revoke_employer_admin_access
     (snd (fst (grant_employer_admin_access u groups)))
     (snd (grant_employer_admin_access u groups))
   = (true, u, snd (grant_employer_admin_access u groups)))
  ∧ (let revoked := snd (fst (revoke_employer_admin_access u groups)) in
     User.is_staff revoked = false
     ∧ (is_Some (groups !! "Employers") →
        ¬ In "Employers" (User.groups revoked))).
Proof.
  split.
  - intros Hstaff Hgroup.
    unfold grant_employer_admin_access. rewrite Hrole. cbn [fst snd].
    unfold revoke_employer_admin_access.
    assert (Hr : User.has_role (add_group "Employers" (set_is_staff true u))
                   "employer" = true) by exact Hrole.
    rewrite Hr.
    assert (Hex : is_Some (match groups !! "Employers" with
                           | Some _ => groups
                           | None => <["Employers" := []]> groups
                           end !! "Employers")).
    { destruct (groups !! "Employers") eqn:E; [rewrite E; eauto|].
      rewrite lookup_insert_eq. eauto. }
    destruct Hex as [perms ->].
    f_equal. f_equal.
    destruct u as [pk un fn em act st su prof gr up].
    cbn [User.is_staff User.groups] in Hstaff, Hgroup.
    subst st. unfold remove_group, add_group, set_is_staff.
    cbn -[String.eqb existsb List.filter].
    assert (He : existsb (String.eqb "Employers") gr = false).
    { destruct (existsb (String.eqb "Employers") gr) eqn:E; [|reflexivity].
      apply existsb_exists in E as (x & Hx & Heq).
      apply String.eqb_eq in Heq. subst x. contradiction. }
    rewrite He, List.filter_app, (filter_not_in "Employers" gr Hgroup).
    cbn [List.filter]. rewrite String.eqb_refl. cbn [negb].
    rewrite app_nil_r. reflexivity.
  - unfold revoke_employer_admin_access. rewrite Hrole. cbn [fst snd].
    split.
    + destruct (groups !! "Employers"); reflexivity.
    + intros [perms ->]. apply filter_removes.
Qed.

Lemma revoke_undoes_grant_witness :
  revoke_employer_admin_access Sample.bob_staff Sample.groups
  = (true, Sample.bob, Sample.groups).
Proof.
  apply (proj1 (revoke_undoes_grant Sample.bob Sample.groups eq_refl)).
  - reflexivity.
  - intros [].
Defined.

(** X10. [JobBoardAdminSite.has_permission]: an inactive user is refused,
    superuser or not; an active employer is let in once
    [grant_employer_admin_access] has run; and after
    [revoke_employer_admin_access] an employer who is no superuser and holds
    no permission of his own or through another group is refused. *)
Theorem admin_site_access_follows_grant (groups : Auth.Groups) :
  (∀ u, User.is_active u = false →
        has_permission groups (Authenticated u) = false)
  ∧ (∀ u, User.is_active u = true → User.has_role u "employer" = true →
        has_permission (snd (grant_employer_admin_access u groups))
          (Authenticated (snd (fst (grant_employer_admin_access u groups))))
        = true)
  ∧ (∀ u, User.has_role u "employer" = true →
        User.is_superuser u = false → User.user_permissions u = [] →
        (∀ g, In g (User.groups u) → g = "Employers") →
        is_Some (groups !! "Employers") →
        has_permission groups
          (Authenticated (snd (fst (revoke_employer_admin_access u groups))))
        = false).
Proof.
  split; [|split].
  - intros u Ha. unfold has_permission. rewrite Ha. reflexivity.
  - intros u Ha Hrole. unfold grant_employer_admin_access. rewrite Hrole.
    cbn [fst snd]. unfold has_permission.
    change (User.is_active (add_group "Employers" (set_is_staff true u)))
      with (User.is_active u). rewrite Ha. simpl.
    destruct (User.is_superuser u); reflexivity.
  - intros u Hrole Hsu Hup Hgr [perms Hex].
    unfold revoke_employer_admin_access. rewrite Hrole, Hex. cbn [fst snd].
    assert (Hempty : User.groups (remove_group "Employers" (set_is_staff false u))
                     = []).
    { unfold remove_group, set_is_staff. cbn [User.groups].
      induction (User.groups u) as [|g l IH]; [reflexivity|].
      cbn [List.filter]. rewrite (Hgr g) by (left; reflexivity).
      rewrite String.eqb_refl. cbn [negb].
      apply IH. intros g' Hg'. apply Hgr. right; exact Hg'. }
    unfold has_permission.
    destruct (negb (User.is_active _)); [reflexivity|].
    change (User.is_superuser (remove_group "Employers" (set_is_staff false u)))
      with (User.is_superuser u). rewrite Hsu.
    change (User.is_staff (remove_group "Employers" (set_is_staff false u)))
      with false. cbn iota.
    change (User.userprofile (remove_group "Employers" (set_is_staff false u)))
      with (User.userprofile u).
    destruct (User.userprofile u) as [p|]; [|reflexivity].
    destruct (String.eqb _ "employer"); [|reflexivity].
    unfold Auth.has_perm, Auth.user_has_perm, Auth.get_all_permissions.
    rewrite Hempty.
    change (User.user_permissions (remove_group "Employers" (set_is_staff false u)))
      with (User.user_permissions u). rewrite Hup.
    change (User.is_superuser (remove_group "Employers" (set_is_staff false u)))
      with (User.is_superuser u). rewrite Hsu. simpl.
    rewrite !andb_false_r. reflexivity.
Qed.

Lemma admin_site_access_follows_grant_witness :
  has_permission Sample.groups (Authenticated Sample.bob_staff) = true
  ∧ has_permission Sample.groups
      (Authenticated
         (snd (fst (revoke_employer_admin_access Sample.bob_staff
                      Sample.groups)))) = false.
Proof.
  destruct (admin_site_access_follows_grant Sample.groups) as (_ & Hin & Hout).
  split.
  - apply (Hin Sample.bob); reflexivity.
  - apply (Hout Sample.bob_staff); try reflexivity.
    + intros g [<-|[]]. reflexivity.
    + eexists. reflexivity.
Defined.

End GroupFacts.

Section AdminListFacts.
Import ApplicationActions.

(** X11. For an employer who is no superuser, the lists of the admin and
    its object checks agree whatever permissions the groups give: every job
    in the list of [JobAdmin] may be viewed, changed and deleted by the
    employer, every application in the list of [ApplicationAdmin] may be
    viewed and changed, and both lists hold nothing but the employer's own
    rows. *)
Theorem admin_lists_agree_with_object_checks
    (groups : Auth.Groups) (u : User.t)
    (Hrole : User.has_role u "employer" = true)
    (Hsuper : User.is_superuser u = false) :
  (∀ jobs j, In j (JobAdmin.get_queryset (Authenticated u) jobs) →
     User.eqb (Company.user (Job.company j)) u = true
     ∧ JobAdmin.has_view_permission groups (Authenticated u) (Some j) = true
     ∧ JobAdmin.has_change_permission groups (Authenticated u) (Some j) = true
     ∧ JobAdmin.has_delete_permission groups (Authenticated u) (Some j) = true)
  ∧ (∀ apps k a, get_queryset (Authenticated u) apps !! k = Some a →
       apps !! k = Some a
       ∧ User.eqb (ApplicationAdmin.owner a) u = true
       ∧ ApplicationAdmin.has_view_permission groups (Authenticated u) (Some a)
         = true
       ∧ ApplicationAdmin.has_change_permission groups (Authenticated u)
           (Some a) = true).
Proof.
  assert (Hsym : ∀ v, User.eqb v u = true → User.eqb u v = true).
  { intros v. unfold User.eqb. rewrite N.eqb_sym. trivial. }
  split.
  - intros jobs j Hin. unfold JobAdmin.get_queryset in Hin. simpl in Hin.
    rewrite Hrole, Hsuper in Hin. simpl in Hin.
    apply filter_In in Hin as [_ Hown]. split; [exact Hown|].
    unfold JobAdmin.has_view_permission, JobAdmin.has_change_permission,
      JobAdmin.has_delete_permission. simpl.
    rewrite Hrole, (Hsym _ Hown). repeat split.
  - intros apps k a Hk. unfold get_queryset in Hk. simpl in Hk.
    rewrite Hrole, Hsuper in Hk. simpl in Hk.
    apply map_lookup_filter_Some in Hk as [Hk Hown]. simpl in Hown.
    split; [exact Hk|]. split; [exact Hown|].
    unfold ApplicationAdmin.has_view_permission,
      ApplicationAdmin.has_change_permission. simpl.
    rewrite Hrole, (Hsym _ Hown). split; reflexivity.
Qed.

Lemma admin_lists_agree_with_object_checks_witness :
  JobAdmin.has_delete_permission ∅ (Authenticated Sample.bob)
    (Some Sample.python_job) = true.
Proof.
  apply (proj1 (admin_lists_agree_with_object_checks ∅ Sample.bob
                  eq_refl eq_refl) [Sample.python_job] Sample.python_job).
  left. reflexivity.
Defined.

Lemma update_status_lookup s queryset apps k :
  snd (update_status s queryset apps) !! k =
    (fun a => match queryset !! k with
              | Some _ => set_status s a
              | None => a
              end) <$> apps !! k.
Proof.
  unfold update_status. cbn [snd]. rewrite map_lookup_imap.
  destruct (apps !! k); reflexivity.
Qed.

(** X12. A bulk action of the list of applications, run by an employer who
    is no superuser, reaches the employer's own applications only, whatever
    rows were ticked: an application of another employer's job is the row it
    was, a row that changes changes in its status alone, and no row comes or
    goes; the number reported is the number of ticked rows of the
    employer. *)
Theorem bulk_action_stays_within_own_applications
    (u : User.t) (s : ApplicationStatus.t) (selected : list N)
    (apps : gmap N Application.t)
    (Hrole : User.has_role u "employer" = true)
    (Hsuper : User.is_superuser u = false) :
  let result := run_action (update_status s) (Authenticated u) selected apps in
  (∀ k a, apps !! k = Some a →
     User.eqb (ApplicationAdmin.owner a) u = false →
     snd result !! k = Some a)
  ∧ (∀ k a, apps !! k = Some a →
       User.eqb (ApplicationAdmin.owner a) u = true → k ∈ selected →
       snd result !! k = Some (set_status s a))
  ∧ (∀ k a, apps !! k = Some a →
       snd result !! k = Some a ∨ snd result !! k = Some (set_status s a))
  ∧ (∀ k, apps !! k = None → snd result !! k = None)
  ∧ fst result =
      size (filter (fun r => fst r ∈ selected
                             ∧ User.eqb (ApplicationAdmin.owner (snd r)) u = true)
                   apps).
Proof.
  intros result. subst result. unfold run_action, get_queryset.
  cbn [request_user_has_role]. rewrite Hrole, Hsuper. cbn [negb].
  set (qs := filter _ (filter _ apps)).
  assert (Hqs : ∀ k, is_Some (qs !! k) ↔
                     ∃ a, apps !! k = Some a ∧ k ∈ selected
                          ∧ User.eqb (ApplicationAdmin.owner a) u = true).
  { intros k. subst qs. split.
    - intros [a Ha]. apply map_lookup_filter_Some in Ha as [Ha Hsel].
      apply map_lookup_filter_Some in Ha as [Ha Hown]. eauto.
    - intros (a & Ha & Hsel & Hown). exists a.
      apply map_lookup_filter_Some. split; [|exact Hsel].
      apply map_lookup_filter_Some. split; assumption. }
  split; [|split; [|split; [|split]]].
  - intros k a Hk Hown. rewrite update_status_lookup, Hk. simpl.
    destruct (qs !! k) eqn:E; [|reflexivity].
    destruct (proj1 (Hqs k) (mk_is_Some _ _ E)) as (a' & Ha' & _ & Hown').
    congruence.
  - intros k a Hk Hown Hsel. rewrite update_status_lookup, Hk. simpl.
    destruct (qs !! k) eqn:E; [reflexivity|].
    assert (is_Some (qs !! k)) as [? ?] by (apply Hqs; eauto). congruence.
  - intros k a Hk. rewrite update_status_lookup, Hk. simpl.
    destruct (qs !! k); auto.
  - intros k Hk. rewrite update_status_lookup, Hk. reflexivity.
  - subst qs. cbn [fst update_status]. rewrite map_filter_filter.
    reflexivity.
Qed.

Lemma bulk_action_stays_within_own_applications_witness :
  snd (run_action mark_rejected (Authenticated Sample.eve) [1%N]
         (<[1%N := Sample.ann_application]> ∅)) !! 1%N
  = Some Sample.ann_application.
Proof.
  apply (bulk_action_stays_within_own_applications Sample.eve
           ApplicationStatus.rejected [1%N]
           (<[1%N := Sample.ann_application]> ∅) eq_refl eq_refl);
    reflexivity.
Defined.

End AdminListFacts.

Section MoreViewFacts.
Import Http MoreViews.

(** X13. [update_application_status], for a logged-in user: without the
    employer role the answer is PermissionDenied; an employer gets Http404
    for an application that does not exist and PermissionDenied for one of
    another employer's job, whatever was posted; in all these cases the
    state is untouched.  After the owner's valid POST the application is
    stored with the posted status, its other fields being what they were,
    every other row and table is what it was, the message names the new
    status, and the answer is a redirect; any other request of the owner
    shows the form and changes nothing. *)
Theorem update_application_status_is_owner_only
    request u posted pk db
    (Huser : user request = Authenticated u) :
  (User.has_role u "employer" = false →
     ∃ m, update_application_status request posted pk db
          = (Raise (PermissionDenied m), db))
  ∧ (User.has_role u "employer" = true →
     (applications db !! pk = None →
        update_application_status request posted pk db = (Raise Http404, db))
     ∧ (∀ a, applications db !! pk = Some a →
          User.eqb u (ApplicationAdmin.owner a) = false →
          ∃ m, update_application_status request posted pk db
               = (Raise (PermissionDenied m), db))
     ∧ (∀ a s, applications db !! pk = Some a →
          User.eqb u (ApplicationAdmin.owner a) = true →
          method request = POST → posted = Some s →
          ∃ db' a',
            update_application_status request posted pk db
            = (Ok (Redirect "jobs:employer_applications" None), db')
            ∧ applications db' !! pk = Some a'
            ∧ Application.status a' = s
            ∧ Application.job a' = Application.job a
            ∧ Application.applicant a' = Application.applicant a
            ∧ Application.resume a' = Application.resume a
            ∧ Application.cover_letter a' = Application.cover_letter a
            ∧ (∀ k, k ≠ pk → applications db' !! k = applications db !! k)
            ∧ notifications db' = notifications db ∧ jobs db' = jobs db
            ∧ flash db'
              = (flash db ++
                 [(level_success,
                   "Application status updated to " +:+ get_status_display s
                   +:+ ".")])%list)
     ∧ (∀ a, applications db !! pk = Some a →
          User.eqb u (ApplicationAdmin.owner a) = true →
          method request = GET ∨ posted = None →
          update_application_status request posted pk db
          = (Ok (Render "jobs/update_application_status.html"), db))).
Proof.
  unfold update_application_status, Mixins.employer_required.
  rewrite Huser. cbn [is_authenticated negb request_user_has_role].
  split; intros Hrole; rewrite Hrole; cbn [negb].
  { eexists. reflexivity. }
  unfold update_application_status_view, Eff.bind, get_application_or_404.
  rewrite Huser. cbn [request_user_is].
  split; [|split; [|split]].
  - intros ->. reflexivity.
  - intros a -> ->. eexists. reflexivity.
  - intros a s Ha Ho Hm ->. rewrite Ha, Ho, Hm. cbn [negb].
    unfold save_status, messages, Eff.modify, Eff.ret.
    eexists _, _. split; [reflexivity|].
    cbn [applications set_applications notifications jobs flash].
    split; [apply lookup_insert_eq|].
    destruct a as [j ap re co st].
    cbn [ApplicationActions.set_status Application.status Application.job
         Application.applicant Application.resume Application.cover_letter].
    repeat (split; [reflexivity|]).
    split; [intros k Hk; apply lookup_insert_ne; congruence|].
    repeat split.
  - intros a -> -> [-> | ->]; [reflexivity|].
    destruct (method request); reflexivity.
Qed.

Lemma update_application_status_is_owner_only_witness :
  Application.status Sample.ann_application = ApplicationStatus.applied
  ∧ (∃ db' a',
       update_application_status
         (Sample.request_of (Authenticated Sample.bob))
         (Some ApplicationStatus.rejected) 1
         (set_applications (<[1%N := Sample.ann_application]> ∅) 2 Sample.db0)
       = (Ok (Redirect "jobs:employer_applications" None), db')
       ∧ applications db' !! 1%N = Some a'
       ∧ Application.status a' = ApplicationStatus.rejected)
  ∧ ∃ m, update_application_status
           (Sample.request_of (Authenticated Sample.eve))
           (Some ApplicationStatus.rejected) 1
           (set_applications (<[1%N := Sample.ann_application]> ∅) 2
              Sample.db0)
         = (Raise (PermissionDenied m),
            set_applications (<[1%N := Sample.ann_application]> ∅) 2
              Sample.db0).
Proof.
  split; [reflexivity|]. split.
  - destruct (update_application_status_is_owner_only
                (Sample.request_of (Authenticated Sample.bob)) Sample.bob
                (Some ApplicationStatus.rejected) 1%N
                (set_applications (<[1%N := Sample.ann_application]> ∅) 2
                   Sample.db0) eq_refl) as [_ H].
    destruct (H eq_refl) as (_ & _ & Hown & _).
    destruct (Hown Sample.ann_application ApplicationStatus.rejected
                eq_refl eq_refl eq_refl eq_refl)
      as (db' & a' & Hrun & Hrow & Hst & _).
    exists db', a'. split; [exact Hrun|]. split; assumption.
  - destruct (update_application_status_is_owner_only
                (Sample.request_of (Authenticated Sample.eve)) Sample.eve
                (Some ApplicationStatus.rejected) 1%N
                (set_applications (<[1%N := Sample.ann_application]> ∅) 2
                   Sample.db0) eq_refl) as [_ H].
    destruct (H eq_refl) as (_ & Hother & _).
    apply (Hother Sample.ann_application); reflexivity.
Defined.

(** X14. [ApplicationDetailView]: a missing application is Http404 for
    every caller, the anonymous one included.  An application that exists
    is shown, on a GET, to its applicant and to the employer who owns the
    job, and to nobody else: every other caller, anonymous or superuser,
    gets PermissionDenied whatever the method, so the view never sends
    anyone to the login page.  A POST of a caller who may see the
    application is answered with status 405.  The state is never changed. *)
Theorem application_detail_access request pk db :
  snd (ApplicationDetailView_dispatch request pk db) = db
  ∧ (applications db !! pk = None →
     fst (ApplicationDetailView_dispatch request pk db) = Raise Http404)
  ∧ (∀ a, applications db !! pk = Some a →
       let allowed :=
         request_user_is (user request) (Application.applicant a)
         || (request_user_has_role (user request) "employer"
             && request_user_is (user request) (ApplicationAdmin.owner a)) in
       (allowed = true → method request = GET →
        fst (ApplicationDetailView_dispatch request pk db)
        = Ok (Render "jobs/application_detail.html"))
       ∧ (allowed = true → method request = POST →
          fst (ApplicationDetailView_dispatch request pk db)
          = Ok MethodNotAllowed)
       ∧ (allowed = false →
          ∃ m, fst (ApplicationDetailView_dispatch request pk db)
               = Raise (PermissionDenied m)))
  ∧ fst (ApplicationDetailView_dispatch request pk db) ≠ Ok RedirectToLogin.
Proof.
  unfold ApplicationDetailView_dispatch, Eff.bind, get_application_or_404,
    Mixins.LoginRequiredMixin_dispatch, View_dispatch,
    ApplicationDetailView_get, Eff.bind, get_application_or_404, Eff.ret.
  assert (Hrole : RoleHelpers.is_employer (user request)
                  = request_user_has_role (user request) "employer").
  { destruct (user request) as [|u]; [reflexivity|].
    unfold RoleHelpers.is_employer, RoleHelpers.check_user_type,
      RoleHelpers.option_string_eqb, request_user_has_role, User.has_role.
    destruct (User.userprofile u); reflexivity. }
  rewrite Hrole.
  destruct (applications db !! pk) as [a|] eqn:Ha.
  2: { repeat split; try discriminate. }
  destruct (user request) as [|u] eqn:Hu; cbn [request_user_is is_authenticated
    negb request_user_has_role andb orb].
  { split; [reflexivity|]. split; [discriminate|].
    split; [|discriminate]. intros a' [= <-]. split; [discriminate|].
    split; [discriminate|]. intros _. eexists. reflexivity. }
  destruct (User.eqb u (Application.applicant a)) eqn:E1; cbn [orb].
  { destruct (method request); cbv beta iota; rewrite ?Ha; cbv beta iota;
      (split; [reflexivity|]); (split; [discriminate|]);
      (split; [|discriminate]); intros a' [= <-]; rewrite E1; cbn [orb];
      (split; [intros _ Hm; first [reflexivity | discriminate Hm]|]);
      (split; [intros _ Hm; first [reflexivity | discriminate Hm]|]);
      discriminate. }
  destruct (User.has_role u "employer" && User.eqb u (ApplicationAdmin.owner a))
    eqn:E2.
  { destruct (method request); cbv beta iota; rewrite ?Ha; cbv beta iota;
      (split; [reflexivity|]); (split; [discriminate|]);
      (split; [|discriminate]); intros a' [= <-]; rewrite E1, E2;
      (split; [intros _ Hm; first [reflexivity | discriminate Hm]|]);
      (split; [intros _ Hm; first [reflexivity | discriminate Hm]|]);
      discriminate. }
  split; [reflexivity|]. split; [discriminate|].
  split; [|discriminate]. intros a' [= <-]. rewrite E1, E2.
  split; [discriminate|]. split; [discriminate|].
  intros _. eexists. reflexivity.
Qed.

Lemma application_detail_access_witness :
  (∃ m, fst (ApplicationDetailView_dispatch (Sample.request_of AnonymousUser) 1
               (set_applications (<[1%N := Sample.ann_application]> ∅) 2
                  Sample.db0))
        = Raise (PermissionDenied m))
  ∧ fst (ApplicationDetailView_dispatch (Sample.request_of AnonymousUser) 5
           (set_applications (<[1%N := Sample.ann_application]> ∅) 2
              Sample.db0)) = Raise Http404
  ∧ fst (ApplicationDetailView_dispatch
           (Sample.get_request_of (Authenticated Sample.ann)) 1
           (set_applications (<[1%N := Sample.ann_application]> ∅) 2
              Sample.db0))
    = Ok (Render "jobs/application_detail.html")
  ∧ fst (ApplicationDetailView_dispatch
           (Sample.request_of (Authenticated Sample.bob)) 1
           (set_applications (<[1%N := Sample.ann_application]> ∅) 2
              Sample.db0))
    = Ok MethodNotAllowed.
Proof.
  destruct (application_detail_access (Sample.request_of AnonymousUser) 1%N
              (set_applications (<[1%N := Sample.ann_application]> ∅) 2
                 Sample.db0)) as (_ & _ & H & _).
  destruct (application_detail_access (Sample.request_of AnonymousUser) 5%N
              (set_applications (<[1%N := Sample.ann_application]> ∅) 2
                 Sample.db0)) as (_ & H404 & _).
  destruct (application_detail_access
              (Sample.get_request_of (Authenticated Sample.ann)) 1%N
              (set_applications (<[1%N := Sample.ann_application]> ∅) 2
                 Sample.db0)) as (_ & _ & Hget & _).
  destruct (application_detail_access
              (Sample.request_of (Authenticated Sample.bob)) 1%N
              (set_applications (<[1%N := Sample.ann_application]> ∅) 2
                 Sample.db0)) as (_ & _ & Hpost & _).
  split; [|split; [|split]].
  - apply (H Sample.ann_application); reflexivity.
  - apply H404. reflexivity.
  - apply (Hget Sample.ann_application); reflexivity.
  - apply (Hpost Sample.ann_application); reflexivity.
Defined.

End MoreViewFacts.

Section StripFacts.

Lemma lstrip_chars s :
  ∃ pre, chars s = (pre ++ chars (Py.lstrip s))%list
         ∧ forallb Py.isspace pre = true.
Proof.
  induction s as [|c s (pre & Heq & Hpre)]; [exists []; split; reflexivity|].
  simpl. destruct (Py.isspace c) eqn:Hc.
  - exists (c :: pre). simpl. rewrite Heq, Hc, Hpre. split; reflexivity.
  - exists []. split; reflexivity.
Qed.

Lemma lstrip_head s :
  Py.lstrip s = "" ∨ ∃ c r, Py.lstrip s = String c r ∧ Py.isspace c = false.
Proof.
  induction s as [|c s IH]; [left; reflexivity|]. simpl.
  destruct (Py.isspace c) eqn:Hc; [exact IH|]. right. eauto.
Qed.

Lemma lstrip_fixed c r : Py.isspace c = false → Py.lstrip (String c r) = String c r.
Proof. intros H. simpl. rewrite H. reflexivity. Qed.

(** [strip] leaves nothing to strip. *)
Lemma strip_idempotent s : Py.strip (Py.strip s) = Py.strip s.
Proof.
  unfold Py.strip at 2 3.
  destruct (lstrip_head s) as [->|(c & r & -> & Hc)]; [reflexivity|].
  set (x := String c r).
  destruct (lstrip_chars (String.rev x)) as (pre & Heq & Hpre).
  destruct (lstrip_head (String.rev x)) as [Hy|(d & y' & Hy & Hd)].
  - (* impossible: the reverse ends with [c], which is no blank *)
    exfalso. rewrite Hy in Heq. simpl in Heq. rewrite app_nil_r in Heq.
    rewrite chars_rev in Heq. subst x. simpl in Heq.
    assert (Hin : In c pre) by (rewrite <- Heq; apply in_or_app; right; left;
                                reflexivity).
    rewrite forallb_forall in Hpre. rewrite (Hpre c Hin) in Hc. discriminate.
  - rewrite Hy.
    (* the stripped reverse ends with [c] *)
    assert (Hlast : ∃ z, chars (String d y') = (z ++ [c])%list).
    { rewrite Hy in Heq. rewrite chars_rev in Heq. subst x.
      destruct (exists_last (l := chars (String d y'))) as (z & e & Hz);
        [discriminate|].
      exists z. rewrite Hz. rewrite Hz in Heq.
      change (chars (String c r)) with (c :: chars r) in Heq.
      cbn [rev] in Heq. rewrite app_assoc in Heq.
      apply app_inj_tail in Heq as [_ ->]. reflexivity. }
    destruct Hlast as (z & Hz).
    assert (Hrev : String.rev (String d y')
                   = String c (string_of_list_ascii (rev z))).
    { apply chars_inj. rewrite chars_rev, Hz, rev_app_distr. simpl.
      rewrite list_ascii_of_string_of_list_ascii. reflexivity. }
    unfold Py.strip. rewrite Hrev, (lstrip_fixed c _ Hc), <- Hrev.
    rewrite string_rev_involutive, (lstrip_fixed d _ Hd). reflexivity.
Qed.

Lemma truthy_false s : Signals.truthy s = false → s = "".
Proof. destruct s; [reflexivity | discriminate]. Qed.

End StripFacts.

Section ListingFacts.
Import Http MoreViews.

Lemma strip_empty : Py.strip "" = "".
Proof. reflexivity. Qed.

Lemma forallb_false_at {A} (f : A → bool) (l : list A) x :
  In x l → f x = false → forallb f l = false.
Proof.
  intros Hin Hx. destruct (forallb f l) eqn:E; [|reflexivity].
  rewrite forallb_forall in E. rewrite (E x Hin) in Hx. discriminate.
Qed.

Lemma no_null_in_search_chars (l : list ascii) :
  forallb search_char l = true → existsb (Ascii.eqb Ascii.zero) l = false.
Proof.
  induction l as [|c l IH]; [reflexivity|]. cbn [forallb existsb].
  intros H. apply andb_prop in H as [Hc Hl]. rewrite (IH Hl), orb_false_r.
  destruct (Ascii.eqb Ascii.zero c) eqn:E; [|reflexivity].
  apply Ascii.eqb_eq in E. subst c. discriminate Hc.
Qed.

(** X15. The list of jobs holds active jobs only, in the order of the
    table, and a search can only leave rows out.  A search that does not
    validate is ignored altogether: when the keyword, blanks at its ends
    apart, has a character outside letters, digits, blanks and [-+#.], or
    when the keyword or the location, blanks at the ends apart, is longer
    than 100 characters, the list is that of all active jobs, whatever else
    was asked for; so is the list of the empty search.  A keyword that
    validates, with no location, keeps the jobs whose title, description or
    requirements contain it as the database's LIKE compares. *)
Theorem job_list_ignores_invalid_search
    (fold : Lookup.Fold) (keyword location : string) (db : DB) :
  let active := List.filter (Job.is_active (today db)) (jobs db) in
  (∃ keep, JobListView_get_queryset fold keyword location db
           = List.filter keep active)
  ∧ (∀ j, In j (JobListView_get_queryset fold keyword location db) →
          In j (jobs db) ∧ Job.is_active (today db) j = true)
  ∧ (∀ c, In c (list_ascii_of_string (Py.strip keyword)) →
          search_char c = false →
          JobListView_get_queryset fold keyword location db = active)
  ∧ ((100 < String.length (Py.strip keyword))%nat
     ∨ (100 < String.length (Py.strip location))%nat →
     JobListView_get_queryset fold keyword location db = active)
  ∧ (search_keyword_ok (Py.strip keyword) = true →
     (String.length (Py.strip keyword) <= 100)%nat →
     Py.strip location = "" →
     JobListView_get_queryset fold keyword location db
     = List.filter
         (fun j => Lookup.like fold (Job.title j) (Py.strip keyword)
                   || Lookup.like fold (Job.description j) (Py.strip keyword)
                   || Lookup.like fold (Job.requirements j) (Py.strip keyword))
         active)
  ∧ JobListView_get_queryset fold "" "" db = active.
Proof.
  intros active.
  assert (Hkeep : ∃ keep, JobListView_get_queryset fold keyword location db
                          = List.filter keep active).
  { unfold JobListView_get_queryset. fold active.
    destruct (JobSearchForm_cleaned keyword location) as [[k l]|].
    - destruct (Signals.truthy k), (Signals.truthy l).
      + eexists. rewrite filter_filter. reflexivity.
      + eexists. reflexivity.
      + eexists. reflexivity.
      + exists (fun _ => true). symmetry. apply List.forallb_filter_id.
        apply forallb_forall. reflexivity.
    - exists (fun _ => true). symmetry. apply List.forallb_filter_id.
      apply forallb_forall. reflexivity. }
  split; [exact Hkeep|]. split; [|split; [|split; [|split]]].
  - destruct Hkeep as [keep ->]. intros j Hj.
    apply filter_In in Hj as [Hj _]. apply filter_In in Hj. exact Hj.
  - intros c Hc Hbad. unfold JobListView_get_queryset. fold active.
    assert (Hinvalid : JobSearchForm_cleaned keyword location = None).
    { unfold JobSearchForm_cleaned, CharField_clean. cbv zeta.
      destruct (_ || _); [reflexivity|].
      destruct (_ || _); [reflexivity|].
      unfold JobSearchForm_clean_keyword. cbv zeta.
      rewrite strip_idempotent.
      destruct (Py.strip keyword) as [|c1 k1] eqn:Hs; [destruct Hc|].
      cbn [Signals.truthy andb]. unfold search_keyword_ok.
      rewrite (forallb_false_at _ _ c Hc Hbad). reflexivity. }
    rewrite Hinvalid. reflexivity.
  - intros Hlong. unfold JobListView_get_queryset. fold active.
    assert (Hinvalid : JobSearchForm_cleaned keyword location = None).
    { unfold JobSearchForm_cleaned, CharField_clean. cbv zeta.
      destruct Hlong as [Hl|Hl]; apply Nat.ltb_lt in Hl; rewrite Hl;
        cbn [orb]; [reflexivity|].
      destruct (_ || _); reflexivity. }
    rewrite Hinvalid. reflexivity.
  - intros Hok Hlen Hloc. unfold JobListView_get_queryset. fold active.
    assert (Hvalid : JobSearchForm_cleaned keyword location
                     = Some (Py.strip keyword, "")).
    { unfold JobSearchForm_cleaned, CharField_clean. cbv zeta.
      rewrite Hloc.
      change ((100 <? String.length "")%nat
              || existsb (Ascii.eqb Ascii.zero) (list_ascii_of_string ""))
        with false.
      assert (Hsize : (100 <? String.length (Py.strip keyword))%nat = false)
        by (apply Nat.ltb_ge; exact Hlen).
      rewrite Hsize. cbn [orb].
      assert (Hne : Signals.truthy (Py.strip keyword) = true)
        by (destruct (Py.strip keyword); [discriminate Hok|reflexivity]).
      assert (Hall : forallb search_char
                       (list_ascii_of_string (Py.strip keyword)) = true).
      { unfold search_keyword_ok in Hok.
        destruct (Py.strip keyword); [discriminate Hok|exact Hok]. }
      rewrite (no_null_in_search_chars _ Hall).
      unfold JobSearchForm_clean_keyword, JobSearchForm_clean_location.
      cbv zeta. rewrite Hne, strip_idempotent, Hne, Hok. reflexivity. }
    rewrite Hvalid.
    assert (Hne : Signals.truthy (Py.strip keyword) = true)
      by (destruct (Py.strip keyword); [discriminate Hok|reflexivity]).
    rewrite Hne. reflexivity.
  - reflexivity.
Qed.

Lemma job_list_ignores_invalid_search_witness :
  JobListView_get_queryset Py.ascii_lower "<script>" "Nowhere" Sample.db0
  = [Sample.python_job]
  ∧ JobListView_get_queryset Py.ascii_lower
      (String "p" (String "y" (String (ascii_of_nat 160) "thon"))) ""
      Sample.db0
    = []
  ∧ JobListView_get_queryset Py.ascii_lower " PYTHON " "" Sample.db0
    = [Sample.python_job].
Proof.
  split; [|split].
  - apply (proj1 (proj2 (proj2 (job_list_ignores_invalid_search
                                  Py.ascii_lower "<script>" "Nowhere"
                                  Sample.db0)))
             "<"%char).
    + left. reflexivity.
    + reflexivity.
  - destruct (job_list_ignores_invalid_search Py.ascii_lower
                (String "p" (String "y" (String (ascii_of_nat 160) "thon")))
                "" Sample.db0) as (_ & _ & _ & _ & H & _).
    rewrite H;
      [reflexivity | reflexivity | apply Nat.leb_le; reflexivity | reflexivity].
  - destruct (job_list_ignores_invalid_search Py.ascii_lower " PYTHON " ""
                Sample.db0) as (_ & _ & _ & _ & H & _).
    rewrite H;
      [reflexivity | reflexivity | apply Nat.leb_le; reflexivity | reflexivity].
Defined.

(** X16. [has_applied] of the job page and [apply_for_job] agree: right
    after a request that submitted an application the page of that job says
    so to that user, and a request of a user whom the page tells that he has
    applied stores no application. *)
Theorem has_applied_agrees_with_apply request pk job db
    (Hjob : List.find (fun j => (Job.pk j =? pk)%N) (jobs db) = Some job) :
  (∀ response db',
     Views.apply_for_job request pk db = (Ok response, db') →
     Applying.submitted db db' →
     has_applied (user request) job db' = true)
  ∧ (has_applied (user request) job db = true →
     applications (snd (Views.apply_for_job request pk db)) = applications db).
Proof.
  split.
  - intros response db' Happly Hsub.
    destruct (apply_for_job_cases request pk db)
      as [[_ Hno] | (job' & u & resume & cover & Hu & _ & Hjob' & _ & _ & Heq)].
    { rewrite Happly in Hno. contradiction. }
    rewrite Happly in Heq. injection Heq as _ ->.
    rewrite Hjob in Hjob'. injection Hjob' as <-.
    rewrite Hu. cbn [has_applied applications].
    apply application_exists_true.
    eexists _, _. split; [apply lookup_insert_eq | apply same_application_refl].
  - intros Hhas.
    destruct (apply_for_job_cases request pk db)
      as [[Hsame _] | (job' & u & resume & cover & Hu & _ & Hjob' & _ & Hex & _)].
    { exact Hsame. }
    rewrite Hjob in Hjob'. injection Hjob' as <-.
    rewrite Hu in Hhas. cbn [has_applied] in Hhas. congruence.
Qed.

Lemma has_applied_agrees_with_apply_witness :
  has_applied (Authenticated Sample.ann) Sample.python_job
    (snd (Views.apply_for_job (Sample.request_of (Authenticated Sample.ann)) 1
            Sample.db0)) = true.
Proof.
  refine (proj1 (has_applied_agrees_with_apply
                   (Sample.request_of (Authenticated Sample.ann)) 1%N
                   Sample.python_job Sample.db0 eq_refl)
            (Redirect "jobs:job_detail" (Some 1%N)) _ _ _).
  - vm_compute. reflexivity.
  - vm_compute. reflexivity.
Defined.

(** X17. The figures of the employer's list of applications add up: the
    total is the sum of the counts of the four statuses, and no application
    of another employer's job is counted. *)
Theorem employer_statistics_add_up (u : User.t) (apps : gmap N Application.t) :
  let s := EmployerApplicationListView_statistics u apps in
  total_applications s
  = (pending_applications s + under_review s + shortlisted s + rejected s)%nat
  ∧ (∀ a, In a (employer_applications u apps) →
          User.eqb (ApplicationAdmin.owner a) u = true
          ∧ ∃ k, apps !! k = Some a).
Proof.
  cbn zeta. unfold EmployerApplicationListView_statistics.
  cbn [total_applications pending_applications under_review shortlisted
       rejected].
  split.
  - unfold count_status.
    induction (employer_applications u apps) as [|a l IH]; [reflexivity|].
    cbn [List.filter length]. rewrite IH.
    destruct (Application.status a); simpl; lia.
  - intros a Ha. unfold employer_applications in Ha.
    apply filter_In in Ha as [Ha Hown]. split; [exact Hown|].
    apply in_map_iff in Ha as ([k a'] & <- & Hin).
    exists k. apply elem_of_map_to_list, list_elem_of_In. exact Hin.
Qed.

End ListingFacts.

(** X18. The role helpers: no caller is employer and job seeker at once,
    the anonymous user and a user without profile are neither, and
    [is_employer] and [is_jobseeker] are the tests the two kinds of gates
    make, so that no request passes both an employer gate and a job-seeker
    gate. *)
Theorem role_helpers_are_exclusive (ru : RequestUser) :
  RoleHelpers.is_employer ru && RoleHelpers.is_jobseeker ru = false
  ∧ RoleHelpers.is_employer ru = request_user_has_role ru "employer"
  ∧ RoleHelpers.is_jobseeker ru = request_user_has_role ru "jobseeker"
  ∧ (RoleHelpers.check_user_type ru = None →
     RoleHelpers.is_employer ru = false ∧ RoleHelpers.is_jobseeker ru = false).
Proof.
  unfold RoleHelpers.is_employer, RoleHelpers.is_jobseeker,
    RoleHelpers.check_user_type, RoleHelpers.option_string_eqb,
    request_user_has_role, User.has_role.
  destruct ru as [|u]; [repeat split|].
  destruct (User.userprofile u) as [p|]; [|repeat split].
  split; [|split; [reflexivity|split; [reflexivity|discriminate]]].
  destruct (String.eqb_spec (UserProfile.user_type p) "employer") as [->|];
    reflexivity.
Qed.

Lemma role_helpers_are_exclusive_witness :
  RoleHelpers.is_employer AnonymousUser = false
  ∧ RoleHelpers.is_jobseeker AnonymousUser = false.
Proof.
  apply (role_helpers_are_exclusive AnonymousUser). reflexivity.
Defined.

Section CalendarFacts.
Import Calendar.
Local Open Scope Z_scope.

Lemma leap_mod4 y : Date.is_leap y = true → y mod 4 = 0.
Proof.
  unfold Date.is_leap. intros H. apply orb_true_iff in H as [H|H].
  - apply andb_true_iff in H as [H _]. apply Z.eqb_eq in H. exact H.
  - apply Z.eqb_eq in H. revert H. Z.div_mod_to_equations. lia.
Qed.

Lemma days_before_year_succ y :
  days_before_year (y + 1) = days_before_year y + year_length y.
Proof.
  unfold days_before_year, year_length, Date.is_leap.
  replace (y + 1 - 1) with y by lia.
  destruct (y mod 4 =? 0) eqn:E4; destruct (y mod 100 =? 0) eqn:E100;
    destruct (y mod 400 =? 0) eqn:E400; cbn [andb orb negb];
    rewrite ?Z.eqb_eq, ?Z.eqb_neq in *;
    revert E4 E100 E400; Z.div_mod_to_equations; lia.
Qed.

Lemma days_before_year_add y (n : nat) :
  days_before_year y <= days_before_year (y + Z.of_nat n).
Proof.
  induction n as [|n IH]; [rewrite Z.add_0_r; lia|].
  replace (y + Z.of_nat (S n)) with (y + Z.of_nat n + 1) by lia.
  rewrite days_before_year_succ. unfold year_length.
  destruct (Date.is_leap _); lia.
Qed.

Lemma days_before_year_mono y1 y2 :
  y1 < y2 → days_before_year (y1 + 1) <= days_before_year y2.
Proof.
  intros H.
  pose proof (days_before_year_add (y1 + 1) (Z.to_nat (y2 - y1 - 1))) as Hle.
  replace (y1 + 1 + Z.of_nat (Z.to_nat (y2 - y1 - 1))) with y2 in Hle by lia.
  exact Hle.
Qed.

Lemma month_cases m : 1 <= m <= 12 →
  m = 1 ∨ m = 2 ∨ m = 3 ∨ m = 4 ∨ m = 5 ∨ m = 6 ∨ m = 7 ∨ m = 8 ∨ m = 9
  ∨ m = 10 ∨ m = 11 ∨ m = 12.
Proof. lia. Qed.

Lemma valid_inv d :
  Date.valid d = true →
  1 <= Date.year d <= 9999 ∧ 1 <= Date.month d <= 12
  ∧ 1 <= Date.day d <= Date.days_in_month (Date.year d) (Date.month d).
Proof.
  unfold Date.valid. rewrite !andb_true_iff, !Z.leb_le. lia.
Qed.

(** The day of the year of a date lies within the year. *)
Lemma day_of_year_bounds y m d :
  1 <= m <= 12 → 1 <= d <= Date.days_in_month y m →
  1 <= days_before_month y m + d <= year_length y.
Proof.
  intros Hm Hd. unfold year_length.
  destruct (month_cases m Hm) as
    [->|[->|[->|[->|[->|[->|[->|[->|[->|[->|[->| ->]]]]]]]]]]];
    unfold days_before_month, Date.days_in_month in *; cbn in *;
    destruct (Date.is_leap y); cbn in *; lia.
Qed.

Lemma days_before_month_step y m1 m2 d :
  1 <= m1 → m1 < m2 → m2 <= 12 → d <= Date.days_in_month y m1 →
  days_before_month y m1 + d <= days_before_month y m2.
Proof.
  intros H1 H12 H2 Hd.
  destruct (month_cases m1 ltac:(lia)) as
    [->|[->|[->|[->|[->|[->|[->|[->|[->|[->|[->| ->]]]]]]]]]]];
    destruct (month_cases m2 ltac:(lia)) as
    [->|[->|[->|[->|[->|[->|[->|[->|[->|[->|[->| ->]]]]]]]]]]];
    try lia;
    unfold days_before_month, Date.days_in_month in *; cbn in *;
    destruct (Date.is_leap y); cbn in *; lia.
Qed.

Lemma ltb_toordinal a b :
  Date.valid a = true → Date.valid b = true →
  Date.ltb a b = true → toordinal a < toordinal b.
Proof.
  intros Ha Hb Hlt. apply valid_inv in Ha, Hb.
  destruct a as [ya ma da], b as [yb mb db]. cbn in Ha, Hb.
  unfold Date.ltb in Hlt. cbn in Hlt. unfold toordinal. cbn.
  pose proof (day_of_year_bounds ya ma da ltac:(lia) ltac:(lia)) as Ba.
  pose proof (day_of_year_bounds yb mb db ltac:(lia) ltac:(lia)) as Bb.
  apply orb_true_iff in Hlt as [Hy|Hlt].
  - apply Z.ltb_lt in Hy.
    pose proof (days_before_year_mono ya yb Hy) as Hm.
    rewrite days_before_year_succ in Hm. lia.
  - apply andb_true_iff in Hlt as [Hy Hlt]. apply Z.eqb_eq in Hy. subst yb.
    apply orb_true_iff in Hlt as [Hm|Hlt].
    + apply Z.ltb_lt in Hm.
      pose proof (days_before_month_step ya ma mb da ltac:(lia) Hm ltac:(lia)
                    ltac:(lia)). lia.
    + apply andb_true_iff in Hlt as [Hm Hd]. apply Z.eqb_eq in Hm.
      apply Z.ltb_lt in Hd. subst mb. lia.
Qed.

Lemma ltb_total a b :
  Date.ltb a b = false → Date.ltb b a = false → a = b.
Proof.
  destruct a as [ya ma da], b as [yb mb db]. unfold Date.ltb. cbn.
  intros H1 H2.
  apply orb_false_iff in H1 as [H1 H1'], H2 as [H2 H2'].
  apply Z.ltb_ge in H1, H2. assert (ya = yb) by lia. subst yb.
  rewrite Z.eqb_refl in H1', H2'. cbn in H1', H2'.
  apply orb_false_iff in H1' as [H1' H1''], H2' as [H2' H2''].
  apply Z.ltb_ge in H1', H2'. assert (ma = mb) by lia. subst mb.
  rewrite Z.eqb_refl in H1'', H2''. cbn in H1'', H2''.
  apply Z.ltb_ge in H1'', H2''. f_equal. lia.
Qed.

(** The order of the dates is the order of their ordinals. *)
Lemma ltb_iff_toordinal a b :
  Date.valid a = true → Date.valid b = true →
  Date.ltb a b = true ↔ toordinal a < toordinal b.
Proof.
  intros Ha Hb. split; [apply ltb_toordinal; assumption|].
  intros Hlt. destruct (Date.ltb a b) eqn:E; [reflexivity|].
  destruct (Date.ltb b a) eqn:E'.
  - pose proof (ltb_toordinal b a Hb Ha E'). lia.
  - rewrite (ltb_total a b E E') in Hlt. lia.
Qed.

End CalendarFacts.

Section JobDateFacts.
Import Calendar JobDates.
Local Open Scope Z_scope.

(** X19. The admin's column "Days Remaining" never reads "Expired": the
    number of days it is computed from is never negative, so a job whose
    deadline has passed, however long ago, reads "Today" like a job whose
    deadline is today; a job reads "N days" exactly when it is active, N
    being the days up to its deadline. *)
Theorem days_remaining_never_reads_expired :
  (∀ today deadline, get_days_remaining today deadline ≠ Expired)
  ∧ (∀ today deadline, 0 <= days_until_deadline today deadline)
  ∧ (∀ today d, Date.valid today = true → Date.valid d = true →
       get_days_remaining today (Some d) =
         if Date.ltb today d then Days (days_between d today) else Today).
Proof.
  assert (Hnonneg : ∀ today deadline, 0 <= days_until_deadline today deadline).
  { intros today [d|]; unfold days_until_deadline; [|lia].
    cbv zeta. destruct (0 <? days_between d today) eqn:E; [|lia].
    apply Z.ltb_lt in E. lia. }
  split; [|split; [exact Hnonneg|]].
  - intros today [d|]; [|discriminate]. unfold get_days_remaining. cbv zeta.
    pose proof (Hnonneg today (Some d)) as H.
    destruct (0 <? _) eqn:E1; [discriminate|].
    destruct (_ =? 0) eqn:E2; [discriminate|].
    apply Z.ltb_ge in E1. apply Z.eqb_neq in E2. lia.
  - intros today d Hv Hd. unfold get_days_remaining, days_until_deadline.
    cbv zeta. unfold days_between.
    destruct (Date.ltb today d) eqn:E.
    + apply (ltb_iff_toordinal today d Hv Hd) in E.
      replace (0 <? toordinal d - toordinal today) with true
        by (symmetry; apply Z.ltb_lt; lia).
      replace (0 <? toordinal d - toordinal today) with true
        by (symmetry; apply Z.ltb_lt; lia).
      reflexivity.
    + assert (Hle : ¬ toordinal today < toordinal d).
      { intros H. apply (ltb_iff_toordinal today d Hv Hd) in H. congruence. }
      replace (0 <? toordinal d - toordinal today) with false
        by (symmetry; apply Z.ltb_ge; lia).
      reflexivity.
Qed.

Lemma days_remaining_never_reads_expired_witness :
  get_days_remaining (Date.mk 2030 1 1) (Some (Date.mk 2020 5 17)) = Today.
Proof.
  apply (proj2 (proj2 days_remaining_never_reads_expired)
           (Date.mk 2030 1 1) (Date.mk 2020 5 17)); reflexivity.
Defined.

Lemma two_years_on y m d :
  1 <= m <= 12 →
  toordinal (Date.mk (y + 2) m d) - toordinal (Date.mk y m d) <= 731.
Proof.
  intros Hm. unfold toordinal. cbn.
  replace (y + 2) with (y + 1 + 1) by lia.
  rewrite !days_before_year_succ. unfold year_length.
  pose proof (leap_mod4 y) as L0. pose proof (leap_mod4 (y + 1)) as L1.
  pose proof (leap_mod4 (y + 1 + 1)) as L2.
  assert (Hm' : ∀ yy, days_before_month yy m
                      = days_before_month y m
                        + (if (2 <? m) && Date.is_leap yy then 1 else 0)
                        - (if (2 <? m) && Date.is_leap y then 1 else 0)).
  { intros yy. unfold days_before_month. lia. }
  rewrite (Hm' (y + 1 + 1)).
  destruct (Date.is_leap y), (Date.is_leap (y + 1)), (Date.is_leap (y + 1 + 1)),
    (2 <? m); cbn;
    try specialize (L0 eq_refl); try specialize (L1 eq_refl);
    try specialize (L2 eq_refl); try lia;
    revert L0 L1 || revert L1 L2 || revert L0 L2;
    Z.div_mod_to_equations; lia.
Qed.

(** X20. A deadline the job form accepts is a deadline the model accepts,
    makes the job active on that day, and lies between 1 and 731 days
    ahead. *)
Theorem accepted_deadline_is_within_two_years today d v
    (Htoday : Date.valid today = true) (Hd : Date.valid d = true)
    (Hok : JobForm.clean_deadline today (Some d) = Ok v) :
  v = Some d
  ∧ clean today (Some d) = Ok tt
  ∧ (∀ job, Job.deadline job = d → Job.is_active today job = true)
  ∧ 1 <= days_until_deadline today (Some d) <= 731.
Proof.
  unfold JobForm.clean_deadline in Hok.
  destruct (Date.leb d today) eqn:Hleb; [discriminate|].
  unfold Date.replace_year in Hok.
  destruct (Date.valid (Date.mk (Date.year today + 2) (Date.month today)
                                (Date.day today))) eqn:Hmax; [|discriminate].
  destruct (Date.ltb _ d) eqn:Hlate; [discriminate|].
  injection Hok as <-.
  assert (Hlt : Date.ltb today d = true).
  { unfold Date.leb in Hleb. apply negb_false_iff in Hleb. exact Hleb. }
  split; [reflexivity|]. split.
  { unfold clean. rewrite Hleb. reflexivity. }
  split; [intros job <-; exact Hlt|].
  pose proof (proj1 (ltb_iff_toordinal today d Htoday Hd) Hlt) as H1.
  assert (H2 : toordinal d
               <= toordinal (Date.mk (Date.year today + 2) (Date.month today)
                                     (Date.day today))).
  { destruct (Z.le_gt_cases (toordinal d)
                (toordinal (Date.mk (Date.year today + 2) (Date.month today)
                                    (Date.day today)))) as [H|H]; [exact H|].
    apply (ltb_iff_toordinal _ d Hmax Hd) in H. congruence. }
  pose proof (valid_inv today Htoday) as (_ & Hm & _).
  pose proof (two_years_on (Date.year today) (Date.month today)
                (Date.day today) Hm) as H3.
  destruct today as [y m dd]. cbn in *.
  unfold days_until_deadline, days_between. cbv zeta.
  replace (0 <? toordinal d - toordinal (Date.mk y m dd)) with true
    by (symmetry; apply Z.ltb_lt; lia).
  lia.
Qed.

Lemma accepted_deadline_is_within_two_years_witness :
  1 <= days_until_deadline (Date.mk 2030 1 1) (Some (Date.mk 2032 1 1)) <= 731.
Proof.
  apply (accepted_deadline_is_within_two_years (Date.mk 2030 1 1)
           (Date.mk 2032 1 1) (Some (Date.mk 2032 1 1)));
    reflexivity.
Defined.

End JobDateFacts.

Section FormFacts.
Import FormFields.

(** X21. [clean_salary] lets a salary of zero through: the test that guards
    the two checks is false for a zero decimal.  It accepts the salaries from
    0 to 9,999,999.99, and returns what it was given. *)
Theorem clean_salary_accepts_zero (hundredths : Z) :
  (clean_salary (Some hundredths) = Ok (Some hundredths)
   ↔ (0 <= hundredths <= 999999999)%Z)
  ∧ (∀ v, clean_salary (Some hundredths) = Ok v → v = Some hundredths)
  ∧ clean_salary (Some 0%Z) = Ok (Some 0%Z)
  ∧ ((hundredths < 0)%Z →
     clean_salary (Some hundredths)
     = Raise (ValidationError "Salary must be greater than 0.")).
Proof.
  unfold clean_salary.
  destruct (hundredths =? 0)%Z eqn:E0;
    destruct (hundredths <=? 0)%Z eqn:E1;
    destruct (999999999 <? hundredths)%Z eqn:E2;
    rewrite ?Z.eqb_eq, ?Z.eqb_neq, ?Z.leb_le, ?Z.leb_gt, ?Z.ltb_lt, ?Z.ltb_ge
      in E0, E1, E2;
    (split; [split; [intros H; try discriminate H; lia
                    | intros H; try reflexivity; lia]|]);
    (split; [intros v H; try discriminate H; congruence|]);
    (split; [reflexivity|]); intros H; try reflexivity; lia.
Qed.

Lemma clean_salary_accepts_zero_witness :
  clean_salary (Some (-1)%Z)
  = Raise (ValidationError "Salary must be greater than 0.").
Proof.
  apply (clean_salary_accepts_zero (-1)%Z). reflexivity.
Defined.

Ltac cleaner_idempotent s t H :=
  let E := fresh "E" in
  destruct (Signals.truthy s) eqn:E;
  [ repeat match type of H with
           | (if ?b then _ else _) = _ =>
               let Hb := fresh "Hb" in destruct b eqn:Hb; [discriminate H|]
           end;
    injection H as <-;
    rewrite strip_idempotent;
    repeat match goal with Hb : _ = false |- _ => rewrite Hb; clear Hb end;
    destruct (Signals.truthy (Py.strip s)) eqn:?; [reflexivity|];
    rewrite (truthy_false _ ltac:(eassumption)) in *; reflexivity
  | injection H as <-; rewrite E; reflexivity ].

Lemma clean_title_idem s t : clean_title s = Ok t → clean_title t = Ok t.
Proof.
  unfold clean_title. intros H; cbv zeta in *. cleaner_idempotent s t H.
Qed.

Lemma clean_description_idem s t :
  clean_description s = Ok t → clean_description t = Ok t.
Proof.
  unfold clean_description. intros H; cbv zeta in *. cleaner_idempotent s t H.
Qed.

Lemma clean_requirements_idem s t :
  clean_requirements s = Ok t → clean_requirements t = Ok t.
Proof.
  unfold clean_requirements. intros H; cbv zeta in *. cleaner_idempotent s t H.
Qed.

Lemma clean_location_idem s t :
  clean_location s = Ok t → clean_location t = Ok t.
Proof.
  unfold clean_location. intros H; cbv zeta in *. cleaner_idempotent s t H.
Qed.

Lemma alert_clean_keyword_idem s t :
  alert_clean_keyword s = Ok t → alert_clean_keyword t = Ok t.
Proof.
  unfold alert_clean_keyword. intros H; cbv zeta in *.
  cleaner_idempotent s t H.
Qed.

Lemma alert_clean_location_idem s t :
  alert_clean_location s = Ok t → alert_clean_location t = Ok t.
Proof.
  unfold alert_clean_location. intros H; cbv zeta in *.
  cleaner_idempotent s t H.
Qed.

(** X22. The cleaners of the job form and of the alert form are idempotent:
    a value one of them returns is returned unchanged when it is cleaned
    again, so what is stored passes its own validation. *)
Theorem cleaners_are_idempotent (s t : string) :
  (clean_title s = Ok t → clean_title t = Ok t)
  ∧ (clean_description s = Ok t → clean_description t = Ok t)
  ∧ (clean_requirements s = Ok t → clean_requirements t = Ok t)
  ∧ (clean_location s = Ok t → clean_location t = Ok t)
  ∧ (alert_clean_keyword s = Ok t → alert_clean_keyword t = Ok t)
  ∧ (alert_clean_location s = Ok t → alert_clean_location t = Ok t).
Proof.
  repeat split;
    [ apply clean_title_idem | apply clean_description_idem
    | apply clean_requirements_idem | apply clean_location_idem
    | apply alert_clean_keyword_idem | apply alert_clean_location_idem ].
Qed.

Lemma cleaners_are_idempotent_witness :
  clean_title "Python Developer" = Ok "Python Developer".
Proof.
  apply (proj1 (cleaners_are_idempotent "  Python Developer " "Python Developer")).
  reflexivity.
Defined.

End FormFacts.
Section AlertViewFacts.
Import Http Site.

Lemma find_none_of_others (pk : N) (u : User.t) (l : list JobAlert.t) :
  (∀ a, In a l → JobAlert.pk a = pk → User.eqb (JobAlert.user a) u = false) →
  List.find (fun a => (JobAlert.pk a =? pk)%N && User.eqb (JobAlert.user a) u) l
  = None.
Proof.
  intros H. induction l as [|a l IH]; [reflexivity|]. simpl.
  destruct (JobAlert.pk a =? pk)%N eqn:Hpk; simpl.
  - apply N.eqb_eq in Hpk. rewrite (H a (or_introl eq_refl) Hpk).
    apply IH. intros b Hb. apply H. right. exact Hb.
  - apply IH. intros b Hb. apply H. right. exact Hb.
Qed.

Lemma find_some_of_own (pk : N) (u : User.t) (l : list JobAlert.t) a :
  In a l → JobAlert.pk a = pk → User.eqb (JobAlert.user a) u = true →
  ∃ b, List.find (fun a => (JobAlert.pk a =? pk)%N
                           && User.eqb (JobAlert.user a) u) l = Some b
       ∧ JobAlert.pk b = pk.
Proof.
  intros Hin Hpk Hu.
  destruct (List.find _ l) as [b|] eqn:Hf.
  - exists b. split; [reflexivity|]. apply find_some in Hf as [_ Hb].
    apply andb_prop in Hb as [Hb _]. apply N.eqb_eq. exact Hb.
  - exfalso. apply (find_none _ _ Hf) in Hin. simpl in Hin.
    rewrite Hu, (proj2 (N.eqb_eq _ _) Hpk) in Hin. discriminate.
Qed.

Lemma in_map_pk_unique (l : list JobAlert.t) a b :
  NoDup (map JobAlert.pk l) → In a l → In b l →
  JobAlert.pk a = JobAlert.pk b → a = b.
Proof.
  induction l as [|c l IH]; intros Hnd Ha Hb Hpk; [destruct Ha|].
  simpl in Hnd. apply NoDup_cons in Hnd as [Hc Hnd].
  destruct Ha as [->|Ha], Hb as [->|Hb]; [reflexivity| | |auto].
  - exfalso. apply Hc. rewrite Hpk. apply list_elem_of_In, in_map, Hb.
  - exfalso. apply Hc. rewrite <- Hpk. apply list_elem_of_In, in_map, Ha.
Qed.

Lemma delete_job_alert_unfold request pk s u :
  user request = Authenticated u →
  User.has_role u "jobseeker" = true →
  delete_job_alert request pk s =
  match List.find (fun a => (JobAlert.pk a =? pk)%N
                            && User.eqb (JobAlert.user a) u) (job_alerts s) with
  | Some b =>
      (JobAlert_delete b ;;;
       messages level_success "Job alert deleted successfully!" ;;;
       Eff.ret (Redirect "jobs:job_alerts" None)) s
  | None => (Raise Http404, s)
  end.
Proof.
  intros Huser Hrole.
  unfold delete_job_alert, jobseeker_required, delete_job_alert_view.
  rewrite Huser. cbn [is_authenticated request_user_has_role negb as_user].
  rewrite Hrole. cbn [negb].
  unfold Eff.bind at 1. cbn [Eff.ret].
  unfold Eff.bind at 1. unfold get_job_alert_or_404.
  destruct (List.find _ (job_alerts s)); reflexivity.
Qed.

(** X23. [delete_job_alert] removes an alert only for its owner.  For a job
    seeker, a key that is not the key of one of their own alerts answers 404
    and changes nothing; the key of an own alert removes that alert and,
    with it, every notification sent for it, and nothing else.  Alerts of
    other users, and the notifications sent for them, are never removed. *)
Theorem delete_job_alert_is_owner_only
    (request : Request) (pk : N) (s : State) (u : User.t)
    (Huser : user request = Authenticated u)
    (Hrole : User.has_role u "jobseeker" = true)
    (Hkeys : NoDup (map JobAlert.pk (job_alerts s))) :
  let r := delete_job_alert request pk s in
  ((∀ a, In a (job_alerts s) → JobAlert.pk a = pk →
         User.eqb (JobAlert.user a) u = false) →
   r = (Raise Http404, s))
  ∧ (∀ a, In a (job_alerts s) → JobAlert.pk a = pk →
          User.eqb (JobAlert.user a) u = true →
          fst r = Ok (Redirect "jobs:job_alerts" None)
          ∧ (∀ b, In b (job_alerts (snd r))
                  ↔ In b (job_alerts s) ∧ JobAlert.pk b ≠ pk)
          ∧ (∀ i n, notifications (snd r) !! i = Some n
                    ↔ notifications s !! i = Some n
                      ∧ JobAlert.pk (JobAlertNotification.job_alert n) ≠ pk))
  ∧ (∀ a, In a (job_alerts s) → User.eqb (JobAlert.user a) u = false →
          In a (job_alerts (snd r))
          ∧ ∀ i n, notifications s !! i = Some n →
                   JobAlert.pk (JobAlertNotification.job_alert n)
                   = JobAlert.pk a →
                   notifications (snd r) !! i = Some n).
Proof.
  intros r. subst r.
  rewrite (delete_job_alert_unfold request pk s u Huser Hrole).
  assert (Hdel : ∀ b, JobAlert.pk b = pk →
    let r := (JobAlert_delete b ;;;
              messages level_success "Job alert deleted successfully!" ;;;
              Eff.ret (Redirect "jobs:job_alerts" None)) s in
    fst r = Ok (Redirect "jobs:job_alerts" None)
    ∧ (∀ c, In c (job_alerts (snd r))
            ↔ In c (job_alerts s) ∧ JobAlert.pk c ≠ pk)
    ∧ (∀ i n, notifications (snd r) !! i = Some n
              ↔ notifications s !! i = Some n
                ∧ JobAlert.pk (JobAlertNotification.job_alert n) ≠ pk)).
  { intros b Hb. rewrite <- Hb.
    unfold JobAlert_delete, messages, Eff.bind, Eff.modify, Eff.ret.
    cbn [fst snd job_alerts notifications].
    split; [reflexivity|]. split.
    - intros c. rewrite filter_In, negb_true_iff, N.eqb_neq. reflexivity.
    - intros i n. rewrite map_lookup_filter_Some. reflexivity. }
  split; [|split].
  - intros Hothers. rewrite (find_none_of_others pk u _ Hothers). reflexivity.
  - intros a Hin Hpk Hown.
    destruct (find_some_of_own pk u _ a Hin Hpk Hown) as (b & Hf & Hb).
    rewrite Hf. exact (Hdel b Hb).
  - intros a Hin Hother.
    destruct (List.find _ (job_alerts s)) as [b|] eqn:Hf.
    + pose proof (find_some _ _ Hf) as [Hbin Hbb].
      apply andb_prop in Hbb as [Hbpk Hbu]. apply N.eqb_eq in Hbpk.
      destruct (Hdel b Hbpk) as (_ & Hal & Hno).
      assert (Hne : JobAlert.pk a ≠ pk).
      { intros E. rewrite <- Hbpk in E.
        rewrite (in_map_pk_unique _ a b Hkeys Hin Hbin E) in Hother.
        rewrite Hbu in Hother. discriminate. }
      split; [apply Hal; split; assumption|].
      intros i n Hn Hna. apply Hno. split; [exact Hn|]. rewrite Hna. exact Hne.
    + cbn [snd]. split; [exact Hin|]. intros i n Hn _. exact Hn.
Qed.

Lemma delete_job_alert_is_owner_only_witness :
  Site.delete_job_alert
    (mkRequest (Authenticated Sample.carl) GET None 1) 1
    (mkState [] 1 [] 1 [Sample.python_alert] 8 ∅ 1 [] [] []
             (Date.mk 2025 1 1) 0)
  = (Raise Http404,
     mkState [] 1 [] 1 [Sample.python_alert] 8 ∅ 1 [] [] []
             (Date.mk 2025 1 1) 0).
Proof.
  apply (delete_job_alert_is_owner_only
           (mkRequest (Authenticated Sample.carl) GET None 1) 1
           (mkState [] 1 [] 1 [Sample.python_alert] 8 ∅ 1 [] [] []
                    (Date.mk 2025 1 1) 0)
           Sample.carl eq_refl eq_refl).
  - apply NoDup_singleton.
  - intros a [<-|[]] _. reflexivity.
Defined.

End AlertViewFacts.
Section AlertFormFacts.
Import Http Site FormFields.

Lemma strip_nonempty_truthy s :
  (2 <= len (Py.strip s))%nat → Signals.truthy (Py.strip s) = true.
Proof. destruct (Py.strip s); simpl; [lia|reflexivity]. Qed.

(** What [alert_clean_keyword] accepts of a non-empty value. *)
Lemma alert_clean_keyword_ok s k :
  s ≠ "" → alert_clean_keyword s = Ok k →
  k = Py.strip s ∧ (2 <= len k <= 100)%nat
  ∧ MoreViews.search_keyword_ok k = true.
Proof.
  intros Hs. unfold alert_clean_keyword.
  destruct s as [|c s']; [congruence|]. cbn [Signals.truthy]. cbv zeta.
  destruct (len _ <? 2)%nat eqn:H2; [discriminate|].
  destruct (100 <? len _)%nat eqn:H100; [discriminate|].
  destruct (MoreViews.search_keyword_ok _) eqn:Hok; [|discriminate].
  cbn [negb]. intros [= <-].
  apply Nat.ltb_ge in H2, H100. auto.
Qed.

Lemma alert_clean_location_ok s l :
  s ≠ "" → alert_clean_location s = Ok l →
  l = Py.strip s ∧ (2 <= len l <= 100)%nat.
Proof.
  intros Hs. unfold alert_clean_location.
  destruct s as [|c s']; [congruence|]. cbn [Signals.truthy]. cbv zeta.
  destruct (len _ <? 2)%nat eqn:H2; [discriminate|].
  destruct (100 <? len _)%nat eqn:H100; [discriminate|].
  intros [= <-]. apply Nat.ltb_ge in H2, H100. auto.
Qed.

Lemma alert_clean_keyword_raises s e :
  alert_clean_keyword s = Raise e → ∃ m, e = ValidationError m.
Proof.
  unfold alert_clean_keyword. cbv zeta.
  repeat match goal with
         | |- context [if ?b then _ else _] => destruct b
         end; intros [= <-] || discriminate 1; eauto.
Qed.

Lemma alert_clean_location_raises s e :
  alert_clean_location s = Raise e → ∃ m, e = ValidationError m.
Proof.
  unfold alert_clean_location. cbv zeta.
  repeat match goal with
         | |- context [if ?b then _ else _] => destruct b
         end; intros [= <-] || discriminate 1; eauto.
Qed.

Lemma JobAlertModel_clean_stripped user k l :
  (match user with Some u => User.has_role u "jobseeker" = true | None => True end) →
  (2 <= len k)%nat → Py.strip k = k →
  (2 <= len l)%nat → Py.strip l = l →
  JobAlertModel.clean user k l = Ok tt.
Proof.
  intros Hu Hk Hks Hl Hls. unfold JobAlertModel.clean.
  rewrite Hks, Hls.
  assert (Hkt : Signals.truthy k = true) by (destruct k; simpl in *; [lia|reflexivity]).
  assert (Hlt : Signals.truthy l = true) by (destruct l; simpl in *; [lia|reflexivity]).
  rewrite Hkt, Hlt. cbn [negb andb].
  destruct user as [u|]; [|reflexivity].
  unfold User.has_role in Hu.
  destruct (User.userprofile u) as [p|]; [|discriminate].
  rewrite Hu. reflexivity.
Qed.

(** The form reads no state, writes none and raises nothing; what it
    accepts of two non-empty values is trimmed and of the lengths the
    cleaners ask for. *)
Lemma JobAlertForm_is_valid_cases posted s :
  fst posted ≠ Some "" → snd posted ≠ Some "" →
  ∃ v, JobAlertForm_is_valid posted s = (Ok v, s)
       ∧ ∀ k l, v = Some (k, l) →
           Py.strip k = k ∧ (2 <= len k <= 100)%nat
           ∧ MoreViews.search_keyword_ok k = true
           ∧ Py.strip l = l ∧ (2 <= len l <= 100)%nat.
Proof.
  destruct posted as [pk pl]. cbn [fst snd]. intros Hk Hl.
  unfold JobAlertForm_is_valid, clean_field. cbn [fst snd].
  assert (Hnone : ∃ v : option (string * string),
             (Ok None, s) = (Ok v, s)
             ∧ ∀ k l, v = Some (k, l) →
                 Py.strip k = k ∧ (2 <= len k <= 100)%nat
                 ∧ MoreViews.search_keyword_ok k = true
                 ∧ Py.strip l = l ∧ (2 <= len l <= 100)%nat)
    by (exists None; split; [reflexivity|discriminate]).
  destruct pk as [k0|]; cycle 1.
  { unfold Eff.bind, Eff.ret.
    destruct pl as [l0|]; [|exact Hnone].
    destruct (alert_clean_location l0) as [l|e] eqn:El; [exact Hnone|].
    destruct (alert_clean_location_raises _ _ El) as [m ->]. exact Hnone. }
  destruct (alert_clean_keyword k0) as [k|e] eqn:Ek; cycle 1.
  { destruct (alert_clean_keyword_raises _ _ Ek) as [m ->].
    unfold Eff.bind, Eff.ret.
    destruct pl as [l0|]; [|exact Hnone].
    destruct (alert_clean_location l0) as [l|e] eqn:El; [exact Hnone|].
    destruct (alert_clean_location_raises _ _ El) as [m' ->]. exact Hnone. }
  destruct pl as [l0|]; [|exact Hnone].
  destruct (alert_clean_location l0) as [l|e] eqn:El; cycle 1.
  { destruct (alert_clean_location_raises _ _ El) as [m' ->]. exact Hnone. }
  assert (Hk0 : k0 ≠ "") by congruence.
  assert (Hl0 : l0 ≠ "") by congruence.
  destruct (alert_clean_keyword_ok _ _ Hk0 Ek) as (Hke & Hkl & Hkok).
  destruct (alert_clean_location_ok _ _ Hl0 El) as (Hle & Hll).
  assert (Hks : Py.strip k = k) by (rewrite Hke; apply strip_idempotent).
  assert (Hls : Py.strip l = l) by (rewrite Hle; apply strip_idempotent).
  unfold Eff.bind, Eff.ret.
  rewrite (JobAlertModel_clean_stripped None k l I (proj1 Hkl) Hks
             (proj1 Hll) Hls).
  eexists. split; [reflexivity|]. intros k' l' [= <- <-]. auto.
Qed.

End AlertFormFacts.
Section AlertCreationFacts.
Import Http Site FormFields.

Lemma clean_field_pure {A B} (value : option A) (cleaner : A → Result B)
    (s : State) :
  (∀ v e, cleaner v = Raise e → ∃ m, e = ValidationError m) →
  ∃ r, clean_field value cleaner s = (Ok r, s).
Proof.
  intros H. unfold clean_field. destruct value as [v|]; [|eexists; reflexivity].
  destruct (cleaner v) as [b|e] eqn:E; [eexists; reflexivity|].
  destruct (H v e E) as [m ->]. eexists; reflexivity.
Qed.

Lemma JobAlertModel_clean_raises user k l e :
  JobAlertModel.clean user k l = Raise e → ∃ m, e = ValidationError m.
Proof.
  unfold JobAlertModel.clean.
  repeat match goal with
         | |- context [match ?x with _ => _ end] =>
             match x with
             | context [match _ with _ => _ end] => fail 1
             | _ => destruct x
             end
         end; intros [= <-] || discriminate 1; eauto.
Qed.

(** The form reads no state, writes none and raises nothing. *)
Lemma JobAlertForm_is_valid_pure posted s :
  ∃ v, JobAlertForm_is_valid posted s = (Ok v, s).
Proof.
  unfold JobAlertForm_is_valid.
  destruct (clean_field_pure (fst posted) alert_clean_keyword s
              alert_clean_keyword_raises) as [k Hk].
  destruct (clean_field_pure (snd posted) alert_clean_location s
              alert_clean_location_raises) as [l Hl].
  unfold Eff.bind at 1. rewrite Hk. unfold Eff.bind at 1. rewrite Hl.
  destruct k as [k|], l as [l|]; try (eexists; reflexivity).
  destruct (clean_field_pure (Some tt)
              (fun _ => JobAlertModel.clean None k l) s
              (fun _ => JobAlertModel_clean_raises None k l)) as [m Hm].
  unfold Eff.bind. rewrite Hm. eexists; reflexivity.
Qed.

(** X24. [create_job_alert] always answers a job seeker with the redirect to
    the list of alerts, and touches no table but that of the alerts.  It
    stores at most one alert, on a POST only: the alert belongs to the
    requester, takes the next key, and its keyword and location are trimmed,
    of 2 to 100 characters, the keyword of the allowed characters; the
    model's own [clean] accepts it.  The two fields of the form are required,
    so neither hands over an empty value. *)
Theorem create_job_alert_stores_clean_alerts
    (request : Request) (posted : option string * option string)
    (s : State) (u : User.t)
    (Huser : user request = Authenticated u)
    (Hrole : User.has_role u "jobseeker" = true)
    (Hkeyword : fst posted ≠ Some "")
    (Hlocation : snd posted ≠ Some "") :
  let r := create_job_alert request posted s in
  fst r = Ok (Redirect "jobs:job_alerts" None)
  ∧ notifications (snd r) = notifications s
  ∧ jobs (snd r) = jobs s
  ∧ companies (snd r) = companies s
  ∧ ((job_alerts (snd r) = job_alerts s
      ∧ job_alert_seq (snd r) = job_alert_seq s)
     ∨ ∃ k l,
         method request = POST
         ∧ job_alerts (snd r)
           = JobAlert.mk (job_alert_seq s) u k l :: job_alerts s
         ∧ job_alert_seq (snd r) = (job_alert_seq s + 1)%N
         ∧ Py.strip k = k ∧ (2 <= len k <= 100)%nat
         ∧ MoreViews.search_keyword_ok k = true
         ∧ Py.strip l = l ∧ (2 <= len l <= 100)%nat
         ∧ JobAlertModel.clean (Some u) k l = Ok tt).
Proof.
  intros r. subst r.
  unfold create_job_alert, jobseeker_required, create_job_alert_view.
  rewrite Huser. cbn [is_authenticated request_user_has_role negb as_user].
  rewrite Hrole. cbn [negb].
  destruct (method request) eqn:Hm.
  - unfold Eff.bind, Eff.ret. cbn [fst snd]. auto 10.
  - destruct (JobAlertForm_is_valid_cases posted s Hkeyword Hlocation)
      as (v & Hv & Hclean).
    unfold Eff.bind, Eff.ret. rewrite Hv.
    destruct v as [[k l]|].
    + destruct (Hclean k l eq_refl) as (Hks & Hkl & Hkok & Hls & Hll).
      unfold Eff.bind, Eff.ret, JobAlert_save, messages, Eff.modify.
      cbn [fst snd notifications jobs companies job_alerts job_alert_seq].
      repeat (split; [reflexivity|]). right. exists k, l.
      repeat (split; [reflexivity || assumption|]).
      apply (JobAlertModel_clean_stripped (Some u)); try assumption; lia.
    + unfold Eff.bind, Eff.ret, messages, Eff.modify.
      cbn [fst snd notifications jobs companies job_alerts job_alert_seq].
      auto 10.
Qed.

Lemma create_job_alert_stores_clean_alerts_witness :
  fst (Site.create_job_alert
         (mkRequest (Authenticated Sample.ann) POST None 1)
         (Some "  django ", Some "Remote")
         (mkState [] 1 [] 1 [Sample.python_alert] 8 ∅ 1 [] [] []
                  (Date.mk 2025 1 1) 0))
  = Ok (Redirect "jobs:job_alerts" None).
Proof.
  apply (create_job_alert_stores_clean_alerts
           (mkRequest (Authenticated Sample.ann) POST None 1)
           (Some "  django ", Some "Remote")
           (mkState [] 1 [] 1 [Sample.python_alert] 8 ∅ 1 [] [] []
                    (Date.mk 2025 1 1) 0)
           Sample.ann eq_refl eq_refl); discriminate.
Defined.

(** X25. Deleting the alert that [create_job_alert] has just stored gives
    back the tables of alerts and of notifications as they were, when no row
    held the key of the new alert before; the sequence of keys does not go
    back, so the key is not given out again. *)
Theorem create_then_delete_restores_alerts
    (request : Request) (posted : option string * option string)
    (s : State) (u : User.t)
    (Huser : user request = Authenticated u)
    (Hrole : User.has_role u "jobseeker" = true)
    (Hfresh : ∀ a, In a (job_alerts s) → JobAlert.pk a ≠ job_alert_seq s)
    (Hunused : ∀ i n, notifications s !! i = Some n →
                 JobAlert.pk (JobAlertNotification.job_alert n)
                 ≠ job_alert_seq s)
    (Hstored : job_alert_seq (snd (create_job_alert request posted s))
               ≠ job_alert_seq s) :
  let s1 := snd (create_job_alert request posted s) in
  let r := delete_job_alert request (job_alert_seq s) s1 in
  fst r = Ok (Redirect "jobs:job_alerts" None)
  ∧ job_alerts (snd r) = job_alerts s
  ∧ notifications (snd r) = notifications s
  ∧ job_alert_seq (snd r) = (job_alert_seq s + 1)%N.
Proof.
  intros s1 r. subst r s1.
  rewrite (delete_job_alert_unfold request _ _ u Huser Hrole).
  revert Hstored.
  unfold create_job_alert, jobseeker_required, create_job_alert_view.
  rewrite Huser. cbn [is_authenticated request_user_has_role negb as_user].
  rewrite Hrole. cbn [negb].
  destruct (method request).
  { unfold Eff.bind, Eff.ret. cbn [snd]. congruence. }
  unfold Eff.bind, Eff.ret.
  destruct (JobAlertForm_is_valid_pure posted s) as [[[k l]|] ->].
  - unfold Eff.bind, Eff.ret, JobAlert_save, messages, Eff.modify.
    cbn [fst snd job_alerts job_alert_seq notifications find JobAlert.pk
         JobAlert.user].
    intros _. rewrite N.eqb_refl.
    assert (Hu : User.eqb u u = true) by (unfold User.eqb; apply N.eqb_refl).
    rewrite Hu. cbn [andb].
    unfold JobAlert_delete, Eff.modify.
    cbn [fst snd job_alerts job_alert_seq notifications List.filter
         JobAlert.pk]. rewrite N.eqb_refl. cbn [negb].
    split; [reflexivity|]. split; [|split; [|reflexivity]].
    + apply forallb_filter_id. apply forallb_forall. intros a Ha.
      apply negb_true_iff, N.eqb_neq, Hfresh, Ha.
    + apply map_filter_id. intros i n Hn. cbn [snd]. apply (Hunused i n Hn).
  - unfold Eff.bind, Eff.ret, messages, Eff.modify.
    cbn [snd job_alert_seq]. congruence.
Qed.

Lemma create_then_delete_restores_alerts_witness :
  job_alerts
    (snd (Site.delete_job_alert
            (mkRequest (Authenticated Sample.ann) POST None 1) 8
            (snd (Site.create_job_alert
                    (mkRequest (Authenticated Sample.ann) POST None 1)
                    (Some "  django ", Some "Remote")
                    (mkState [] 1 [] 1 [Sample.python_alert] 8 ∅ 1 [] [] []
                             (Date.mk 2025 1 1) 0)))))
  = [Sample.python_alert].
Proof.
  apply (create_then_delete_restores_alerts
           (mkRequest (Authenticated Sample.ann) POST None 1)
           (Some "  django ", Some "Remote")
           (mkState [] 1 [] 1 [Sample.python_alert] 8 ∅ 1 [] [] []
                    (Date.mk 2025 1 1) 0)
           Sample.ann eq_refl eq_refl).
  - intros a [<-|[]]. discriminate.
  - intros i n Hn. simpl in Hn. rewrite lookup_empty in Hn. discriminate Hn.
  - vm_compute. discriminate.
Defined.

End AlertCreationFacts.
Section PostingFacts.
Import Http Site FormFields.

Lemma clean_field_cases {A B} (value : option A) (cleaner : A → Result B)
    (s : State) :
  (∃ v b, value = Some v ∧ cleaner v = Ok b
          ∧ clean_field value cleaner s = (Ok (Some b), s))
  ∨ clean_field value cleaner s = (Ok None, s)
  ∨ (∃ e, clean_field value cleaner s = (Raise e, s)).
Proof.
  unfold clean_field. destruct value as [v|]; [|right; left; reflexivity].
  destruct (cleaner v) as [b|e] eqn:E; [left; eauto|].
  destruct e; eauto.
Qed.

Lemma clean_salary_ok hundredths v :
  clean_salary (Some hundredths) = Ok v →
  v = Some hundredths ∧ (0 <= hundredths <= 999999999)%Z.
Proof.
  unfold clean_salary.
  destruct (hundredths =? 0)%Z eqn:E0.
  - intros [= <-]. apply Z.eqb_eq in E0. split; [reflexivity|lia].
  - destruct (hundredths <=? 0)%Z eqn:E1; [discriminate|].
    destruct (999999999 <? hundredths)%Z eqn:E2; [discriminate|].
    intros [= <-]. apply Z.leb_gt in E1. apply Z.ltb_ge in E2.
    split; [reflexivity|lia].
Qed.

Lemma clean_deadline_ok today d v :
  JobForm.clean_deadline today (Some d) = Ok v →
  v = Some d ∧ Date.ltb today d = true.
Proof.
  unfold JobForm.clean_deadline.
  destruct (Date.leb d today) eqn:Hleb; [discriminate|].
  destruct (Date.replace_year _ _); [|discriminate].
  destruct (Date.ltb _ d); [discriminate|]. intros [= <-].
  split; [reflexivity|]. unfold Date.leb in Hleb.
  apply negb_false_iff in Hleb. exact Hleb.
Qed.

Ltac field_step s :=
  unfold Eff.bind at 1; cbv beta;
  match goal with
  | |- context [clean_field ?value ?cleaner s] =>
      let v := fresh "v" in let b := fresh "b" in
      let Hv := fresh "Hv" in let Hc := fresh "Hc" in let e := fresh "e" in
      destruct (clean_field_cases value cleaner s)
        as [(v & b & Hv & Hc & ->)|[->|[e ->]]];
      cbv beta iota;
      [ | | eexists; split; [reflexivity|discriminate] ]
  end.

(** The form of a job writes no state; what it accepts passes its own
    cleaners again, has a salary within the bounds and a deadline after
    today. *)
Lemma JobForm_is_valid_cases posted s :
  ∃ r, JobForm_is_valid posted s = (r, s)
       ∧ ∀ form, r = Ok (Some form) →
           clean_title (cleaned_title form) = Ok (cleaned_title form)
           ∧ clean_description (cleaned_description form)
             = Ok (cleaned_description form)
           ∧ clean_requirements (cleaned_requirements form)
             = Ok (cleaned_requirements form)
           ∧ clean_location (cleaned_location form)
             = Ok (cleaned_location form)
           ∧ (0 <= cleaned_salary form <= 999999999)%Z
           ∧ Date.ltb (today s) (cleaned_deadline form) = true.
Proof.
  unfold JobForm_is_valid. unfold Eff.bind at 1. unfold get.
  cbv beta iota.
  field_step s; field_step s; field_step s; field_step s; field_step s;
    field_step s;
    repeat match goal with
           | |- context [match ?x with _ => _ end] => is_var x; destruct x
           end;
    try (unfold Eff.ret; eexists; split; [reflexivity|discriminate]).
  apply clean_salary_ok in Hc3 as [[= ->] Hsal].
  apply clean_deadline_ok in Hc4 as [[= ->] Hdl].
  field_step s;
    unfold Eff.ret; eexists; (split; [reflexivity|]); try discriminate.
  intros form [= <-].
  cbn [cleaned_title cleaned_description cleaned_requirements
       cleaned_location cleaned_salary cleaned_deadline].
  eauto 10 using clean_title_idem, clean_description_idem,
    clean_requirements_idem, clean_location_idem.
Qed.


Section WithSettings.
Variable settings : Signals.Settings.

(** What [form.save()] leaves behind: the new row first in its table, and
    the effect of the receiver on the tables it writes. *)
Lemma Job_save_effect faults company form s :
  let job := Job.mk (job_seq s) company (cleaned_title form)
               (cleaned_description form) (cleaned_requirements form)
               (cleaned_location form) (cleaned_salary form)
               (cleaned_deadline form) in
  let t := Fanout.insert_rows (notifications s) (notification_seq s)
             (Fanout.written settings faults job (world_of s)) in
  ∃ l,
    Job_save settings faults company form s =
    (Ok job,
     mkState (companies s) (company_seq s) (job :: jobs s) (job_seq s + 1)%N
             (job_alerts s) (job_alert_seq s) (fst t) (snd t) (flash s)
             (log s ++ l)
             (outbox s ++
                map (Delivery.email_for settings job)
                    (List.filter (Delivery.mailed settings faults job)
                       (Signals.all_matches settings job (job_alerts s))))
             (today s) (now s)).
Proof.
  intros job t. unfold Job_save. fold job.
  unfold Eff.bind, receiver, Eff.ret.
  match goal with |- context [Signals.check_job_alerts _ _ _ _ ?w] =>
    destruct (check_job_alerts_effect settings faults job w) as (l & _ & ->)
  end.
  eexists. unfold with_world, world_of.
  cbn [Signals.job_alerts Signals.notifications Signals.notification_seq
       Signals.log Signals.outbox Signals.now companies company_seq jobs
       job_seq job_alerts job_alert_seq notifications notification_seq flash
       log outbox today now].
  subst t. unfold world_of. reflexivity.
Qed.

Ltac no_job :=
  left; unfold Eff.ret, Eff.raise; cbv beta iota;
  cbn [fst snd jobs job_seq job_alerts notifications notification_seq
       outbox log];
  repeat split; try reflexivity;
  let H := fresh in intros H; discriminate H.

(** The ways a request to [JobCreateView] ends: without a job, the receiver
    not being run; or with the job of the form stored for the one company of
    the requester. *)
Lemma JobCreateView_cases faults request posted s :
  let r := JobCreateView settings faults request posted s in
  (fst r ≠ Ok (Redirect "jobs:job_list" None)
   ∧ jobs (snd r) = jobs s ∧ job_seq (snd r) = job_seq s
   ∧ job_alerts (snd r) = job_alerts s
   ∧ notifications (snd r) = notifications s
   ∧ notification_seq (snd r) = notification_seq s
   ∧ outbox (snd r) = outbox s ∧ log (snd r) = log s)
  ∨ ∃ u company form,
      user request = Authenticated u
      ∧ User.has_role u "employer" = true
      ∧ method request = POST
      ∧ List.filter (fun c => User.eqb (Company.user c) u) (companies s)
        = [company]
      ∧ JobForm_is_valid posted s = (Ok (Some form), s)
      ∧ ∀ faults',
          JobCreateView settings faults' request posted s =
          (Job_save settings faults' company form ;;;
           Eff.ret (Redirect "jobs:job_list" None))
            (mkState (companies s) (company_seq s) (jobs s) (job_seq s)
               (job_alerts s) (job_alert_seq s) (notifications s)
               (notification_seq s)
               (flash s ++ [(level_success, "Job posted successfully!")])
               (log s) (outbox s) (today s) (now s)).
Proof.
  intros r.
  assert (Hr : r = JobCreateView settings faults request posted s)
    by reflexivity.
  clearbody r. revert Hr.
  unfold JobCreateView, EmployerRequiredMixin_dispatch,
    LoginRequiredMixin_dispatch, handle_no_permission.
  destruct (user request) as [|u] eqn:Huser;
    cbn [is_authenticated negb request_user_has_role orb Mixins.raise_exception].
  { intros ->. no_job. }
  destruct (User.has_role u "employer") eqn:Hrole; cbn [negb];
    [|intros ->; no_job].
  unfold JobCreateView_handler.
  destruct (method request) eqn:Hm; [intros ->; no_job|].
  destruct (JobForm_is_valid_cases posted s) as (v & Hv & _).
  unfold Eff.bind at 1. rewrite Hv.
  destruct v as [[form|]|e]; [|intros ->; no_job|intros ->; no_job].
  unfold JobCreateView_form_valid. rewrite Huser. cbn [as_user].
  unfold Eff.bind at 1. unfold Eff.ret at 1. cbv beta iota.
  unfold Eff.bind at 1. unfold Company_objects_get.
  destruct (List.filter _ (companies s)) as [|company [|c2 rest]] eqn:Hc.
  - unfold Eff.bind, messages, Eff.modify. intros ->. no_job.
  - intros _. right. exists u, company, form.
    repeat (split; [reflexivity || assumption|]).
    intros faults'.
    unfold Eff.bind at 1. rewrite Hv.
    unfold Eff.bind at 1. unfold Eff.ret at 1. cbv beta iota.
    unfold Eff.bind at 1. rewrite Hc.
    unfold Eff.bind at 1. unfold messages, Eff.modify. reflexivity.
  - intros ->. no_job.
Qed.

End WithSettings.

End PostingFacts.
Section JobCreateFacts.
Import Http Site FormFields.

(** X26. [JobCreateView] stores a job only on a POST of an employer who has
    exactly one company, and only when the form is valid.  The job is then
    put first in the table under the next key and belongs to that company;
    its title, description, requirements and location pass their cleaners
    again, its salary lies between 0 and 9,999,999.99 and it is active on
    the day.  In every other case neither a job nor a notification is
    written and no mail is sent. *)
Theorem job_is_posted_only_with_a_company
    (settings : Signals.Settings) (faults : Signals.Faults)
    (request : Request) (posted : JobFormData.t) (s : State) :
  let r := JobCreateView settings faults request posted s in
  (fst r ≠ Ok (Redirect "jobs:job_list" None)
   ∧ jobs (snd r) = jobs s ∧ job_seq (snd r) = job_seq s
   ∧ notifications (snd r) = notifications s
   ∧ outbox (snd r) = outbox s)
  ∨ ∃ u company job,
      user request = Authenticated u
      ∧ User.has_role u "employer" = true
      ∧ method request = POST
      ∧ List.filter (fun c => User.eqb (Company.user c) u) (companies s)
        = [company]
      ∧ fst r = Ok (Redirect "jobs:job_list" None)
      ∧ jobs (snd r) = job :: jobs s
      ∧ job_seq (snd r) = (job_seq s + 1)%N
      ∧ Job.pk job = job_seq s
      ∧ Job.company job = company
      ∧ clean_title (Job.title job) = Ok (Job.title job)
      ∧ clean_description (Job.description job) = Ok (Job.description job)
      ∧ clean_requirements (Job.requirements job)
        = Ok (Job.requirements job)
      ∧ clean_location (Job.location job) = Ok (Job.location job)
      ∧ (0 <= Job.salary job <= 999999999)%Z
      ∧ Job.is_active (today s) job = true.
Proof.
  intros r.
  destruct (JobCreateView_cases settings faults request posted s)
    as [(Hne & Hj & Hs & _ & Hn & _ & Ho & _)
       |(u & company & form & Huser & Hrole & Hm & Hc & Hv & Hr)].
  { left. auto. }
  right. specialize (Hr faults). fold r in Hr.
  destruct (JobForm_is_valid_cases posted s) as (v & Hv' & Hform).
  rewrite Hv in Hv'. injection Hv' as <-.
  destruct (Hform form eq_refl) as (Ht & Hd & Hq & Hl & Hsal & Hdl).
  match type of Hr with _ = (_ ;;; _) ?s1 =>
    destruct (Job_save_effect settings faults company form s1) as (l & Hsave)
  end.
  unfold Eff.bind, Eff.ret in Hr. rewrite Hsave in Hr.
  cbn [companies company_seq jobs job_seq job_alerts job_alert_seq
       notifications notification_seq flash log outbox today now] in Hr.
  exists u, company.
  eexists. rewrite Hr. cbn [fst snd jobs job_seq].
  repeat (split; [reflexivity || assumption|]).
  cbn [Job.pk Job.company Job.title Job.description Job.requirements
       Job.location Job.salary Job.deadline].
  repeat (split; [reflexivity || assumption|]).
  unfold Job.is_active. cbn [Job.deadline]. exact Hdl.
Qed.

Lemma job_is_posted_only_with_a_company_witness :
  let r :=
    Site.JobCreateView (Sample.settings Lookup.CaseInsensitive)
      Signals.no_faults
      (mkRequest (Authenticated Sample.bob) POST None 1)
      (JobFormData.mk (Some "  Python Developer ")
         (Some "Build and run our services.") (Some "Django and REST")
         (Some "Remote") (Some 0%Z) (Some (Date.mk 2030 6 30)))
      (mkState [Sample.acme] 2 [] 1 [Sample.python_alert] 2 ∅ 1 [] [] []
               (Date.mk 2030 1 1) 0) in
  ∃ job, jobs (snd r) = [job]
         ∧ Job.company job = Sample.acme
         ∧ clean_title (Job.title job) = Ok (Job.title job)
         ∧ (0 <= Job.salary job <= 999999999)%Z
         ∧ Job.is_active (Date.mk 2030 1 1) job = true.
Proof.
  cbv zeta.
  destruct (job_is_posted_only_with_a_company
              (Sample.settings Lookup.CaseInsensitive) Signals.no_faults
              (mkRequest (Authenticated Sample.bob) POST None 1)
              (JobFormData.mk (Some "  Python Developer ")
                 (Some "Build and run our services.") (Some "Django and REST")
                 (Some "Remote") (Some 0%Z) (Some (Date.mk 2030 6 30)))
              (mkState [Sample.acme] 2 [] 1 [Sample.python_alert] 2 ∅ 1 [] []
                       [] (Date.mk 2030 1 1) 0))
    as [(Hne & _)
       |(u & company & job & Huser & _ & _ & Hc & _ & Hjobs & _ & _ & Hco
         & Ht & _ & _ & _ & Hsal & Hact)].
  - exfalso. apply Hne. reflexivity.
  - exists job. split; [exact Hjobs|]. split; [|split; [exact Ht|split;
      [exact Hsal|exact Hact]]].
    injection Huser as <-. rewrite Hco.
    cbn in Hc. injection Hc as <-. reflexivity.
Defined.

(** X27. When [JobCreateView] stores a job, the receiver of [post_save]
    has run once on it: the notifications are those of the alerts that match
    and whose row could be written, each under the next key, a mail is queued
    for each one delivered, and the alerts are untouched.  The answer, the
    stored job and the flash message do not depend on what fails in the
    receiver. *)
Theorem posting_runs_the_fanout_once
    (settings : Signals.Settings) (faults : Signals.Faults)
    (request : Request) (posted : JobFormData.t) (s : State) (job : Job.t)
    (Hstored :
       jobs (snd (JobCreateView settings faults request posted s))
       = job :: jobs s) :
  let r := JobCreateView settings faults request posted s in
  let rows := Fanout.written settings faults job (world_of s) in
  notifications (snd r)
  = fst (Fanout.insert_rows (notifications s) (notification_seq s) rows)
  ∧ notification_seq (snd r)
    = (notification_seq s + N.of_nat (length rows))%N
  ∧ outbox (snd r)
    = (outbox s ++
         map (Delivery.email_for settings job)
             (List.filter (Delivery.mailed settings faults job)
                (Signals.all_matches settings job (job_alerts s))))%list
  ∧ job_alerts (snd r) = job_alerts s
  ∧ flash (snd r)
    = (flash s ++ [(level_success, "Job posted successfully!")])%list
  ∧ ∀ faults',
      let r' := JobCreateView settings faults' request posted s in
      fst r' = fst r ∧ jobs (snd r') = jobs (snd r)
      ∧ flash (snd r') = flash (snd r).
Proof.
  intros r rows. subst rows.
  destruct (JobCreateView_cases settings faults request posted s)
    as [(_ & Hj & _)
       |(u & company & form & Huser & Hrole & Hm & Hc & Hv & Hr)].
  { exfalso. rewrite Hj in Hstored.
    apply (f_equal (@length _)) in Hstored. simpl in Hstored. lia. }
  pose proof (Hr faults) as Hr0. fold r in Hr0.
  match type of Hr0 with _ = (_ ;;; _) ?s1 =>
    destruct (Job_save_effect settings faults company form s1) as (l & Hsave);
    set (s1' := s1) in *
  end.
  unfold Eff.bind, Eff.ret in Hr0. rewrite Hsave in Hr0.
  assert (Hjob : job = Job.mk (job_seq s) company (cleaned_title form)
                         (cleaned_description form)
                         (cleaned_requirements form) (cleaned_location form)
                         (cleaned_salary form) (cleaned_deadline form)).
  { fold r in Hstored. rewrite Hr0 in Hstored. cbn in Hstored.
    injection Hstored as <-. reflexivity. }
  rewrite Hr0. subst s1'.
  cbn [fst snd companies company_seq jobs job_seq job_alerts job_alert_seq
       notifications notification_seq flash log outbox today now].
  rewrite <- Hjob. unfold world_of at 1 2.
  cbn [companies company_seq jobs job_seq job_alerts job_alert_seq
       notifications notification_seq flash log outbox today now].
  fold (world_of s).
  split; [reflexivity|]. split; [apply insert_rows_seq|].
  split; [reflexivity|]. split; [reflexivity|]. split; [reflexivity|].
  intros faults'. cbv zeta. rewrite (Hr faults').
  match goal with |- context [(_ ;;; _) ?s1] =>
    destruct (Job_save_effect settings faults' company form s1) as (l' & Hsave')
  end.
  unfold Eff.bind, Eff.ret. rewrite Hsave'.
  cbn [fst snd companies company_seq jobs job_seq job_alerts job_alert_seq
       notifications notification_seq flash log outbox today now].
  rewrite <- Hjob. auto.
Qed.

Lemma posting_runs_the_fanout_once_witness :
  flash
    (snd (Site.JobCreateView (Sample.settings Lookup.CaseInsensitive)
            Signals.no_faults
            (mkRequest (Authenticated Sample.bob) POST None 1)
            (JobFormData.mk (Some "Python Developer")
               (Some "Build and run our services.") (Some "Django and REST")
               (Some "Remote") (Some 9000000%Z) (Some (Date.mk 2030 6 30)))
            (mkState [Sample.acme] 2 [] 1 [Sample.python_alert] 2 ∅ 1 [] []
                     [] (Date.mk 2030 1 1) 0)))
  = [(level_success, "Job posted successfully!")].
Proof.
  apply (posting_runs_the_fanout_once
           (Sample.settings Lookup.CaseInsensitive) Signals.no_faults
           (mkRequest (Authenticated Sample.bob) POST None 1)
           (JobFormData.mk (Some "Python Developer")
              (Some "Build and run our services.") (Some "Django and REST")
              (Some "Remote") (Some 9000000%Z) (Some (Date.mk 2030 6 30)))
           (mkState [Sample.acme] 2 [] 1 [Sample.python_alert] 2 ∅ 1 [] []
                    [] (Date.mk 2030 1 1) 0)
           (Job.mk 1 Sample.acme "Python Developer"
              "Build and run our services." "Django and REST" "Remote"
              9000000 (Date.mk 2030 6 30))).
  vm_compute. reflexivity.
Defined.

End JobCreateFacts.
Section CompanyFacts.
Import Http Site.

Lemma filter_map_preserved {A} (p : A → bool) (f : A → A) (l : list A) :
  (∀ x, In x l → p (f x) = p x) →
  List.filter p (map f l) = map f (List.filter p l).
Proof.
  induction l as [|x l IH]; intros H; [reflexivity|]. simpl.
  rewrite (H x (or_introl eq_refl)), IH by (intros y Hy; apply H; right; exact Hy).
  destruct (p x); reflexivity.
Qed.

Lemma company_pk_unique (l : list Company.t) a b :
  NoDup (map Company.pk l) → In a l → In b l →
  Company.pk a = Company.pk b → a = b.
Proof.
  induction l as [|c l IH]; intros Hnd Ha Hb Hpk; [destruct Ha|].
  simpl in Hnd. apply NoDup_cons in Hnd as [Hc Hnd].
  destruct Ha as [->|Ha], Hb as [->|Hb]; [reflexivity| | |auto].
  - exfalso. apply Hc. rewrite Hpk. apply list_elem_of_In, in_map, Hb.
  - exfalso. apply Hc. rewrite <- Hpk. apply list_elem_of_In, in_map, Ha.
Qed.

(** X28. [CompanyProfileView] never gives an employer a second company: the
    rows of other users are left as they are, an employer with at most one
    company has at most one afterwards, and after the redirect to the profile
    the requester has exactly one, with the name and the location of the
    form.  The second check of the role inside [get] and [post] never
    fires behind the mixin. *)
Theorem company_profile_keeps_one_company
    (request : Request) (posted : option (string * string)) (s : State)
    (u : User.t)
    (Huser : user request = Authenticated u)
    (Hkeys : NoDup (map Company.pk (companies s))) :
  let r := CompanyProfileView request posted s in
  let mine st :=
    List.filter (fun c => User.eqb (Company.user c) u) (companies st) in
  let others st :=
    List.filter (fun c => negb (User.eqb (Company.user c) u)) (companies st) in
  others (snd r) = others s
  ∧ ((length (mine s) <= 1)%nat → (length (mine (snd r)) <= 1)%nat)
  ∧ (fst r = Ok (Redirect "companies:profile" None) →
     ∃ name location pk,
       posted = Some (name, location)
       ∧ method request = POST
       ∧ mine (snd r) = [Company.mk pk u name location])
  ∧ fst r ≠ Ok (Redirect "accounts:profile" None)
  ∧ jobs (snd r) = jobs s
  ∧ job_alerts (snd r) = job_alerts s.
Proof.
  intros r mine others.
  assert (Hr : r = CompanyProfileView request posted s) by reflexivity.
  clearbody r. revert Hr.
  assert (Huu : User.eqb u u = true) by (unfold User.eqb; apply N.eqb_refl).
  assert (Hsame : ∀ v : Result HttpResponse,
            v ≠ Ok (Redirect "companies:profile" None) →
            v ≠ Ok (Redirect "accounts:profile" None) →
            r = (v, s) →
            others (snd r) = others s
            ∧ ((length (mine s) <= 1)%nat → (length (mine (snd r)) <= 1)%nat)
            ∧ (fst r = Ok (Redirect "companies:profile" None) →
               ∃ name location pk,
                 posted = Some (name, location)
                 ∧ method request = POST
                 ∧ mine (snd r) = [Company.mk pk u name location])
            ∧ fst r ≠ Ok (Redirect "accounts:profile" None)
            ∧ jobs (snd r) = jobs s
            ∧ job_alerts (snd r) = job_alerts s).
  { intros v Hv1 Hv2 ->. cbn [fst snd].
    split; [reflexivity|]. split; [auto|]. split; [intros E; contradiction|].
    split; [assumption|]. split; reflexivity. }
  unfold CompanyProfileView, login_required, EmployerRequiredMixin_dispatch,
    LoginRequiredMixin_dispatch, handle_no_permission.
  rewrite Huser.
  cbn [is_authenticated negb request_user_has_role orb Mixins.raise_exception].
  destruct (User.has_role u "employer") eqn:Hrole; cbn [negb];
    [|apply Hsame; intros E; discriminate E].
  destruct (method request) eqn:Hm.
  { unfold CompanyProfileView_get. rewrite Huser.
    cbn [request_user_has_role as_user]. rewrite Hrole. cbn [negb].
    unfold Eff.bind, Eff.ret, Company_objects_get.
    destruct (List.filter _ (companies s)) as [|c [|c2 rest]];
      apply Hsame; intros E; discriminate E. }
  unfold CompanyProfileView_post. rewrite Huser.
  cbn [request_user_has_role as_user]. rewrite Hrole. cbn [negb].
  unfold Eff.bind at 1. unfold Eff.ret at 1. cbv beta iota.
  unfold Eff.bind at 1. unfold Company_objects_get.
  fold (mine s).
  destruct (mine s) as [|c [|c2 rest]] eqn:Hmine;
    [| |apply Hsame; intros E; discriminate E].
  - (* no company yet *)
    destruct posted as [[name location]|];
      [|apply Hsame; intros E; discriminate E].
    unfold Eff.bind, Eff.ret, Company_save, messages, Eff.modify.
    intros ->. cbn [fst snd]. subst mine others.
    cbn [companies jobs job_alerts List.filter Company.user].
    rewrite Huu. cbn [negb]. rewrite Hmine.
    split; [reflexivity|]. split; [simpl; lia|].
    split.
    { intros _. exists name, location, (company_seq s).
      split; [reflexivity|]. split; reflexivity. }
    split; [intros E; discriminate E|]. split; reflexivity.
  - (* one company: the row is updated *)
    destruct posted as [[name location]|];
      [|apply Hsame; intros E; discriminate E].
    unfold Eff.bind, Eff.ret, Company_save, messages, Eff.modify.
    intros ->. cbn [fst snd]. subst mine others.
    cbn [companies jobs job_alerts].
    assert (Hcin : In c (companies s) ∧ User.eqb (Company.user c) u = true).
    { apply (filter_In (fun c => User.eqb (Company.user c) u)).
      rewrite Hmine. left. reflexivity. }
    destruct Hcin as [Hcin Hcu].
    set (f := fun c0 : Company.t =>
                if (Company.pk c0 =? Company.pk c)%N
                then Company.mk (Company.pk c0) u name location else c0).
    assert (Hown : ∀ x, In x (companies s) →
              User.eqb (Company.user (f x)) u = User.eqb (Company.user x) u).
    { intros x Hx. unfold f.
      destruct (Company.pk x =? Company.pk c)%N eqn:Hpk; [|reflexivity].
      apply N.eqb_eq in Hpk.
      rewrite (company_pk_unique _ x c Hkeys Hx Hcin Hpk).
      cbn [Company.user]. rewrite Huu, Hcu. reflexivity. }
    split.
    { rewrite (filter_map_preserved
                 (fun c => negb (User.eqb (Company.user c) u)) f)
        by (intros x Hx; rewrite (Hown x Hx); reflexivity).
      rewrite <- (map_id (List.filter _ (companies s))) at 2.
      apply map_ext_in. intros x Hx. apply filter_In in Hx as [Hx Hxu].
      unfold f. destruct (Company.pk x =? Company.pk c)%N eqn:Hpk;
        [|reflexivity].
      apply N.eqb_eq in Hpk.
      rewrite (company_pk_unique _ x c Hkeys Hx Hcin Hpk) in Hxu.
      rewrite Hcu in Hxu. discriminate Hxu. }
    rewrite (filter_map_preserved
               (fun c => User.eqb (Company.user c) u) f _ Hown), Hmine.
    cbn [map length]. split; [lia|].
    split.
    { intros _. exists name, location, (Company.pk c).
      split; [reflexivity|]. split; [reflexivity|].
      unfold f. rewrite N.eqb_refl. reflexivity. }
    split; [intros E; discriminate E|]. split; reflexivity.
Qed.

Lemma company_profile_keeps_one_company_witness :
  List.filter (fun c => negb (User.eqb (Company.user c) Sample.bob))
    (companies
       (snd (Site.CompanyProfileView
               (mkRequest (Authenticated Sample.bob) POST None 1)
               (Some ("Acme", "Berlin"))
               (mkState [Company.mk 5 Sample.eve0 "Globex" "Paris"] 6 [] 1 []
                        1 ∅ 1 [] [] [] (Date.mk 2030 1 1) 0))))
  = [Company.mk 5 Sample.eve0 "Globex" "Paris"].
Proof.
  apply (company_profile_keeps_one_company
           (mkRequest (Authenticated Sample.bob) POST None 1)
           (Some ("Acme", "Berlin"))
           (mkState [Company.mk 5 Sample.eve0 "Globex" "Paris"] 6 [] 1 []
                    1 ∅ 1 [] [] [] (Date.mk 2030 1 1) 0)
           Sample.bob eq_refl).
  apply NoDup_singleton.
Defined.

End CompanyFacts.
